(** * Release-notes enrichment pipeline: a shallow embedding of
      [src/jira/jira_enricher.py] (class [JiraEnricher]).

    The development follows the Python source function by function:
    - [Py]: the fragment of Python's built-in [str] and [re] behaviour the
      enricher relies on ([str.strip], [str.find], slices, [re.findall] with
      the fenced-block pattern, [re.match] with the ticket pattern);
    - [Json]: a recogniser for [json.loads], used in the concrete runs;
    - [Extractor]: [JiraEnricher._extract_json_from_text];
    - [Enricher]: [analyze_issue_with_ai], [add_ai_analysis_to_issue],
      [_has_meaningful_content] and [fetch_and_analyze_issues];
    - [StringFacts], [ExtractorFacts], [Trace], [RetryFacts], [EnrichFacts],
      [ContentFacts], [BatchFacts]: the properties;
    - [Examples]: concrete configurations, model services and runs;
    - [ExtractorProps], [RetryProps], [EnrichProps], [BatchProps]: further
      properties of the four functions above;
    - [FileUtils]: [format_issue] of [src/utils/file_utils.py];
    - [JiraClient]: [JiraAPIWrapper.parse_issues] of [src/jira/jira_client.py];
    - [Setup]: the constructor of [JiraEnricher] and
      [_adjust_config_for_model];
    - [AppConfig]: [Config] of [src/config/app_config.py];
    - [Blueprint]: [validate_input], [process_with_timeout] and the two
      handlers of [function_blueprints/release_notes_blueprint.py];
    - [MoreExamples]: concrete runs of these.

    Python [str] values are modelled by [string]; a character is a code point
    below 256.  Dictionaries are [gmap string pyval].  Calls that leave the
    repository ([json.loads], the model call [kernel.invoke], the pydantic
    schema classes, the Jira and Confluence clients) are section variables.
    An execution is a function from a state to a result (a value or a raised
    exception) and a new state; the state carries the trace of log records,
    model calls, sleeps and persistence calls.  Log records keep the message
    template of the source and the numbers interpolated into it; the log
    records written inside [_extract_json_from_text] and the dump of
    [e.response.text] in the last [except] clause are not recorded. *)

From Stdlib Require Import ZArith Ascii String Bool Lia.
From stdpp Require Import gmap strings list.

(* ===================================================================== *)
(** ** Python built-ins used by the enricher *)
(* ===================================================================== *)

Module Py.

(** A string literal of this file holds no double quote: the character is
    written by its code, and [quoted s] is [s] between two of them. *)
Definition quoted (s : string) : string :=
  String "034"%char (s +:+ String "034"%char EmptyString).

(** [str.isspace] on one character (CPython's [_Py_ascii_whitespace] table,
    plus the two Latin-1 whitespace code points U+0085 and U+00A0).  The
    regular-expression class [\s] on [str] patterns uses the same test. *)
Definition isspace (c : ascii) : bool :=
  let n := nat_of_ascii c in
  ((9 <=? n) && (n <=? 13)) || ((28 <=? n) && (n <=? 32))
  || (n =? 133) || (n =? 160).

(** [\d] on a [str] pattern: the decimal digits; below 256 these are 0-9. *)
Definition isdigit (c : ascii) : bool :=
  let n := nat_of_ascii c in (48 <=? n) && (n <=? 57).

Fixpoint lstrip (s : string) : string :=
  match s with
  | EmptyString => EmptyString
  | String c s' => if isspace c then lstrip s' else s
  end.

Fixpoint rstrip (s : string) : string :=
  match s with
  | EmptyString => EmptyString
  | String c s' =>
      match rstrip s' with
      | EmptyString => if isspace c then EmptyString else String c EmptyString
      | r => String c r
      end
  end.

(** [s.strip()] *)
Definition strip (s : string) : string := rstrip (lstrip s).

(** [s[n:]] *)
Fixpoint drop (n : nat) (s : string) : string :=
  match n, s with
  | O, _ => s
  | S n', EmptyString => EmptyString
  | S n', String _ s' => drop n' s'
  end.

(** [s[a:b]] for [0 <= a], [0 <= b] *)
Definition slice (a b : nat) (s : string) : string :=
  String.substring a (b - a) s.

(** [s.startswith(p)] *)
Definition startswith (p s : string) : bool := String.prefix p s.

(** [s.endswith(p)] *)
Definition endswith (p s : string) : bool :=
  (String.length p <=? String.length s)%nat
  && String.eqb (drop (String.length s - String.length p) s) p.

(** [s.find(p, n)]: [None] stands for Python's [-1]. *)
Definition find_from (n : nat) (p s : string) : option nat := String.index n p s.

(** [p in s] *)
Definition contains (p s : string) : bool :=
  match String.index 0 p s with Some _ => true | None => false end.

(** [s.lower()]: below 256 the upper-case letters are A-Z and U+00C0 to
    U+00DE without the multiplication sign U+00D7. *)
Definition lower_char (c : ascii) : ascii :=
  let n := nat_of_ascii c in
  if ((65 <=? n) && (n <=? 90)) || ((192 <=? n) && (n <=? 222) && negb (n =? 215))
  then ascii_of_nat (n + 32) else c.

Fixpoint lower (s : string) : string :=
  match s with
  | EmptyString => EmptyString
  | String c s' => String (lower_char c) (lower s')
  end.

(** Number of leading characters of [s] accepted by [p] (a greedy [p*]). *)
Fixpoint span (p : ascii -> bool) (s : string) : nat :=
  match s with
  | EmptyString => 0
  | String c s' => if p c then S (span p s') else 0
  end.

(** [re.findall(r'```(?:json)?\s*([\s\S]*?)```', text)], scanning from
    position [p].  At the leftmost opening fence the optional tag and the
    greedy white space are consumed, and the lazy group ends at the first
    closing fence that follows; when no closing fence follows, the engine
    retries one character further.  The scan resumes after the closing fence
    of a match.  [fuel] bounds the number of start positions tried. *)
Fixpoint findall_fenced (fuel p : nat) (text : string) : list string :=
  match fuel with
  | O => []
  | S fuel' =>
      match find_from p "```" text with
      | None => []
      | Some a =>
          let q0 := a + 3 in
          let q1 := if startswith "json" (drop q0 text) then q0 + 4 else q0 in
          let q := q1 + span isspace (drop q1 text) in
          match find_from q "```" text with
          | None => findall_fenced fuel' (a + 1) text
          | Some c => slice q c text :: findall_fenced fuel' (c + 3) text
          end
      end
  end.

Definition findall_fenced_blocks (text : string) : list string :=
  findall_fenced (S (String.length text)) 0 text.

(** [re.match(r"IP-\d+", s)] as a truth value: the pattern is anchored at the
    start of [s] only, so any text may follow the digits. *)
Definition match_ip_ticket (s : string) : bool :=
  startswith "IP-" s && (0 <? span isdigit (drop 3 s))%nat.

End Py.

(* ===================================================================== *)
(** ** A reference recogniser for [json.loads]

    The pipeline is stated for an arbitrary [json_loads]; this recogniser of
    the grammar accepted by Python's [json] module (RFC 8259 documents plus
    the constants NaN, Infinity and -Infinity) instantiates it in the
    examples. *)
(* ===================================================================== *)

Module Json.

Definition is_ws (c : ascii) : bool :=
  let n := nat_of_ascii c in (n =? 32) || (n =? 9) || (n =? 10) || (n =? 13).

Fixpoint skip_ws (s : string) : string :=
  match s with
  | String c s' => if is_ws c then skip_ws s' else s
  | EmptyString => s
  end.

Definition is_hex (c : ascii) : bool :=
  let n := nat_of_ascii c in
  Py.isdigit c || ((65 <=? n) && (n <=? 70)) || ((97 <=? n) && (n <=? 102)).

Definition is_simple_escape (c : ascii) : bool :=
  existsb (Ascii.eqb c)
    ["034"%char; "\"%char; "/"%char; "b"%char; "f"%char; "n"%char; "r"%char; "t"%char].

(** The characters of a string literal after its opening quote; the result
    is what follows the closing quote. *)
Fixpoint scan_string (s : string) : option string :=
  match s with
  | EmptyString => None
  | String c s' =>
      if Ascii.eqb c "034"%char then Some s'
      else if Ascii.eqb c "\"%char then
        match s' with
        | EmptyString => None
        | String e s'' =>
            if is_simple_escape e then scan_string s''
            else if Ascii.eqb e "u"%char then
              match s'' with
              | String h1 (String h2 (String h3 (String h4 s5))) =>
                  if is_hex h1 && is_hex h2 && is_hex h3 && is_hex h4
                  then scan_string s5 else None
              | _ => None
              end
            else None
        end
      else if (nat_of_ascii c <? 32) then None
      else scan_string s'
  end.

(** The optional fraction and exponent of a number. *)
Definition scan_fraction (s : string) : string :=
  match s with
  | String c r =>
      if Ascii.eqb c "."%char && (0 <? Py.span Py.isdigit r)
      then Py.drop (Py.span Py.isdigit r) r else s
  | EmptyString => s
  end.

Definition scan_exponent (s : string) : string :=
  match s with
  | String c r =>
      if Ascii.eqb c "e"%char || Ascii.eqb c "E"%char then
        let r' := match r with
                  | String g r1 =>
                      if Ascii.eqb g "+"%char || Ascii.eqb g "-"%char then r1 else r
                  | EmptyString => r
                  end in
        if (0 <? Py.span Py.isdigit r') then Py.drop (Py.span Py.isdigit r') r' else s
      else s
  | EmptyString => s
  end.

Definition scan_number (s : string) : option string :=
  let s1 := match s with
            | String c r => if Ascii.eqb c "-"%char then r else s
            | EmptyString => s
            end in
  match s1 with
  | String c r =>
      if Ascii.eqb c "0"%char then Some (scan_exponent (scan_fraction r))
      else if Py.isdigit c
      then Some (scan_exponent (scan_fraction (Py.drop (Py.span Py.isdigit r) r)))
      else None
  | EmptyString => None
  end.

Definition scan_literal (lit s : string) : option string :=
  if Py.startswith lit s then Some (Py.drop (String.length lit) s) else None.

Inductive goal := GValue | GMembers | GElements.

(** Recursive descent; the result is the input left after the construct. *)
Fixpoint parse (fuel : nat) (g : goal) (s : string) : option string :=
  match fuel with
  | O => None
  | S fuel' =>
      match g with
      | GValue =>
          match s with
          | EmptyString => None
          | String c r =>
              if Ascii.eqb c "034"%char then scan_string r
              else if Ascii.eqb c "{"%char then
                match skip_ws r with
                | String c1 r1 =>
                    if Ascii.eqb c1 "}"%char then Some r1
                    else parse fuel' GMembers (String c1 r1)
                | EmptyString => None
                end
              else if Ascii.eqb c "["%char then
                match skip_ws r with
                | String c1 r1 =>
                    if Ascii.eqb c1 "]"%char then Some r1
                    else parse fuel' GElements (String c1 r1)
                | EmptyString => None
                end
              else
                match scan_literal "null" s, scan_literal "true" s,
                      scan_literal "false" s, scan_number s with
                | Some r', _, _, _ | _, Some r', _, _
                | _, _, Some r', _ | _, _, _, Some r' => Some r'
                | _, _, _, _ =>
                    match scan_literal "NaN" s, scan_literal "Infinity" s with
                    | Some r', _ | _, Some r' => Some r'
                    | _, _ => scan_literal "-Infinity" s
                    end
                end
          end
      | GMembers =>
          match s with
          | EmptyString => None
          | String c r =>
              if Ascii.eqb c "034"%char then
                match scan_string r with
                | None => None
                | Some r1 =>
                    match skip_ws r1 with
                    | EmptyString => None
                    | String c2 r2 =>
                        if Ascii.eqb c2 ":"%char then
                          match parse fuel' GValue (skip_ws r2) with
                          | None => None
                          | Some r3 =>
                              match skip_ws r3 with
                              | EmptyString => None
                              | String c4 r4 =>
                                  if Ascii.eqb c4 "}"%char then Some r4
                                  else if Ascii.eqb c4 ","%char
                                  then parse fuel' GMembers (skip_ws r4)
                                  else None
                              end
                          end
                        else None
                    end
                end
              else None
          end
      | GElements =>
          match parse fuel' GValue s with
          | None => None
          | Some r =>
              match skip_ws r with
              | EmptyString => None
              | String c1 r1 =>
                  if Ascii.eqb c1 "]"%char then Some r1
                  else if Ascii.eqb c1 ","%char
                  then parse fuel' GElements (skip_ws r1)
                  else None
              end
          end
      end
  end.

(** [loads s = true] when [json.loads(s)] returns. *)
Definition loads (s : string) : bool :=
  match parse (2 * String.length s + 2) GValue (skip_ws s) with
  | None => false
  | Some r => match skip_ws r with EmptyString => true | String _ _ => false end
  end.

End Json.

(* ===================================================================== *)
(** ** [_extract_json_from_text] *)
(* ===================================================================== *)

Module Extractor.

Section WithJson.

(** [json_loads s = true] when [json.loads(s)] returns a value, [false] when
    it raises [json.JSONDecodeError]. *)
Variable json_loads : string -> bool.

(** The loop over the fenced-block matches: the first stripped match that
    parses is returned. *)
Fixpoint first_valid_block (matches : list string) : option string :=
  match matches with
  | [] => None
  | m :: rest =>
      let cleaned_json := Py.strip m in
      if json_loads cleaned_json then Some cleaned_json
      else first_valid_block rest
  end.

(** The body of [for i in range(start_idx, len(text))], for the [n] indices
    that remain from [i] on.  [brace_count] may become negative.  A result
    [Some potential_json] is the [return] inside the loop. *)
Fixpoint brace_walk (text : string) (start_idx : nat) (n i : nat)
    (brace_count : Z) (in_string escape_next : bool) : option string :=
  match n with
  | O => None
  | S n' =>
      match String.get i text with
      | None => None
      | Some char =>
          let is_quote := Ascii.eqb char "034"%char && negb escape_next in
          (* a quote that is not escaped: in_string = not in_string *)
          let in_string' := if is_quote then negb in_string else in_string in
          if negb is_quote && Ascii.eqb char "\"%char && in_string && negb escape_next
          then (* escape_next = True; continue *)
            brace_walk text start_idx n' (S i) brace_count in_string true
          else if negb in_string' then
            if Ascii.eqb char "{"%char then
              brace_walk text start_idx n' (S i) (brace_count + 1) in_string' false
            else if Ascii.eqb char "}"%char then
              let brace_count := (brace_count - 1)%Z in
              if (brace_count =? 0)%Z then
                let potential_json := Py.slice start_idx (i + 1) text in
                if json_loads potential_json then Some potential_json
                else (* keep looking: [start_idx] stays where it is *)
                  brace_walk text start_idx n' (S i) brace_count in_string' false
              else brace_walk text start_idx n' (S i) brace_count in_string' false
            else brace_walk text start_idx n' (S i) brace_count in_string' false
          else brace_walk text start_idx n' (S i) brace_count in_string' false
      end
  end.

(** The second strategy: the walk starts at the first opening brace. *)
Definition by_braces (text : string) : option string :=
  match Py.find_from 0 "{" text with
  | None => None
  | Some start_idx =>
      brace_walk text start_idx (String.length text - start_idx) start_idx
                 0%Z false false
  end.

(** The last resort: the whole stripped text. *)
Definition whole_text (text : string) : option string :=
  let cleaned_text := Py.strip text in
  if Py.startswith "{" cleaned_text && Py.endswith "}" cleaned_text then
    if json_loads cleaned_text then Some cleaned_text else None
  else None.

(** [_extract_json_from_text(text)]; the empty string is the "nothing found"
    result. *)
Definition _extract_json_from_text (text : string) : string :=
  match first_valid_block (Py.findall_fenced_blocks text) with
  | Some cleaned_json => cleaned_json
  | None =>
      match by_braces text with
      | Some potential_json => potential_json
      | None =>
          match whole_text text with
          | Some cleaned_text => cleaned_text
          | None => ""
          end
      end
  end.

End WithJson.

End Extractor.

(* ===================================================================== *)
(** ** Values, exceptions and effects *)
(* ===================================================================== *)

Module Enricher.

(** The Python values stored in issue, configuration and analysis
    dictionaries. *)
#[local] Unset Elimination Schemes.
Inductive pyval : Type :=
| VNone
| VBool (b : bool)
| VInt (z : Z)
| VStr (s : string)
| VList (l : list pyval)
| VDict (d : list (string * pyval)).
#[local] Set Elimination Schemes.

(** [bool(v)] *)
Definition truthy (v : pyval) : bool :=
  match v with
  | VNone => false
  | VBool b => b
  | VInt z => negb (z =? 0)%Z
  | VStr s => negb (String.eqb s "")
  | VList l => match l with [] => false | _ :: _ => true end
  | VDict d => match d with [] => false | _ :: _ => true end
  end.

(** [d.get(k, default)] *)
Definition dict_get (d : gmap string pyval) (k : string) (default : pyval) : pyval :=
  match d !! k with Some v => v | None => default end.

(** A typed analysis ([JiraIssueAnalysis], [JiraBugAnalysis] or
    [JiraEpicAnalysis] instance): its [model_fields], in declaration order,
    with the attribute values. *)
Definition analysis : Type := list (string * pyval).

Inductive schema := JiraBugAnalysis | JiraEpicAnalysis | JiraIssueAnalysis.

(** The exception classes the handlers tell apart. *)
Inductive exn_class :=
| TimeoutError | HttpUnauthorizedError | ValueError | KeyError
| AttributeError | TypeError | JiraFetchError | OtherException.

(** An exception object: its class, [getattr(e, 'status_code', None)],
    [str(e)], and its [llm_output] attribute when it has one.  The attribute
    is recorded by what building [schema_cls] from
    [normalize_issue_data(e.llm_output)] yields: [Some a] when it builds the analysis [a], [None] when it raises. *)
Record py_exn := mk_exn {
  e_class : exn_class;
  status_code : option Z;
  message : string;
  llm_output : option (option analysis)
}.

Definition exn_of (c : exn_class) (msg : string) : py_exn :=
  {| e_class := c; status_code := None; message := msg; llm_output := None |}.

Inductive level := DEBUG | INFO | WARNING | ERROR.

(** What an execution does besides computing: log records (level, message
    template, the numbers interpolated), awaited model calls, sleeps, and
    the calls to the persistence collaborators. *)
Inductive event : Type :=
| ELog (lv : level) (template : string) (args : list nat)
| EInvoke (attempt : nat)
| ESleep (seconds : nat)
| ESave (fix_version : string) (issues : list (gmap string pyval))
| EPageCreate (title : string).

(** The state threaded through one enrichment: the issue dictionary, which
    is mutated in place, and the events so far, oldest first. *)
Record state := mk_state {
  st_issue : gmap string pyval;
  st_trace : list event
}.

Inductive result (A : Type) : Type :=
| Ok (a : A)
| Raise (e : py_exn)
| OutOfFuel.
Arguments Ok {A} a.
Arguments Raise {A} e.
Arguments OutOfFuel {A}.

(** Computations over a state [S] that may raise. *)
Definition M (S A : Type) : Type := S -> result A * S.

Definition ret {S A} (a : A) : M S A := fun s => (Ok a, s).

Definition bind {S A B} (c : M S A) (k : A -> M S B) : M S B :=
  fun s =>
    match c s with
    | (Ok a, s') => k a s'
    | (Raise e, s') => (Raise e, s')
    | (OutOfFuel, s') => (OutOfFuel, s')
    end.

Notation "x <- c1 ;; c2" := (bind c1 (fun x => c2))
  (at level 100, c1 at next level, right associativity).
Notation "c1 ;; c2" := (bind c1 (fun _ => c2))
  (at level 100, right associativity).

Definition raise {S A} (e : py_exn) : M S A := fun s => (Raise e, s).

Definition out_of_fuel {S A} : M S A := fun s => (OutOfFuel, s).

(** [try: body except Exception as e: handler e] *)
Definition catch {S A} (body : M S A) (handler : py_exn -> M S A) : M S A :=
  fun s =>
    match body s with
    | (Raise e, s') => handler e s'
    | r => r
    end.

(** States that carry the event trace. *)
Class Traced (S : Type) := add_event : event -> S -> S.

#[global] Instance state_traced : Traced state :=
  fun ev s => {| st_issue := st_issue s; st_trace := st_trace s ++ [ev] |}.

(** The batch coordinator only threads the trace. *)
#[global] Instance trace_traced : Traced (list event) :=
  fun ev tr => tr ++ [ev].

Definition emit {S} `{Traced S} (ev : event) : M S unit :=
  fun s => (Ok tt, add_event ev s).

Definition log {S} `{Traced S} (lv : level) (template : string) (args : list nat)
  : M S unit :=
  emit (ELog lv template args).

(** [await asyncio.sleep(seconds)] *)
Definition sleep {S} `{Traced S} (seconds : nat) : M S unit := emit (ESleep seconds).

Definition get_issue : M state (gmap string pyval) := fun s => (Ok (st_issue s), s).

(** [issue[k] = v] *)
Definition set_field (k : string) (v : pyval) : M state unit :=
  fun s => (Ok tt, {| st_issue := <[k := v]> (st_issue s); st_trace := st_trace s |}).

(** [d[k]], raising [KeyError] *)
Definition subscript {S} (d : gmap string pyval) (k : string) : M S pyval :=
  match d !! k with
  | Some v => ret v
  | None => raise (exn_of KeyError k)
  end.

(** [v.lower()] and [v.strip()]: only [str] has these methods. *)
Definition str_lower {S} (v : pyval) : M S string :=
  match v with
  | VStr s => ret (Py.lower s)
  | _ => raise (exn_of AttributeError "object has no attribute 'lower'")
  end.

Definition str_strip {S} (v : pyval) : M S string :=
  match v with
  | VStr s => ret (Py.strip s)
  | _ => raise (exn_of AttributeError "object has no attribute 'strip'")
  end.

(** The outcome of [await asyncio.wait_for(self.kernel.invoke(...), 60)]:
    a result whose [value[0].content] is the given text ([Returned None] is
    a result that fails the structure check: falsy, without [value], or with
    an empty [value]), or an exception; [asyncio.TimeoutError] has class
    [TimeoutError]. *)
Inductive invoke_outcome :=
| Returned (content : option string)
| Raised (e : py_exn).

(** How one pass through the [try] statement of the attempt loop ends. *)
Inductive control :=
| Return (r : option analysis)
| Continue (attempt : nat)
| Fallthrough.

Definition max_attempts : nat := 3.

Definition attempt_template : string :=
  "Calling Azure OpenAI for issue type '%s' (attempt %d/%d)...".

Section WithEnvironment.

Variable json_loads : string -> bool.

(** [self.config] *)
Variable config : gmap string pyval.

(** The constructor call of [schema_cls] on the issue data (line 151),
    [None] when pydantic rejects the data with a [ValidationError] (a
    [ValueError]). *)
Variable schema_init : schema -> gmap string pyval -> option analysis.

(** [schema_cls.model_validate_json(json_content)], [None] when it raises. *)
Variable model_validate_json : schema -> string -> option analysis.

(** The model call: lower-cased issue type, issue data, the value of
    [attempt] at the call, and the prompt additions. *)
Variable kernel_invoke :
  string -> gmap string pyval -> nat -> gmap string pyval -> invoke_outcome.

(** [str(v)] for the values that are not strings. *)
Variable py_repr : pyval -> string.

Definition format_value (v : pyval) : string :=
  match v with VStr s => s | _ => py_repr v end.

(** [{'bug': JiraBugAnalysis, 'epic': JiraEpicAnalysis}.get(is_type.lower(),
    JiraIssueAnalysis)] *)
Definition schema_cls (issue_type : string) : schema :=
  if String.eqb issue_type "bug" then JiraBugAnalysis
  else if String.eqb issue_type "epic" then JiraEpicAnalysis
  else JiraIssueAnalysis.

(** The [prompt_additions] dictionary, rebuilt on every pass (lines 161-179).
    The literal has neither [max_tokens] nor [temperature], so for o4-mini
    only the default [max_completion_tokens] is added.  The constructor of
    [JiraEnricher] refuses a configuration without the deployment name, so
    the subscript at line 169 finds it. *)
Definition prompt_additions : gmap string pyval :=
  let base : gmap string pyval :=
    <["json_only" := VBool true]>
    (<["response_format" := VDict [("type", VStr "json_object")]]>
    (<["format_instructions" :=
        VStr "Respond with a valid JSON object only, with no additional text."]> ∅)) in
  match config !! "azure_openai_gpt_deployment" with
  | Some (VStr "o4-mini") => <["max_completion_tokens" := VInt 1000]> base
  | _ => base
  end.

Definition is_parameter_error (error_msg : string) : bool :=
  Py.contains "unsupported_parameter" error_msg
  || Py.contains "unsupported_value" error_msg.

Definition is_401 (e : py_exn) : bool :=
  match status_code e with
  | Some code => (code =? 401)%Z
  | None => false
  end || Py.contains "401" (message e).

(** The body of the outer [try] (lines 146-259); [issue_type] is
    [is_type.lower()]. *)
Definition try_block (sch : schema) (issue_type : string)
    (issue_data : gmap string pyval) (attempt : nat) : M state control :=
  log INFO attempt_template [attempt + 1; max_attempts] ;;
  match schema_init sch issue_data with
  | None => raise (exn_of ValueError "validation error")
  | Some model_instance =>
      log DEBUG "Invoking model with schema: %s" [] ;;
      emit (EInvoke attempt) ;;
      match kernel_invoke issue_type issue_data attempt prompt_additions with
      | Raised e =>
          match e_class e with
          | TimeoutError =>
              log ERROR "Azure OpenAI call timed out after 60 seconds" [] ;;
              let attempt := attempt + 1 in
              let backoff := 2 ^ attempt in
              sleep backoff ;;
              ret (Continue attempt)
          | _ =>
              let error_msg := message e in
              if is_parameter_error error_msg then
                log ERROR "Model parameter error: {error_msg}" [] ;;
                (* the adjustments of lines 202-217 change a dictionary that
                   the next pass replaces; no sleep on this path *)
                let attempt := attempt + 1 in
                ret (Continue attempt)
              else
                log ERROR "Unexpected error in Azure OpenAI call: {error_msg}" [] ;;
                raise e
          end
      | Returned None =>
          log ERROR "Azure OpenAI returned empty or invalid result structure" [] ;;
          raise (exn_of ValueError "Invalid result structure from Azure OpenAI")
      | Returned (Some result_str) =>
          log DEBUG "Raw response from Azure OpenAI: %s" [] ;;
          log DEBUG "Raw response before extraction: %s" [] ;;
          let json_content := Extractor._extract_json_from_text json_loads result_str in
          if String.eqb json_content "" then
            log ERROR "Failed to extract valid JSON from the response" [] ;;
            raise (exn_of ValueError "No valid JSON found in the response")
          else
            match model_validate_json sch json_content with
            | Some analysis =>
                log INFO "Azure OpenAI call SUCCEEDED in %.2fs" [] ;;
                ret (Return (Some analysis))
            | None =>
                log ERROR "Model validation error: %s" [] ;;
                raise (exn_of ValueError "Model validation error")
            end
      end
  end.

(** The [except] clauses of the outer [try] (lines 261-292), in order. *)
Definition handlers (attempt : nat) (e : py_exn) : M state control :=
  match e_class e with
  | HttpUnauthorizedError =>
      log ERROR "Azure OpenAI returned 401 Unauthorized - API key may be invalid" [] ;;
      raise e
  | ValueError =>
      log ERROR "Value error in OpenAI processing: %s" [] ;;
      ret Fallthrough
  | _ =>
      if is_401 e then
        log ERROR "Azure OpenAI returned 401 Unauthorized" [] ;;
        raise (exn_of HttpUnauthorizedError "")
      else
        log WARNING "Azure OpenAI call FAILED on attempt %d/%d: %s"
            [attempt + 1; max_attempts] ;;
        match llm_output e with
        | Some (Some a) => ret (Return (Some a))
        | Some None =>
            log ERROR "Error normalizing LLM output: %s" [] ;;
            ret Fallthrough
        | None => ret Fallthrough
        end
  end.

(** [while attempt < max_attempts: ...] followed by the final [return None]. *)
Fixpoint attempt_loop (fuel : nat) (sch : schema) (issue_type : string)
    (issue_data : gmap string pyval) (attempt : nat) : M state (option analysis) :=
  if attempt <? max_attempts then
    match fuel with
    | O => out_of_fuel
    | S fuel' =>
        c <- catch (try_block sch issue_type issue_data attempt) (handlers attempt) ;;
        match c with
        | Return r => ret r
        | Continue attempt => attempt_loop fuel' sch issue_type issue_data attempt
        | Fallthrough =>
            (* Exponential backoff *)
            let attempt := attempt + 1 in
            (if attempt <? max_attempts then
               let backoff := 2 ^ attempt in
               log INFO "Retrying after %ds..." [backoff] ;;
               sleep backoff
             else ret tt) ;;
            attempt_loop fuel' sch issue_type issue_data attempt
        end
    end
  else
    log ERROR "Azure OpenAI call ultimately failed after %d attempts." [max_attempts] ;;
    ret None.

(** [analyze_issue_with_ai(issue_data, is_type)]: [is_type.lower()] selects
    the schema and the prompt function before the loop starts. *)
Definition analyze_issue_with_ai (issue_data : gmap string pyval)
    (is_type : pyval) : M state (option analysis) :=
  issue_type <- str_lower is_type ;;
  attempt_loop max_attempts (schema_cls issue_type) issue_type issue_data 0.

(** *** [add_ai_analysis_to_issue] *)

Definition snippet_keys (issuetype : string) : list string :=
  ["key"; "summary"; "description"; "priority"; "components"; "comments"; "imgURLs"]
  ++ (if String.eqb issuetype "epic" then ["children"; "parent"] else []).

(** [{k: issue.get(k) for k in keys}] *)
Definition make_snippet (issue : gmap string pyval) (keys : list string)
  : gmap string pyval :=
  list_to_map ((fun k => (k, dict_get issue k VNone)) <$> keys).

(** [for field in result.model_fields: issue[field] = getattr(result, field)] *)
Fixpoint merge_fields (result : analysis) : M state unit :=
  match result with
  | [] => ret tt
  | (field, v) :: rest => set_field field v ;; merge_fields rest
  end.

(** [re.match(r"IP-\d+", v)] as a truth value; [re.match] raises [TypeError]
    on anything but a string. *)
Definition re_match_ticket {S} (v : pyval) : M S bool :=
  match v with
  | VStr s => ret (Py.match_ip_ticket s)
  | _ => raise (exn_of TypeError "expected string or bytes-like object")
  end.

Definition add_ai_analysis_to_issue : M state bool :=
  issue <- get_issue ;;
  issuetype <- str_lower (dict_get issue "issuetype" (VStr "")) ;;
  let keys := snippet_keys issuetype in
  let snippet := make_snippet issue keys in
  log DEBUG "Issue snippet: %s" [] ;;
  result <- analyze_issue_with_ai snippet (dict_get issue "issuetype" (VStr "")) ;;
  match result with
  | None =>
      log ERROR "No AI result for %s, skipping." [] ;;
      (* Mark issue as not enriched *)
      set_field "ai_enriched" (VBool false) ;;
      ret false
  | Some result =>
      (* Add AI fields to the issue *)
      merge_fields result ;;
      (* Clean up ticket number if matches pattern *)
      issue <- get_issue ;;
      m <- re_match_ticket (dict_get issue "ticket_number" (VStr "")) ;;
      (if m : bool then set_field "ticket_number" (VStr "") else ret tt) ;;
      jira_url <- subscript config "jira_url" ;;
      key <- subscript issue "key" ;;
      set_field "browsable_url"
        (VStr (format_value jira_url +:+ "/browse/" +:+ format_value key)) ;;
      (* Mark issue as successfully enriched *)
      set_field "ai_enriched" (VBool true) ;;
      log INFO "Enriched issue %s successfully." [] ;;
      ret true
  end.

(** *** [_has_meaningful_content] *)

(** [and] and [or] evaluate their right operand only when needed, so a
    [strip] on a value that is no string raises only when it is reached. *)
Definition _has_meaningful_content {S} (issue : gmap string pyval) : M S bool :=
  issue_type <- str_lower (dict_get issue "issuetype" (VStr "")) ;;
  if String.eqb issue_type "bug" then
    let tech_summary := dict_get issue "technical_summary" (VStr "") in
    let exec_summary := dict_get issue "executive_summary" (VStr "") in
    let cause := dict_get issue "cause" (VStr "") in
    let fix_ := dict_get issue "fix" (VStr "") in
    (* Require at least technical summary and either cause or fix *)
    t <- str_strip tech_summary ;;
    if String.eqb t "" then ret false
    else
      c <- str_strip cause ;;
      if negb (String.eqb c "") then ret true
      else f <- str_strip fix_ ;; ret (negb (String.eqb f ""))
  else if String.eqb issue_type "epic" then
    let tech_summary := dict_get issue "technical_summary" (VStr "") in
    let exec_summary := dict_get issue "executive_summary" (VStr "") in
    (* Require at least one summary *)
    t <- str_strip tech_summary ;;
    if negb (String.eqb t "") then ret true
    else e <- str_strip exec_summary ;; ret (negb (String.eqb e ""))
  else
    let reasoning := dict_get issue "reasoning" (VStr "") in
    let categories := dict_get issue "inferredCategories" (VList []) in
    (* Require reasoning and at least one category *)
    r <- str_strip reasoning ;;
    if String.eqb r "" then ret false
    else ret (truthy categories).

(** *** [fetch_and_analyze_issues] *)

(** [JiraAPIWrapper(...)]: the exception its constructor raises, if any. *)
Variable jira_wrapper_new : option py_exn.

(** [jira_wrapper.parse_issues(jira_wrapper.search(jql, max_results))] *)
Variable jira_search_parse : pyval -> pyval -> py_exn + list (gmap string pyval).

(** [logging.getLogger().getEffectiveLevel() == logging.DEBUG] *)
Variable debug_enabled : bool.

(** [format_issue(issue, analysis_data)] of [src/utils/file_utils.py] *)
Variable format_issue : gmap string pyval -> gmap string pyval -> string.

(** [os.environ.get('CONFLUENCE_PARENT_ID')] *)
Variable env_parent_id : option string.

(** What [jira_wrapper.page_create] does with a page: it raises, it returns
    a dictionary with a truthy [error] entry, or it returns something else,
    which counts as created when it is a dictionary with a truthy [id] or
    [success]. *)
Inductive page_response :=
| PageRaises (e : py_exn)
| PageError (error_msg : string)
| PageResult (created : bool).

(** space, title, body and parent id of the page data *)
Variable page_create : pyval -> string -> string -> pyval -> page_response.

(** The entries appended to [result["details"]] and [result["warnings"]]. *)
Inductive detail :=
| DConfluenceStatus (confluence_success confluence_skipped : nat)
| DDuplicates (confluence_duplicates : nat)
| DSkipNotEnabled
| DCompleted.

Inductive warning :=
| WConfluenceError (error_msg : string)
| WNoPagesCreated
| WSkipMissingSpace
| WSkipMissingParent.

(** The returned dictionary; [processing_time] is a clock reading and is
    left out. *)
Record status_result := mk_result {
  status : string;
  details : list detail;
  warnings : list warning
}.

(** [a or b] *)
Definition py_or (a b : pyval) : pyval := if truthy a then a else b.

Definition is_str (x : string) (v : pyval) : bool :=
  match v with VStr s => String.eqb s x | _ => false end.

(** [x in container] for a string [x] *)
Definition py_in {S} (x : string) (container : pyval) : M S bool :=
  match container with
  | VList l => ret (existsb (is_str x) l)
  | VStr s => ret (Py.contains x s)
  | VDict d => ret (existsb (fun kv => String.eqb (fst kv) x) d)
  | _ => raise (exn_of TypeError "argument is not iterable")
  end.

(** One enrichment task of the batch, run on the trace of the batch. *)
Definition run_enricher (issue : gmap string pyval)
  : M (list event) (bool * gmap string pyval) :=
  fun tr =>
    match add_ai_analysis_to_issue {| st_issue := issue; st_trace := tr |} with
    | (Ok b, s) => (Ok (b, st_issue s), st_trace s)
    | (Raise e, s) => (Raise e, st_trace s)
    | (OutOfFuel, s) => (OutOfFuel, st_trace s)
    end.

(** [await asyncio.gather] over [self.add_ai_analysis_to_issue(issue)] for
    the issues of [parsed].  The tasks work on distinct dictionaries and share nothing
    else, so they are run one after the other, in list order; the result list
    is in list order as with [gather], and an exception of a task is the
    exception of the [await].  The second component is [parsed] after the
    in-place updates. *)
Fixpoint gather (parsed : list (gmap string pyval))
  : M (list event) (list bool * list (gmap string pyval)) :=
  match parsed with
  | [] => ret ([], [])
  | issue :: rest =>
      r <- run_enricher issue ;;
      rs <- gather rest ;;
      ret (fst r :: fst rs, snd r :: snd rs)
  end.

(** [sum(1 for result in enrichment_results if result)] *)
Definition count_successful (enrichment_results : list bool) : nat :=
  length (filter (fun result => result = true) enrichment_results).

(** The block under [if create_local_files:] (lines 460-495). *)
Definition save_local_files (parsed : list (gmap string pyval))
  : M (list event) unit :=
  let file_path := dict_get config "file_path" VNone in
  (match file_path with
   | VNone => log WARNING "No file_path specified in config, using default: {file_path}" []
   | _ => ret tt
   end) ;;
  jql <- subscript config "jql" ;;
  log INFO "Creating local files in {enriched_path}" [] ;;
  let file_types_to_save := dict_get config "file_types_to_save" (VList [VStr "json"]) in
  let jira_issue_type := dict_get config "jira_issue_type" (VStr "Issue") in
  (match jira_issue_type with
   | VNone | VStr "" =>
       log WARNING "No jira_issue_type specified in config, using default: {jira_issue_type}" []
   | _ => ret tt
   end) ;;
  xlsx <- py_in "xlsx" file_types_to_save ;;
  (if xlsx : bool then
     emit (ESave "xlsx" parsed) ;;
     log INFO "Saved Excel file for {jira_issue_type} issues" []
   else ret tt) ;;
  json <- py_in "json" file_types_to_save ;;
  (if json : bool then
     emit (ESave "json" parsed) ;;
     log INFO "Saved JSON file for {jira_issue_type} issues" []
   else ret tt) ;;
  md <- py_in "md" file_types_to_save ;;
  (if md : bool then
     emit (ESave "md" parsed) ;;
     log INFO "Saved Markdown file for {jira_issue_type} issues" []
   else ret tt).

(** The counters of the Confluence block and its mutable [parent_id]. *)
Record counters := mk_counters {
  confluence_success : nat;
  confluence_skipped : nat;
  confluence_errors : list string;
  confluence_duplicates : nat;
  parent_id : pyval
}.

Definition analysis_fields : list string :=
  ["executive_summary"; "technical_summary"; "reasoning"; "cause"; "fix";
   "impact"; "inferredCategories"; "confidence"; "ticket_number"].

(** [v[0]] *)
Definition first_item {S} (v : pyval) : M S pyval :=
  match v with
  | VList (x :: _) => ret x
  | VStr (String c _) => ret (VStr (String c EmptyString))
  | VList [] | VStr EmptyString => raise (exn_of OtherException "index out of range")
  | VDict _ => raise (exn_of KeyError "0")
  | _ => raise (exn_of TypeError "object is not subscriptable")
  end.

Definition env_value : pyval :=
  match env_parent_id with Some s => VStr s | None => VNone end.

(** [a != b] when [a] is a string or [None] *)
Definition differs (a b : pyval) : bool :=
  match a, b with
  | VStr s, VStr s' => negb (String.eqb s s')
  | VNone, VNone => false
  | _, _ => true
  end.

(** The body of the inner [try] of the page loop (lines 541-689). *)
Definition create_page (confluence_space : pyval) (issue : gmap string pyval)
    (c : counters) : M (list event) counters :=
  let analysis_data : gmap string pyval :=
    list_to_map (omap (fun field => pair field <$> (issue !! field)) analysis_fields) in
  let body := format_issue issue analysis_data in
  if String.eqb body "" || (String.length (Py.strip body) <? 50) then
    key <- subscript issue "key" ;;
    log ERROR "Generated body content for {key} is empty or too short. Skipping page creation." [] ;;
    ret {| confluence_success := confluence_success c;
           confluence_skipped := confluence_skipped c + 1;
           confluence_errors := confluence_errors c;
           confluence_duplicates := confluence_duplicates c;
           parent_id := parent_id c |}
  else
    fix_version <- (if truthy (dict_get issue "fixVersions" VNone)
                    then first_item (dict_get issue "fixVersions" (VList [VStr ""]))
                    else ret (VStr "")) ;;
    key <- subscript issue "key" ;;
    let summary := dict_get issue "summary" (VStr "Release Notes") in
    let title :=
      if truthy fix_version
      then format_value fix_version +:+ " - " +:+ format_value key +:+ " - "
           +:+ format_value summary
      else format_value key +:+ " - " +:+ format_value summary in
    let title :=
      if (100 <? String.length title) then
        if truthy fix_version
        then format_value fix_version +:+ " - " +:+ format_value key +:+ " Release Notes"
        else format_value key +:+ " Release Notes"
      else title in
    log INFO "Creating Confluence page for {key}" [] ;;
    log INFO "Body content length: {body_length} characters" [String.length body] ;;
    (* FORCE parent_id to always be the environment variable value *)
    let final_parent_id := env_value in
    (if differs final_parent_id (parent_id c)
     then log WARNING "###PARENT_ID_OVERRIDE### Overriding parent_id" []
     else ret tt) ;;
    let c := {| confluence_success := confluence_success c;
                confluence_skipped := confluence_skipped c;
                confluence_errors := confluence_errors c;
                confluence_duplicates := confluence_duplicates c;
                parent_id := final_parent_id |} in
    emit (EPageCreate title) ;;
    match page_create confluence_space title body (parent_id c) with
    | PageRaises access_error =>
        log ERROR "Error creating Confluence page: {access_error}" [] ;;
        ret c
    | PageError error_msg =>
        log ERROR "Error creating Confluence page: {error_msg}" [] ;;
        if Py.contains "already exists" (Py.lower error_msg) then
          log WARNING "Duplicate page detected: {error_msg}" [] ;;
          ret {| confluence_success := confluence_success c;
                 confluence_skipped := confluence_skipped c;
                 confluence_errors :=
                   confluence_errors c
                   ++ ["Page '" +:+ title +:+ "' already exists in space '"
                       +:+ format_value confluence_space +:+ "'"];
                 confluence_duplicates := confluence_duplicates c + 1;
                 parent_id := parent_id c |}
        else
          ret {| confluence_success := confluence_success c;
                 confluence_skipped := confluence_skipped c;
                 confluence_errors := confluence_errors c ++ [error_msg];
                 confluence_duplicates := confluence_duplicates c;
                 parent_id := parent_id c |}
    | PageResult true =>
        log INFO "Successfully created page: {page_url}" [] ;;
        ret {| confluence_success := confluence_success c + 1;
               confluence_skipped := confluence_skipped c;
               confluence_errors := confluence_errors c;
               confluence_duplicates := confluence_duplicates c;
               parent_id := parent_id c |}
    | PageResult false =>
        log WARNING "Received unexpected response when creating page: {response}" [] ;;
        ret c
    end.

Definition skip_page (c : counters) : counters :=
  {| confluence_success := confluence_success c;
     confluence_skipped := confluence_skipped c + 1;
     confluence_errors := confluence_errors c;
     confluence_duplicates := confluence_duplicates c;
     parent_id := parent_id c |}.

(** [for issue in parsed:] (lines 533-700) *)
Fixpoint page_loop (confluence_space : pyval) (parsed : list (gmap string pyval))
    (c : counters) : M (list event) counters :=
  match parsed with
  | [] => ret c
  | issue :: rest =>
      c <- (if truthy (dict_get issue "ai_enriched" (VBool false)) then
              has_content <- _has_meaningful_content issue ;;
              if has_content : bool then
                catch (create_page confluence_space issue c)
                  (fun e =>
                     key <- subscript issue "key" ;;
                     log ERROR "Error creating Confluence page for {key}: {e}" [] ;;
                     ret c)
              else
                key <- subscript issue "key" ;;
                log WARNING "Skipping Confluence page creation for {key} due to insufficient AI content" [] ;;
                ret (skip_page c)
            else ret (skip_page c)) ;;
      page_loop confluence_space rest c
  end.

(** The block under [if create_confluence_pages:] (lines 498-721).  The page
    loop is not nested under the second test of [create_confluence_pages],
    so it also runs when a required setting is missing. *)
Definition create_confluence (parsed : list (gmap string pyval))
    (result : status_result) : M (list event) status_result :=
  let parent_id :=
    py_or env_value
      (py_or (dict_get config "confluence_parent_id" VNone)
             (dict_get config "confluence_parent_page_id" VNone)) in
  log INFO "Using Confluence parent page ID: {parent_id} (from environment or config)" [] ;;
  let confluence_space :=
    py_or (dict_get config "confluence_space" VNone)
          (dict_get config "confluence_space_key" VNone) in
  let confluence_url :=
    py_or (dict_get config "confluence_url" VNone)
          (dict_get config "confluence_base_url" VNone) in
  let missing_configs :=
    negb (truthy confluence_space) || negb (truthy parent_id)
    || negb (truthy confluence_url) in
  (if missing_configs
   then log ERROR "Missing required configuration: {missing_str}. Confluence page creation aborted." []
   else
     log INFO "Using Confluence space: {confluence_space}, parent ID: {parent_id}" [] ;;
     log INFO "Processing issues for Confluence page creation..." []) ;;
  c <- page_loop confluence_space parsed
         {| confluence_success := 0; confluence_skipped := 0;
            confluence_errors := []; confluence_duplicates := 0;
            parent_id := parent_id |} ;;
  log INFO "Created {confluence_success} Confluence pages, skipped {confluence_skipped} pages"
      [confluence_success c; confluence_skipped c] ;;
  let details := details result
                 ++ [DConfluenceStatus (confluence_success c) (confluence_skipped c)] in
  let warnings := warnings result ++ (WConfluenceError <$> confluence_errors c) in
  warnings <-
    (if (confluence_success c =? 0) && (0 <? confluence_skipped c) then
       log WARNING "No Confluence pages were created. Check AI enrichment quality." [] ;;
       ret (warnings ++ [WNoPagesCreated])
     else ret warnings) ;;
  details <-
    (if (0 <? confluence_duplicates c) then
       log INFO "Found {confluence_duplicates} existing pages with the same titles"
           [confluence_duplicates c] ;;
       ret (details ++ [DDuplicates (confluence_duplicates c)])
     else ret details) ;;
  ret {| status := status result; details := details; warnings := warnings |}.

(** The [elif] of the Confluence block (lines 723-736). *)
Definition confluence_not_enabled (result : status_result)
  : M (list event) status_result :=
  let file_types_to_save := dict_get config "file_types_to_save" VNone in
  if truthy file_types_to_save then
    conf <- py_in "conf" (dict_get config "file_types_to_save" (VList [])) ;;
    if conf : bool then
      if negb (truthy (dict_get config "confluence_space" VNone))
         && negb (truthy (dict_get config "confluence_space_key" VNone)) then
        log WARNING "Skipping Confluence page creation (missing required configuration: confluence_space or confluence_space_key)" [] ;;
        ret {| status := status result; details := details result;
               warnings := warnings result ++ [WSkipMissingSpace] |}
      else if negb (truthy (dict_get config "confluence_parent_id" VNone))
              && negb (truthy (dict_get config "confluence_parent_page_id" VNone)) then
        log WARNING "Skipping Confluence page creation (missing required configuration: confluence_parent_id or confluence_parent_page_id)" [] ;;
        ret {| status := status result; details := details result;
               warnings := warnings result ++ [WSkipMissingParent] |}
      else
        log INFO "Skipping Confluence page creation (CREATE_CONFLUENCE_PAGES is not enabled)" [] ;;
        ret {| status := status result; details := details result ++ [DSkipNotEnabled];
               warnings := warnings result |}
    else ret result
  else ret result.

(** Lines 438-746: what follows a non-empty fetch. *)
Definition enrich_and_persist (parsed : list (gmap string pyval))
  : M (list event) status_result :=
  let result := {| status := "success"; details := []; warnings := [] |} in
  (* Optionally save raw data in DEBUG mode: the call of [create_file_path]
     there passes two of its three required arguments *)
  (if debug_enabled
   then raise (exn_of TypeError
                 "create_file_path() missing 1 required positional argument: 'issue_type'")
   else ret tt) ;;
  (* Enrich issues and collect results *)
  gathered <- gather parsed ;;
  let enrichment_results := fst gathered in
  let total := length parsed in
  let parsed := snd gathered in
  (* Count successful enrichments *)
  let successful_enrichments := count_successful enrichment_results in
  log INFO "Successfully enriched {successful_enrichments} out of {len(parsed)} issues"
      [successful_enrichments; total] ;;
  (if successful_enrichments =? 0
   then log ERROR "No issues were successfully enriched with AI content. Check Azure OpenAI connectivity." []
   else ret tt) ;;
  (* Persist enriched data based on configuration *)
  let create_local_files := dict_get config "create_local_files" (VBool true) in
  let create_confluence_pages := dict_get config "create_confluence_pages" (VBool false) in
  (if truthy create_local_files then save_local_files parsed else ret tt) ;;
  result <- (if truthy create_confluence_pages
             then create_confluence parsed result
             else confluence_not_enabled result) ;;
  log INFO "Processing completed successfully in {time} seconds for JQL: {jql}" [] ;;
  ret {| status := status result; details := details result ++ [DCompleted];
         warnings := warnings result |}.

(** [issue.get('key', 'Unknown')] must be a string for [', '.join]. *)
Definition key_is_str (issue : gmap string pyval) : bool :=
  match dict_get issue "key" (VStr "Unknown") with VStr _ => true | _ => false end.

(** [fetch_and_analyze_issues()]; [None] is the bare [return] of the empty
    fetch. *)
Definition fetch_and_analyze_issues : M (list event) (option status_result) :=
  log INFO "Starting fetch_and_analyze_issues for JQL: {jql}" [] ;;
  log INFO "Using max_results: {max_results}" [] ;;
  log INFO "Issue type: {jira_issue_type}" [] ;;
  catch
    (subscript config "jira_username" ;;
     subscript config "jira_api_key" ;;
     subscript config "jira_url" ;;
     (match jira_wrapper_new with Some e => raise e | None => ret tt end) ;;
     log INFO "JiraAPIWrapper created successfully" [] ;;
     log INFO "Using SSL-disabled connections for Jira and Confluence API calls" [])
    (fun e =>
       log ERROR "Error creating JiraAPIWrapper: {e}" [] ;;
       raise (exn_of JiraFetchError "Error creating JiraAPIWrapper")) ;;
  fetched <-
    catch
      (jql <- subscript config "jql" ;;
       max_results <- subscript config "max_results" ;;
       log INFO "Executing search with JQL: {jql} and max_results: {max_results}" [] ;;
       parsed <- (match jira_search_parse jql max_results with
                  | inl e => raise e
                  | inr parsed => ret parsed
                  end) ;;
       log INFO "Search completed successfully. Raw result size: {size}" [] ;;
       log INFO "Issues parsed successfully" [] ;;
       (* Check if any issues were found *)
       match parsed with
       | [] =>
           log WARNING "No issues found for JQL: {jql}" [] ;;
           log WARNING "JQL configuration: max_results={max_results}, issue_type={issue_type}" [] ;;
           ret None (* Return early if no issues were found *)
       | _ :: _ =>
           log INFO "Found {len(parsed)} issues for JQL: {jql}" [length parsed] ;;
           (if forallb key_is_str parsed then ret tt
            else raise (exn_of TypeError "sequence item: expected str instance")) ;;
           log INFO "Issue keys: {keys}" [] ;;
           ret (Some parsed)
       end)
      (fun e =>
         log ERROR "Error fetching or parsing issues: {e}" [] ;;
         raise (exn_of JiraFetchError "Error fetching or parsing issues")) ;;
  match fetched with
  | None => ret None
  | Some parsed => result <- enrich_and_persist parsed ;; ret (Some result)
  end.

End WithEnvironment.

End Enricher.

(* ===================================================================== *)
(** ** Facts about strings *)
(* ===================================================================== *)

Module StringFacts.

#[local] Arguments String.append !s1 s2 : simpl nomatch.

(** [u] occurs in [s] as a contiguous substring. *)
Definition substring_of (u s : string) : Prop :=
  exists a b, s = a +:+ u +:+ b.

Lemma append_assoc (a b c : string) : (a +:+ b) +:+ c = a +:+ b +:+ c.
Proof. induction a as [|x a IH]; simpl; [reflexivity | now rewrite IH]. Qed.

Lemma append_empty_r (a : string) : a +:+ "" = a.
Proof. induction a as [|x a IH]; simpl; [reflexivity | now rewrite IH]. Qed.

Lemma substring_of_refl s : substring_of s s.
Proof. exists "", "". simpl. now rewrite append_empty_r. Qed.

Lemma substring_of_empty s : substring_of "" s.
Proof. exists "", s. reflexivity. Qed.

Lemma substring_of_trans u v s :
  substring_of u v -> substring_of v s -> substring_of u s.
Proof.
  intros (a & b & ->) (c & d & ->).
  exists (c +:+ a), (b +:+ d).
  now rewrite !append_assoc.
Qed.

Lemma substring_of_cons c u s : substring_of u s -> substring_of u (String c s).
Proof. intros (a & b & ->). now exists (String c a), b. Qed.

(** A prefix of [s] occurs in [s]. *)
Lemma substring_of_prefix u b : substring_of u (u +:+ b).
Proof. now exists "", b. Qed.

Lemma substring_prefix_of m s : exists b, s = String.substring 0 m s +:+ b.
Proof.
  revert m; induction s as [|c s IH]; intros [|m]; simpl.
  - now exists "".
  - now exists "".
  - now exists (String c s).
  - destruct (IH m) as [b Hb]. exists b. now rewrite <- Hb.
Qed.

(** Every slice of a text occurs in the text. *)
Lemma substring_occurs n m s : substring_of (String.substring n m s) s.
Proof.
  revert n m; induction s as [|c s IH]; intros n m.
  - destruct n, m; simpl; apply substring_of_refl.
  - destruct n as [|n].
    + destruct (substring_prefix_of m (String c s)) as [b Hb].
      rewrite Hb at 2. apply substring_of_prefix.
    + simpl. apply substring_of_cons, IH.
Qed.

Lemma slice_occurs a b s : substring_of (Py.slice a b s) s.
Proof. apply substring_occurs. Qed.

Lemma lstrip_suffix s : exists a, s = a +:+ Py.lstrip s.
Proof.
  induction s as [|c s [a Ha]]; simpl.
  - now exists "".
  - destruct (Py.isspace c).
    + exists (String c a). simpl. now rewrite <- Ha.
    + now exists "".
Qed.

Lemma rstrip_prefix s : exists b, s = Py.rstrip s +:+ b.
Proof.
  induction s as [|c s [b Hb]]; simpl.
  - now exists "".
  - destruct (Py.rstrip s) as [|d r] eqn:E.
    + destruct (Py.isspace c).
      * now exists (String c s).
      * exists s. reflexivity.
    + exists b. simpl. simpl in Hb. now rewrite <- Hb.
Qed.

(** [s.strip()] occurs in [s]. *)
Lemma strip_occurs s : substring_of (Py.strip s) s.
Proof.
  unfold Py.strip.
  destruct (lstrip_suffix s) as [a Ha].
  destruct (rstrip_prefix (Py.lstrip s)) as [b Hb].
  exists a, b. now rewrite <- Hb.
Qed.

(** Every match of the fenced-block pattern is a slice of the text. *)
Lemma findall_fenced_slices fuel p text m :
  In m (Py.findall_fenced fuel p text) -> exists a b, m = Py.slice a b text.
Proof.
  revert p; induction fuel as [|fuel IH]; intros p; simpl; [tauto|].
  destruct (Py.find_from p "```" text) as [a|]; [|simpl; tauto].
  match goal with |- context [Py.find_from ?q "```" text] =>
    destruct (Py.find_from q "```" text) as [c|] eqn:E end.
  - intros [<- | H]; eauto.
  - apply IH.
Qed.

(** The substrings of a text, listed: every prefix of every suffix. *)
Fixpoint prefixes (s : string) : list string :=
  "" :: match s with
        | String c s' => map (String c) (prefixes s')
        | EmptyString => []
        end.

Fixpoint suffixes (s : string) : list string :=
  s :: match s with
       | String _ s' => suffixes s'
       | EmptyString => []
       end.

Definition substrings (s : string) : list string := flat_map prefixes (suffixes s).

Lemma in_prefixes u b : In u (prefixes (u +:+ b)).
Proof.
  induction u as [|c u IH]; simpl.
  - destruct b; simpl; auto.
  - right. apply in_map, IH.
Qed.

Lemma in_suffixes a r : In r (suffixes (a +:+ r)).
Proof.
  induction a as [|c a IH]; simpl.
  - destruct r; simpl; auto.
  - right. exact IH.
Qed.

Lemma substring_of_listed u s : substring_of u s -> In u (substrings s).
Proof.
  intros (a & b & ->). unfold substrings. apply in_flat_map.
  exists (u +:+ b). split; [apply in_suffixes | apply in_prefixes].
Qed.

(** A text has no substring accepted by [json_loads] when a check of the
    listed substrings says so. *)
Lemma no_json_by_enumeration (json_loads : string -> bool) text :
  forallb (fun u => negb (json_loads u)) (substrings text) = true ->
  forall u, substring_of u text -> json_loads u = false.
Proof.
  intros H u Hu. rewrite forallb_forall in H.
  specialize (H u (substring_of_listed _ _ Hu)). now destruct (json_loads u).
Qed.

Lemma index_ge n p s m : String.index n p s = Some m -> n <= m.
Proof.
  revert n m; induction s as [|c s IH]; intros n m; simpl.
  - destruct n; [|discriminate]. destruct p; [|discriminate]. intros [= <-]. lia.
  - destruct n as [|n].
    + intros _. lia.
    + destruct (String.index n p s) as [k|] eqn:E; [|discriminate].
      intros [= <-]. apply IH in E. lia.
Qed.

Lemma substring_length_le m k s :
  String.length (String.substring m k s) <= String.length s - m.
Proof.
  revert m k; induction s as [|c s IH]; intros m k.
  - destruct m, k; simpl; lia.
  - destruct m as [|m]; simpl.
    + destruct k as [|k]; simpl; [lia|]. specialize (IH 0 k). lia.
    + apply IH.
Qed.

Lemma index_fits n p s m :
  String.index n p s = Some m -> 0 < String.length p ->
  m + String.length p <= String.length s.
Proof.
  intros H Hp. apply String.index_correct1 in H.
  pose proof (substring_length_le m (String.length p) s) as Hl.
  rewrite H in Hl. lia.
Qed.

(** The scan of [re.findall] does not depend on the fuel once there is fuel
    for every start position that is left. *)
Lemma findall_fenced_fuel fuel1 fuel2 p text :
  String.length text < p + fuel1 -> fuel1 <= fuel2 ->
  Py.findall_fenced fuel1 p text = Py.findall_fenced fuel2 p text.
Proof.
  revert fuel2 p; induction fuel1 as [|fuel1 IH]; intros fuel2 p Hlen Hle.
  - destruct fuel2 as [|fuel2]; [reflexivity|]. simpl.
    destruct (Py.find_from p "```" text) as [a|] eqn:E; [|reflexivity].
    pose proof (index_ge _ _ _ _ E). apply index_fits in E; simpl in *; lia.
  - destruct fuel2 as [|fuel2]; [lia|]. simpl.
    destruct (Py.find_from p "```" text) as [a|] eqn:E; [|reflexivity].
    pose proof (index_ge _ _ _ _ E) as Hge.
    match goal with |- context [Py.find_from ?q "```" text] =>
      destruct (Py.find_from q "```" text) as [c|] eqn:E2 end.
    + f_equal. apply IH; [|lia]. apply index_ge in E2.
      destruct (Py.startswith "json" _); lia.
    + apply IH; lia.
Qed.
End StringFacts.

(* ===================================================================== *)
(** ** The response extractor *)
(* ===================================================================== *)

Module ExtractorFacts.

Import StringFacts.

Section WithJson.

Variable json_loads : string -> bool.

#[local] Abbreviation extract := (Extractor._extract_json_from_text json_loads).

Lemma first_valid_block_sound matches r :
  Extractor.first_valid_block json_loads matches = Some r ->
  json_loads r = true /\ exists m, In m matches /\ r = Py.strip m.
Proof.
  induction matches as [|m rest IH]; simpl; [discriminate|].
  destruct (json_loads (Py.strip m)) eqn:E.
  - intros [= <-]. split; [assumption|]. exists m. auto.
  - intros H. destruct (IH H) as (Hr & m' & Hin & ->). split; [assumption|].
    exists m'. auto.
Qed.

Lemma brace_walk_sound text start_idx n i bc ins esc r :
  Extractor.brace_walk json_loads text start_idx n i bc ins esc = Some r ->
  json_loads r = true /\ exists j, r = Py.slice start_idx (j + 1) text.
Proof.
  revert i bc ins esc; induction n as [|n IH]; intros i bc ins esc; simpl;
    [discriminate|].
  destruct (String.get i text) as [char|]; [|discriminate].
  repeat match goal with
         | |- context [if ?b then _ else _] =>
             lazymatch b with
             | json_loads _ => fail
             | _ => destruct b
             end
         end;
    try (apply IH);
    (destruct (json_loads (Py.slice start_idx (i + 1) text)) eqn:E;
     [intros [= <-]; split; [assumption | eauto] | apply IH]).
Qed.

Lemma by_braces_sound text r :
  Extractor.by_braces json_loads text = Some r ->
  json_loads r = true /\ substring_of r text.
Proof.
  unfold Extractor.by_braces.
  destruct (Py.find_from 0 "{" text) as [start_idx|]; [|discriminate].
  intros H. apply brace_walk_sound in H as (Hr & j & ->).
  split; [assumption | apply slice_occurs].
Qed.

Lemma whole_text_sound text r :
  Extractor.whole_text json_loads text = Some r ->
  json_loads r = true /\ substring_of r text.
Proof.
  unfold Extractor.whole_text.
  destruct (_ && _); [|discriminate].
  destruct (json_loads (Py.strip text)) eqn:E; [|discriminate].
  intros [= <-]. split; [assumption | apply strip_occurs].
Qed.

(** Whatever the extractor returns is empty, or parses and occurs in the
    text. *)
Lemma extract_sound text :
  extract text = "" \/
  (json_loads (extract text) = true /\ substring_of (extract text) text).
Proof.
  unfold Extractor._extract_json_from_text.
  destruct (Extractor.first_valid_block json_loads _) as [r|] eqn:E1.
  - right. apply first_valid_block_sound in E1 as (Hr & m & Hin & ->).
    split; [assumption|].
    apply findall_fenced_slices in Hin as (a & b & ->).
    eapply substring_of_trans; [apply strip_occurs | apply slice_occurs].
  - destruct (Extractor.by_braces json_loads text) as [r|] eqn:E2.
    + right. now apply by_braces_sound.
    + destruct (Extractor.whole_text json_loads text) as [r|] eqn:E3.
      * right. now apply whole_text_sound.
      * now left.
Qed.

(** C3.  A raw text none of whose substrings is accepted by [json.loads]
    makes [_extract_json_from_text] return the empty string, its "nothing
    found" result.  The function is total: every [JSONDecodeError] of the
    fenced-block, brace-walk and whole-text strategies ends in that result,
    none is raised to the caller. *)
Theorem extract_none_without_json (text : string) :
  (forall u, substring_of u text -> json_loads u = false) ->
  extract text = "".
Proof.
  intros Hno. destruct (extract_sound text) as [H | [Hr Hsub]]; [assumption|].
  rewrite (Hno _ Hsub) in Hr. discriminate.
Qed.

(** C4.  The brace walk never moves [start_idx]: once the fragment opened by
    the first brace fails to parse, every later candidate still starts at
    that first brace.  For the text [{bad} {"a": 1}] the candidates are
    [{bad}] and the whole text; when [json.loads] rejects both, the result is
    empty although the text ends with the object [{"a": 1}]. *)
Theorem later_object_not_returned :
  let later_object := "{" +:+ Py.quoted "a" +:+ ": 1}" in
  json_loads "{bad}" = false ->
  json_loads ("{bad} " +:+ later_object) = false ->
  extract ("{bad} " +:+ later_object) = "".
Proof.
  intros later_object H1 H2.
  unfold Extractor._extract_json_from_text.
  replace (Extractor.first_valid_block json_loads
             (Py.findall_fenced_blocks ("{bad} " +:+ later_object)))
    with (@None string) by (vm_compute; reflexivity).
  unfold Extractor.by_braces, Extractor.whole_text.
  cbv in H2. cbv. rewrite H1, H2. reflexivity.
Qed.

End WithJson.

(** The reference recogniser rejects the two candidates and accepts the
    later object on its own. *)
Lemma later_object_not_returned_witness :
  let later_object := "{" +:+ Py.quoted "a" +:+ ": 1}" in
  Json.loads later_object = true /\
  Extractor._extract_json_from_text Json.loads ("{bad} " +:+ later_object) = "".
Proof.
  split; [reflexivity|].
  apply (later_object_not_returned Json.loads); reflexivity.
Defined.

End ExtractorFacts.

(* ===================================================================== *)
(** ** Reading traces *)
(* ===================================================================== *)

Module Trace.

Import Enricher.

(** The attempts and the sleeps of a trace, in order.  An attempt is the log
    record at the head of the loop body, which carries the attempt number. *)
Inductive tick := TAttempt (n : nat) | TSleep (seconds : nat).

Definition tick_of (ev : event) : option tick :=
  match ev with
  | ELog INFO template [n; _] =>
      if String.eqb template attempt_template then Some (TAttempt n) else None
  | ESleep seconds => Some (TSleep seconds)
  | _ => None
  end.

Definition timeline (trace : list event) : list tick := omap tick_of trace.

Definition attempts (tl : list tick) : list nat :=
  omap (fun t => match t with TAttempt n => Some n | TSleep _ => None end) tl.

Definition sleeps (tl : list tick) : list nat :=
  omap (fun t => match t with TSleep s => Some s | TAttempt _ => None end) tl.

(** The sleeps at the head of a timeline, up to the first attempt. *)
Fixpoint leading_sleeps (tl : list tick) : list nat :=
  match tl with
  | TSleep s :: rest => s :: leading_sleeps rest
  | _ => []
  end.

(** The sleeps between attempt [n] and the attempt that follows it. *)
Fixpoint delays_after (n : nat) (tl : list tick) : list nat :=
  match tl with
  | [] => []
  | TAttempt k :: rest => if k =? n then leading_sleeps rest else delays_after n rest
  | TSleep _ :: rest => delays_after n rest
  end.

(** The calls to the persistence collaborators: file saves and wiki pages. *)
Definition is_persistence (ev : event) : bool :=
  match ev with
  | ESave _ _ | EPageCreate _ => true
  | _ => false
  end.

Definition persistence (trace : list event) : list event :=
  List.filter is_persistence trace.

(** The file saves of a trace: the format tag and the issues written. *)
Definition saves (trace : list event) : list (string * list (gmap string pyval)) :=
  omap (fun ev => match ev with ESave f issues => Some (f, issues) | _ => None end) trace.

(** A stretch of trace without any call to a persistence collaborator. *)
Definition quiet (trace : list event) : bool :=
  forallb (fun ev => negb (is_persistence ev)) trace.

Lemma timeline_app (a b : list event) : timeline (a ++ b) = timeline a ++ timeline b.
Proof. apply omap_app. Qed.

Lemma saves_app (a b : list event) : saves (a ++ b) = saves a ++ saves b.
Proof. apply omap_app. Qed.

Lemma persistence_app (a b : list event) :
  persistence (a ++ b) = persistence a ++ persistence b.
Proof. apply List.filter_app. Qed.

Lemma quiet_app (a b : list event) : quiet (a ++ b) = quiet a && quiet b.
Proof. apply forallb_app. Qed.

Lemma quiet_persistence (a : list event) : quiet a = true -> persistence a = [].
Proof.
  induction a as [|ev a IH]; simpl; [reflexivity|].
  destruct (is_persistence ev); simpl; [discriminate | exact IH].
Qed.

Lemma quiet_saves (a : list event) : quiet a = true -> saves a = [].
Proof.
  induction a as [|ev a IH]; simpl; [reflexivity|].
  destruct ev; simpl; try exact IH; discriminate.
Qed.

End Trace.

(* ===================================================================== *)
(** ** The retry loop of [analyze_issue_with_ai] *)
(* ===================================================================== *)

Module RetryFacts.

Import Enricher Trace.

(** The outcome classes of section 4.3, as the [except] clauses tell the
    exceptions of the model call apart: the time-out clause comes first, the
    parameter test on the message second, and only an exception that passes
    both reaches the clauses for [HttpUnauthorizedError], [ValueError] and
    the 401 test.  [Recovered] is an exception that carries a usable
    [llm_output]. *)
Inductive outcome :=
| Timeout | ParameterError | Unauthorized | TransportError | Recovered (a : analysis).

Definition classify (e : py_exn) : outcome :=
  match e_class e with
  | TimeoutError => Timeout
  | c =>
      if is_parameter_error (message e) then ParameterError
      else
        match c with
        | HttpUnauthorizedError => Unauthorized
        | ValueError => TransportError
        | _ =>
            if is_401 e then Unauthorized
            else match llm_output e with
                 | Some (Some a) => Recovered a
                 | _ => TransportError
                 end
        end
  end.

(** How one pass of the loop ends. *)
Inductive kind :=
| KReturn (a : analysis)   (* [return analysis] *)
| KFatal                   (* [HttpUnauthorizedError] leaves the function *)
| KTimeout                 (* time-out branch: sleep, then [continue] *)
| KParameter               (* parameter branch: [continue] at once *)
| KFall.                   (* the [try] statement is left for the backoff *)

(** An exception is handled as unauthorized exactly when it is no time-out,
    its message does not name an unsupported parameter or value, and it is an
    [HttpUnauthorizedError] or, not being a [ValueError], has status 401 or
    the text 401 in its message. *)
Lemma classify_unauthorized (e : py_exn) :
  classify e = Unauthorized <->
  e_class e <> TimeoutError /\ is_parameter_error (message e) = false /\
  (e_class e = HttpUnauthorizedError \/ (e_class e <> ValueError /\ is_401 e = true)).
Proof.
  unfold classify.
  destruct (e_class e) eqn:Ec; destruct (is_parameter_error (message e));
    destruct (is_401 e); try destruct (llm_output e) as [[a|]|];
    intuition (try discriminate; try congruence).
Qed.

Section WithEnvironment.

Variable json_loads : string -> bool.
Variable config : gmap string pyval.
Variable schema_init : schema -> gmap string pyval -> option analysis.
Variable model_validate_json : schema -> string -> option analysis.
Variable kernel_invoke :
  string -> gmap string pyval -> nat -> gmap string pyval -> invoke_outcome.

#[local] Abbreviation try_block :=
  (Enricher.try_block json_loads config schema_init model_validate_json kernel_invoke).
#[local] Abbreviation attempt_loop :=
  (Enricher.attempt_loop json_loads config schema_init model_validate_json kernel_invoke).
#[local] Abbreviation analyze_issue_with_ai :=
  (Enricher.analyze_issue_with_ai json_loads config schema_init model_validate_json
     kernel_invoke).

Section OneIssue.

Variable sch : schema.
Variable issue_type : string.
Variable issue_data : gmap string pyval.

(** The answer of the model service to the call of pass [attempt]. *)
Definition call (attempt : nat) : invoke_outcome :=
  kernel_invoke issue_type issue_data attempt (prompt_additions config).

Definition kind_of (attempt : nat) : kind :=
  match schema_init sch issue_data with
  | None => KFall
  | Some _ =>
      match call attempt with
      | Raised e =>
          match classify e with
          | Timeout => KTimeout
          | ParameterError => KParameter
          | Unauthorized => KFatal
          | TransportError => KFall
          | Recovered a => KReturn a
          end
      | Returned None => KFall
      | Returned (Some result_str) =>
          let json_content := Extractor._extract_json_from_text json_loads result_str in
          if String.eqb json_content "" then KFall
          else match model_validate_json sch json_content with
               | Some a => KReturn a
               | None => KFall
               end
      end
  end.

(** The timeline the loop produces from the counter value [attempt] on. *)
Fixpoint expected (fuel attempt : nat) : list tick :=
  match fuel with
  | O => []
  | S fuel' =>
      if attempt <? max_attempts then
        TAttempt (attempt + 1) ::
        match kind_of attempt with
        | KReturn _ | KFatal => []
        | KTimeout => TSleep (2 ^ (attempt + 1)) :: expected fuel' (attempt + 1)
        | KParameter => expected fuel' (attempt + 1)
        | KFall =>
            (if attempt + 1 <? max_attempts then [TSleep (2 ^ (attempt + 1))] else [])
            ++ expected fuel' (attempt + 1)
        end
      else []
  end.

(** What the loop returns from the counter value [attempt] on: the first
    pass that returns or raises decides; [KFall] stands for [return None]. *)
Fixpoint verdict (fuel attempt : nat) : kind :=
  match fuel with
  | O => KFall
  | S fuel' =>
      if attempt <? max_attempts then
        match kind_of attempt with
        | KReturn a => KReturn a
        | KFatal => KFatal
        | _ => verdict fuel' (attempt + 1)
        end
      else KFall
  end.

Definition pass_result (k : kind) (attempt : nat) (r : result control) : Prop :=
  match k with
  | KReturn a => r = Ok (Return (Some a))
  | KFatal => exists e, r = Raise e /\ e_class e = HttpUnauthorizedError
  | KTimeout | KParameter => r = Ok (Continue (attempt + 1))
  | KFall => r = Ok Fallthrough
  end.

Definition pass_ticks (k : kind) (attempt : nat) : list tick :=
  TAttempt (attempt + 1) ::
  match k with KTimeout => [TSleep (2 ^ (attempt + 1))] | _ => [] end.

Definition loop_result (k : kind) (r : result (option analysis)) : Prop :=
  match k with
  | KReturn a => r = Ok (Some a)
  | KFatal => exists e, r = Raise e /\ e_class e = HttpUnauthorizedError
  | _ => r = Ok None
  end.

(** The events [evs] a computation appends to the trace of [s]. *)
Definition appends (s s' : state) (evs : list event) : Prop :=
  st_issue s' = st_issue s /\ st_trace s' = st_trace s ++ evs.

(** The code after the [try] statement: the counter has been incremented to
    [attempt]. *)
Definition backoff (attempt : nat) (s : state) : state :=
  if attempt <? max_attempts then
    add_event (ESleep (2 ^ attempt))
      (add_event (ELog INFO "Retrying after %ds..." [2 ^ attempt]) s)
  else s.

Ltac run :=
  unfold bind, ret, raise, catch, log, sleep, emit, add_event, state_traced; simpl.

Ltac ticks :=
  unfold appends; simpl; rewrite <- ?app_assoc; simpl;
  split; [now eauto |]; eexists; split; [split; reflexivity |]; split; reflexivity.

(** One pass of the loop body, with its [except] clauses. *)
Lemma pass_spec attempt s :
  pass_result (kind_of attempt) attempt
    (fst (catch (try_block sch issue_type issue_data attempt) (handlers attempt) s)) /\
  exists evs,
    appends s (snd (catch (try_block sch issue_type issue_data attempt)
                      (handlers attempt) s)) evs /\
    timeline evs = pass_ticks (kind_of attempt) attempt /\ quiet evs = true.
Proof.
  unfold kind_of, call, Enricher.try_block, handlers, pass_result, pass_ticks, classify.
  destruct (schema_init sch issue_data) as [m|]; [|run; ticks].
  run.
  destruct (kernel_invoke issue_type issue_data attempt (prompt_additions config))
    as [[result_str|]|e].
  - run. destruct (String.eqb _ "") eqn:E; [run; ticks|].
    destruct (model_validate_json sch _) as [a|]; run; ticks.
  - run. ticks.
  - destruct (e_class e) eqn:Ec; run; try ticks;
      destruct (is_parameter_error (message e)); run; rewrite ?Ec; run; try ticks;
      destruct (is_401 e); run; try ticks;
      destruct (llm_output e) as [[a|]|]; run; ticks.
Qed.

Lemma attempt_loop_unfold fuel attempt s :
  (attempt <? max_attempts) = true ->
  attempt_loop (S fuel) sch issue_type issue_data attempt s =
  match catch (try_block sch issue_type issue_data attempt) (handlers attempt) s with
  | (Ok (Return r), s1) => (Ok r, s1)
  | (Ok (Continue attempt'), s1) => attempt_loop fuel sch issue_type issue_data attempt' s1
  | (Ok Fallthrough, s1) =>
      attempt_loop fuel sch issue_type issue_data (attempt + 1) (backoff (attempt + 1) s1)
  | (Raise e, s1) => (Raise e, s1)
  | (OutOfFuel, s1) => (OutOfFuel, s1)
  end.
Proof.
  intros E. simpl. rewrite E. unfold bind at 1.
  destruct (catch _ _ s) as [[[r|a|]|e|] s1]; try reflexivity.
  unfold backoff. destruct (attempt + 1 <? max_attempts); reflexivity.
Qed.

Lemma attempt_loop_done fuel attempt s :
  (attempt <? max_attempts) = false ->
  attempt_loop fuel sch issue_type issue_data attempt s =
  (Ok None,
   add_event (ELog ERROR "Azure OpenAI call ultimately failed after %d attempts."
                [max_attempts]) s).
Proof. intros E. destruct fuel; simpl; rewrite E; reflexivity. Qed.

Lemma backoff_appends attempt s :
  exists evs,
    appends s (backoff attempt s) evs /\
    timeline evs = (if attempt <? max_attempts then [TSleep (2 ^ attempt)] else []) /\
    quiet evs = true.
Proof.
  unfold backoff, appends. destruct (attempt <? max_attempts).
  - eexists. simpl. rewrite <- app_assoc. simpl. repeat split; reflexivity.
  - exists []. rewrite app_nil_r. repeat split; reflexivity.
Qed.

Lemma appends_trans s1 s2 s3 evs1 evs2 :
  appends s1 s2 evs1 -> appends s2 s3 evs2 -> appends s1 s3 (evs1 ++ evs2).
Proof.
  unfold appends. intros [H1 H2] [H3 H4]. split; [congruence|].
  rewrite H4, H2, app_assoc. reflexivity.
Qed.

(** The loop, by induction on the passes that remain: with fuel for the
    passes left it returns or raises as [verdict] says (so it never runs out
    of fuel), it leaves the issue alone, it calls no persistence collaborator
    and its timeline is [expected]. *)
Lemma loop_spec fuel attempt s :
  (max_attempts - attempt <= fuel) ->
  loop_result (verdict fuel attempt)
    (fst (attempt_loop fuel sch issue_type issue_data attempt s)) /\
  exists evs,
    appends s (snd (attempt_loop fuel sch issue_type issue_data attempt s)) evs /\
    timeline evs = expected fuel attempt /\ quiet evs = true.
Proof.
  revert attempt s. induction fuel as [|fuel IH]; intros attempt s Hfuel.
  - assert ((attempt <? max_attempts) = false) as E by (apply Nat.ltb_ge; lia).
    rewrite attempt_loop_done by assumption. simpl. split; [reflexivity|].
    eexists. repeat split; reflexivity.
  - destruct (attempt <? max_attempts) eqn:E.
    2:{ rewrite attempt_loop_done by assumption. simpl. rewrite E.
        split; [reflexivity|]. eexists. repeat split; reflexivity. }
    rewrite attempt_loop_unfold by assumption.
    pose proof (pass_spec attempt s) as (Hr & evs1 & Ha & Ht & Hq).
    destruct (catch _ _ s) as [r1 s1]. simpl in Hr, Ha.
    simpl verdict. simpl expected. rewrite E.
    destruct (kind_of attempt) eqn:K; simpl in Hr, Ht.
    + subst r1. simpl. eauto.
    + destruct Hr as (e & -> & He). simpl. eauto 7.
    + subst r1. destruct (IH (attempt + 1) s1) as (H1 & evs2 & H2 & H3 & H4); [lia|].
      split; [exact H1|]. exists (evs1 ++ evs2).
      split; [eapply appends_trans; eassumption|].
      rewrite timeline_app, quiet_app, Ht, H3, Hq, H4. split; reflexivity.
    + subst r1. destruct (IH (attempt + 1) s1) as (H1 & evs2 & H2 & H3 & H4); [lia|].
      split; [exact H1|]. exists (evs1 ++ evs2).
      split; [eapply appends_trans; eassumption|].
      rewrite timeline_app, quiet_app, Ht, H3, Hq, H4. split; reflexivity.
    + subst r1.
      destruct (backoff_appends (attempt + 1) s1) as (evsb & Hb1 & Hb2 & Hb3).
      destruct (IH (attempt + 1) (backoff (attempt + 1) s1))
        as (H1 & evs2 & H2 & H3 & H4); [lia|].
      split; [exact H1|]. exists (evs1 ++ evsb ++ evs2).
      split; [eapply appends_trans; [eassumption|];
              eapply appends_trans; eassumption|].
      rewrite !timeline_app, !quiet_app, Ht, H3, Hq, H4, Hb2, Hb3.
      split; reflexivity.
Qed.

End OneIssue.

(** [analyze_issue_with_ai] on a string issue type: the loop with
    [max_attempts] passes of fuel, started at zero. *)
Lemma analyze_spec issue_data (t : string) s :
  loop_result (verdict (schema_cls (Py.lower t)) (Py.lower t) issue_data max_attempts 0)
    (fst (analyze_issue_with_ai issue_data (VStr t) s)) /\
  exists evs,
    appends s (snd (analyze_issue_with_ai issue_data (VStr t) s)) evs /\
    timeline evs = expected (schema_cls (Py.lower t)) (Py.lower t) issue_data
                     max_attempts 0 /\
    quiet evs = true.
Proof.
  change (analyze_issue_with_ai issue_data (VStr t) s)
    with (attempt_loop max_attempts (schema_cls (Py.lower t)) (Py.lower t)
            issue_data 0 s).
  apply loop_spec. unfold max_attempts. lia.
Qed.

(** The passes in terms of what the model service answers. *)
Lemma kind_of_timeout sch issue_type issue_data attempt m e :
  schema_init sch issue_data = Some m ->
  call issue_type issue_data attempt = Raised e ->
  e_class e = TimeoutError ->
  kind_of sch issue_type issue_data attempt = KTimeout.
Proof.
  intros Hm Hc He. unfold kind_of. rewrite Hm.
  unfold call in Hc |- *. rewrite Hc. unfold classify. now rewrite He.
Qed.

Lemma kind_of_returned sch issue_type issue_data attempt m result_str a :
  schema_init sch issue_data = Some m ->
  call issue_type issue_data attempt = Returned (Some result_str) ->
  Extractor._extract_json_from_text json_loads result_str <> "" ->
  model_validate_json sch (Extractor._extract_json_from_text json_loads result_str)
  = Some a ->
  kind_of sch issue_type issue_data attempt = KReturn a.
Proof.
  intros Hm Hc Hne Hv. unfold kind_of. rewrite Hm.
  unfold call in Hc |- *. rewrite Hc. simpl.
  destruct (String.eqb_spec (Extractor._extract_json_from_text json_loads result_str) "")
    as [E|E]; [contradiction|]. now rewrite Hv.
Qed.

Lemma kind_of_parameter sch issue_type issue_data attempt :
  kind_of sch issue_type issue_data attempt = KParameter <->
  schema_init sch issue_data <> None /\
  exists e, call issue_type issue_data attempt = Raised e /\
            e_class e <> TimeoutError /\ is_parameter_error (message e) = true.
Proof.
  unfold kind_of, call, classify.
  destruct (schema_init sch issue_data) as [m|].
  2:{ split; [discriminate | intros [H _]; congruence]. }
  destruct (kernel_invoke issue_type issue_data attempt (prompt_additions config))
    as [[result_str|]|e].
  - simpl. split; [|intros (_ & e & H & _); discriminate].
    destruct (String.eqb _ ""); [discriminate|].
    destruct (model_validate_json sch _); discriminate.
  - split; [discriminate | intros (_ & e & H & _); discriminate].
  - split.
    + intros H. split; [discriminate|]. exists e. split; [reflexivity|].
      destruct (e_class e); destruct (is_parameter_error (message e));
        try discriminate; try (split; [discriminate | reflexivity]);
        destruct (is_401 e); try discriminate;
        destruct (llm_output e) as [[a|]|]; discriminate.
    + intros (_ & e' & [= <-] & Hc & Hp). rewrite Hp.
      destruct (e_class e); congruence.
Qed.

(** C1 (as amended).  Whatever the model service answers, a run of
    [analyze_issue_with_ai] makes the attempts 1..k for some k between 1 and
    3; no sleep precedes attempt 1; and when attempt n+1 takes place, the
    sleeps between attempt n and attempt n+1 are exactly one sleep of 2^n
    seconds (2s before attempt 2, 4s before attempt 3), unless pass n ended
    in the parameter branch, after which attempt n+1 follows with no sleep.
    In particular, when the model call times out on attempts 1 and 2 and the
    answer of attempt 3 is extracted and validated, the analysis is returned
    and the sleeps of the run are 2s then 4s. *)
Theorem retry_backoff_schedule issue_data (t : string) (issue : gmap string pyval) :
  let sch := schema_cls (Py.lower t) in
  let kind := kind_of sch (Py.lower t) issue_data in
  let run := analyze_issue_with_ai issue_data (VStr t)
               {| st_issue := issue; st_trace := [] |} in
  let tl := timeline (st_trace (snd run)) in
  (exists k, 1 <= k <= max_attempts /\ attempts tl = seq 1 k) /\
  leading_sleeps tl = [] /\
  (forall n, 1 <= n -> In (n + 1) (attempts tl) ->
     delays_after n tl = match kind (n - 1) with KParameter => [] | _ => [2 ^ n] end) /\
  (forall m e1 e2 result_str a,
     schema_init sch issue_data = Some m ->
     call (Py.lower t) issue_data 0 = Raised e1 -> e_class e1 = TimeoutError ->
     call (Py.lower t) issue_data 1 = Raised e2 -> e_class e2 = TimeoutError ->
     call (Py.lower t) issue_data 2 = Returned (Some result_str) ->
     Extractor._extract_json_from_text json_loads result_str <> "" ->
     model_validate_json sch (Extractor._extract_json_from_text json_loads result_str)
     = Some a ->
     fst run = Ok (Some a) /\ sleeps tl = [2; 4]).
Proof.
  intros sch kind run tl.
  assert (forall a, kind 0 = KTimeout -> kind 1 = KTimeout -> kind 2 = KReturn a ->
                    fst run = Ok (Some a) /\ sleeps tl = [2; 4]) as Hscenario;
    [| assert (forall n, 1 <= n -> In (n + 1) (attempts tl) ->
               delays_after n tl
               = match kind (n - 1) with KParameter => [] | _ => [2 ^ n] end) as Hdelay;
       [| assert ((exists k, 1 <= k <= max_attempts /\ attempts tl = seq 1 k)
                  /\ leading_sleeps tl = []) as [Hk Hlead]]].
  4:{ split; [exact Hk | split; [exact Hlead | split; [exact Hdelay |]]].
      intros m e1 e2 result_str a Hm H1 He1 H2 He2 H3 Hne Hv.
      apply Hscenario.
      - eapply kind_of_timeout; eassumption.
      - eapply kind_of_timeout; eassumption.
      - eapply kind_of_returned; eassumption. }
  all: try clear Hdelay; try clear Hscenario.
  all: destruct (analyze_spec issue_data t {| st_issue := issue; st_trace := [] |})
      as (Hres & evs & [_ Hevs] & Htl & _);
    fold run in Hres, Hevs; simpl in Hevs; unfold tl; rewrite Hevs, Htl;
    simpl in Hres |- *; fold sch in Hres |- *; fold kind in Hres |- *;
    clearbody run; clear Hevs Htl tl;
    destruct (kind 0) as [a0| | | |] eqn:K0; destruct (kind 1) as [a1| | | |] eqn:K1;
    destruct (kind 2) as [a2| | | |] eqn:K2; simpl in Hres |- *.
  all: try (intros a H0 H1 H2; first [congruence | split; [congruence | reflexivity]]).
  all: try (intros n Hn Hin; simpl in Hin;
            repeat match goal with H : _ \/ _ |- _ => destruct H end;
            try contradiction;
            first [ exfalso; lia
                  | replace n with 1 by lia; simpl; rewrite K0; reflexivity
                  | replace n with 2 by lia; simpl; rewrite K1; reflexivity ]).
  all: split; [| reflexivity];
    first [ exists 1; split; [unfold max_attempts; lia | reflexivity]
          | exists 2; split; [unfold max_attempts; lia | reflexivity]
          | exists 3; split; [unfold max_attempts; lia | reflexivity] ].
Qed.

(** C2.  When the first model call raises an exception that is handled as
    unauthorized, the run consists of attempt 1 alone, without any sleep,
    and ends by raising [HttpUnauthorizedError] to the caller. *)
Theorem unauthorized_is_fatal issue_data (t : string) (issue : gmap string pyval) m e :
  let sch := schema_cls (Py.lower t) in
  let run := analyze_issue_with_ai issue_data (VStr t)
               {| st_issue := issue; st_trace := [] |} in
  schema_init sch issue_data = Some m ->
  call (Py.lower t) issue_data 0 = Raised e ->
  classify e = Unauthorized ->
  (exists e', fst run = Raise e' /\ e_class e' = HttpUnauthorizedError) /\
  attempts (timeline (st_trace (snd run))) = [1] /\
  sleeps (timeline (st_trace (snd run))) = [].
Proof.
  intros sch run Hm Hc He.
  assert (kind_of sch (Py.lower t) issue_data 0 = KFatal) as K0.
  { unfold kind_of. rewrite Hm. unfold call in Hc |- *. now rewrite Hc, He. }
  destruct (analyze_spec issue_data t {| st_issue := issue; st_trace := [] |})
    as (Hres & evs & [_ Hevs] & Htl & _).
  fold run in Hres, Hevs. simpl in Hevs. rewrite Hevs, Htl.
  simpl in Hres |- *. fold sch in Hres |- *. rewrite K0 in Hres |- *.
  simpl in Hres |- *. auto.
Qed.

End WithEnvironment.

End RetryFacts.

(* ===================================================================== *)
(** ** The issue enricher: [add_ai_analysis_to_issue] *)
(* ===================================================================== *)

Module EnrichFacts.

Import Enricher Trace RetryFacts.

(** The issue after the merge loop: the model fields written over it, in
    order. *)
Definition merged (issue : gmap string pyval) (result : analysis)
  : gmap string pyval :=
  fold_left (fun m kv => <[fst kv := snd kv]> m) result issue.

(** The ticket-number rule applied to a merged issue. *)
Definition normalised (m : gmap string pyval) : gmap string pyval :=
  match m !! "ticket_number" with
  | Some (VStr tn) =>
      if Py.match_ip_ticket tn then <["ticket_number" := VStr ""]> m else m
  | _ => m
  end.

Lemma merged_lookup_other issue result k :
  ~ In k (map fst result) -> merged issue result !! k = issue !! k.
Proof.
  revert issue; induction result as [|[f v] rest IH]; intros issue Hk; simpl in *;
    [reflexivity|].
  rewrite IH by tauto. apply lookup_insert_ne. intros ->. tauto.
Qed.

Lemma merged_lookup_field issue result f v :
  List.NoDup (map fst result) -> In (f, v) result ->
  merged issue result !! f = Some v.
Proof.
  revert issue; induction result as [|[f' v'] rest IH]; intros issue Hnd Hin;
    simpl in *; [contradiction|].
  inversion Hnd as [|? ? Hnotin Hnd']; subst.
  destruct Hin as [[= -> ->] | Hin].
  - rewrite merged_lookup_other by assumption. apply lookup_insert_eq.
  - now apply IH.
Qed.

Lemma merged_keeps issue result k :
  is_Some (issue !! k) -> is_Some (merged issue result !! k).
Proof.
  revert issue; induction result as [|[f v] rest IH]; intros issue Hk; simpl;
    [assumption|].
  apply IH. destruct (decide (f = k)) as [->|Hne].
  - rewrite lookup_insert_eq. eauto.
  - now rewrite lookup_insert_ne.
Qed.

Lemma merge_fields_spec result s :
  merge_fields result s =
  (Ok tt, {| st_issue := merged (st_issue s) result; st_trace := st_trace s |}).
Proof.
  revert s; induction result as [|[f v] rest IH]; intros s; simpl.
  - now destruct s.
  - unfold bind, set_field. simpl. now rewrite IH.
Qed.

Section WithEnvironment.

Variable json_loads : string -> bool.
Variable config : gmap string pyval.
Variable schema_init : schema -> gmap string pyval -> option analysis.
Variable model_validate_json : schema -> string -> option analysis.
Variable kernel_invoke :
  string -> gmap string pyval -> nat -> gmap string pyval -> invoke_outcome.
Variable py_repr : pyval -> string.

#[local] Abbreviation analyze_issue_with_ai :=
  (Enricher.analyze_issue_with_ai json_loads config schema_init model_validate_json
     kernel_invoke).
#[local] Abbreviation add_ai_analysis_to_issue :=
  (Enricher.add_ai_analysis_to_issue json_loads config schema_init model_validate_json
     kernel_invoke py_repr).
#[local] Abbreviation verdict :=
  (RetryFacts.verdict json_loads config schema_init model_validate_json kernel_invoke).

(** The call of the retry controller that the enricher makes for the issue
    of [s], whose type is the string [t]. *)
Definition enrichment_call (s : state) (t : string) : result (option analysis) * state :=
  analyze_issue_with_ai (make_snippet (st_issue s) (snippet_keys (Py.lower t))) (VStr t)
    (add_event (ELog DEBUG "Issue snippet: %s" []) s).

(** Lines 324-336, after a result that is not [None]. *)
Definition finish (result : analysis) : M state bool :=
  merge_fields result ;;
  issue <- get_issue ;;
  m <- re_match_ticket (dict_get issue "ticket_number" (VStr "")) ;;
  (if m : bool then set_field "ticket_number" (VStr "") else ret tt) ;;
  jira_url <- subscript config "jira_url" ;;
  key <- subscript issue "key" ;;
  set_field "browsable_url"
    (VStr (format_value py_repr jira_url +:+ "/browse/" +:+ format_value py_repr key)) ;;
  set_field "ai_enriched" (VBool true) ;;
  log INFO "Enriched issue %s successfully." [] ;;
  ret true.

Lemma add_ai_spec s (t : string) :
  dict_get (st_issue s) "issuetype" (VStr "") = VStr t ->
  add_ai_analysis_to_issue s =
  match enrichment_call s t with
  | (Ok None, s1) =>
      (Ok false,
       {| st_issue := <["ai_enriched" := VBool false]> (st_issue s1);
          st_trace := st_trace s1 ++ [ELog ERROR "No AI result for %s, skipping." []] |})
  | (Ok (Some result), s1) => finish result s1
  | (Raise e, s1) => (Raise e, s1)
  | (OutOfFuel, s1) => (OutOfFuel, s1)
  end.
Proof.
  intros Ht. unfold Enricher.add_ai_analysis_to_issue, enrichment_call.
  unfold bind at 1. unfold get_issue at 1. cbv beta iota. rewrite Ht.
  unfold bind at 1. unfold str_lower at 1, ret at 1. cbv beta iota.
  unfold bind at 1. unfold log at 1, emit at 1. cbv beta iota.
  unfold bind at 1.
  destruct (analyze_issue_with_ai _ _ _) as [[[result|]|e|] s1]; reflexivity.
Qed.

(** An issue whose type is no string makes [lower] raise before anything
    else happens. *)
Lemma add_ai_bad_type s :
  (forall t, dict_get (st_issue s) "issuetype" (VStr "") <> VStr t) ->
  exists e, add_ai_analysis_to_issue s = (Raise e, s) /\ e_class e = AttributeError.
Proof.
  intros Ht. unfold Enricher.add_ai_analysis_to_issue.
  unfold bind at 1. unfold get_issue at 1. cbv beta iota.
  destruct (dict_get (st_issue s) "issuetype" (VStr "")) eqn:E;
    try (eexists; split; reflexivity).
  exfalso. eapply Ht. reflexivity.
Qed.

(** The tail of the function on a merged issue with a string (or no) ticket
    number, a key, and a configured [jira_url]. *)
Lemma finish_spec result s1 jira_url key :
  let m := merged (st_issue s1) result in
  (forall v, m !! "ticket_number" = Some v -> exists tn, v = VStr tn) ->
  config !! "jira_url" = Some jira_url ->
  m !! "key" = Some key ->
  finish result s1 =
  (Ok true,
   {| st_issue :=
        <["ai_enriched" := VBool true]>
          (<["browsable_url" :=
               VStr (format_value py_repr jira_url +:+ "/browse/"
                     +:+ format_value py_repr key)]> (normalised m));
      st_trace := st_trace s1 ++ [ELog INFO "Enriched issue %s successfully." []] |}).
Proof.
  intros m Htn Hurl Hkey. unfold finish.
  unfold bind at 1. rewrite merge_fields_spec. fold m.
  unfold bind at 1. unfold get_issue at 1. cbv beta iota. simpl st_issue.
  unfold normalised, dict_get, subscript. rewrite Hurl, Hkey.
  destruct (m !! "ticket_number") as [v|] eqn:E.
  - destruct (Htn v eq_refl) as [tn ->]. simpl.
    destruct (Py.match_ip_ticket tn); reflexivity.
  - reflexivity.
Qed.

(** Whenever the tail returns, it returns [True] and the issue is the merged
    one with the ticket rule applied and the two bookkeeping fields set. *)
Lemma finish_ok result s1 b s' :
  finish result s1 = (Ok b, s') ->
  b = true /\
  exists url,
    st_issue s' =
    <["ai_enriched" := VBool true]>
      (<["browsable_url" := VStr url]> (normalised (merged (st_issue s1) result))).
Proof.
  unfold finish.
  unfold bind at 1. rewrite merge_fields_spec.
  unfold bind, get_issue, re_match_ticket, dict_get, subscript, set_field, log, emit,
    ret, raise, add_event, state_traced, normalised; simpl.
  destruct (merged (st_issue s1) result !! "ticket_number") as [[ |b0|z0|tn|l0|d0]|] eqn:E;
    simpl; try discriminate.
  - destruct (Py.match_ip_ticket tn); simpl;
      destruct (config !! "jira_url") as [jira_url|]; simpl; try discriminate;
      destruct (merged (st_issue s1) result !! "key") as [key|]; simpl; try discriminate;
      intros [= <- <-]; (split; [reflexivity | eexists; reflexivity]).
  - destruct (config !! "jira_url") as [jira_url|]; simpl; try discriminate;
      destruct (merged (st_issue s1) result !! "key") as [key|]; simpl; try discriminate;
      intros [= <- <-]; (split; [reflexivity | eexists; reflexivity]).
Qed.

Lemma enrichment_call_spec s (t : string) :
  loop_result
    (verdict (schema_cls (Py.lower t)) (Py.lower t)
       (make_snippet (st_issue s) (snippet_keys (Py.lower t))) max_attempts 0)
    (fst (enrichment_call s t)) /\
  exists evs,
    st_issue (snd (enrichment_call s t)) = st_issue s /\
    st_trace (snd (enrichment_call s t))
    = st_trace s ++ ELog DEBUG "Issue snippet: %s" [] :: evs /\
    quiet evs = true.
Proof.
  unfold enrichment_call.
  destruct (analyze_spec json_loads config schema_init model_validate_json kernel_invoke
              (make_snippet (st_issue s) (snippet_keys (Py.lower t))) t
              (add_event (ELog DEBUG "Issue snippet: %s" []) s))
    as (Hres & evs & [Hi Htr] & _ & Hq).
  split; [exact Hres|]. exists evs. split; [exact Hi|]. split; [|exact Hq].
  rewrite Htr. simpl. now rewrite <- app_assoc.
Qed.

(** C5 (as amended).  For an issue whose type is a string, what
    [add_ai_analysis_to_issue] does is decided by how the retry controller
    ends.  When the controller ends with no analysis, which is how every
    time-out, parameter rejection, transport failure, extraction failure and
    validation failure ends once the attempts are used up, the enricher
    raises nothing: it sets [ai_enriched] to false, leaves the other fields
    alone, logs at error level and returns false.  When an attempt fails as
    unauthorized, the failure is not absorbed: the enricher raises
    [HttpUnauthorizedError].  When an analysis is returned, the enricher
    returns true, provided the merged issue has a key, [jira_url] is
    configured and the merged ticket number, if any, is a string. *)
Theorem enrich_boolean_contract s (t : string) :
  dict_get (st_issue s) "issuetype" (VStr "") = VStr t ->
  match verdict (schema_cls (Py.lower t)) (Py.lower t)
          (make_snippet (st_issue s) (snippet_keys (Py.lower t))) max_attempts 0 with
  | KFatal =>
      exists e s',
        add_ai_analysis_to_issue s = (Raise e, s') /\ e_class e = HttpUnauthorizedError
  | KReturn a =>
      is_Some (config !! "jira_url") ->
      is_Some (merged (st_issue s) a !! "key") ->
      (forall v, merged (st_issue s) a !! "ticket_number" = Some v ->
                 exists tn, v = VStr tn) ->
      exists s', add_ai_analysis_to_issue s = (Ok true, s')
  | _ =>
      exists evs,
        add_ai_analysis_to_issue s =
        (Ok false,
         {| st_issue := <["ai_enriched" := VBool false]> (st_issue s);
            st_trace := st_trace s ++ evs
                        ++ [ELog ERROR "No AI result for %s, skipping." []] |})
  end.
Proof.
  intros Ht. rewrite (add_ai_spec s t Ht).
  destruct (enrichment_call_spec s t) as (Hres & evs & Hi & Htr & _).
  destruct (enrichment_call s t) as [r s1]. cbn [fst snd] in Hres, Hi, Htr.
  destruct (verdict _ _ _ _ _) as [a| | | |]; cbn [loop_result] in Hres.
  - subst r. intros [url Hurl] [key Hkey] Htn. rewrite <- Hi in Hkey, Htn.
    eexists. eapply finish_spec; eassumption.
  - destruct Hres as (e & -> & He). eauto.
  - subst r. exists (ELog DEBUG "Issue snippet: %s" [] :: evs).
    rewrite Hi, Htr, <- app_assoc. reflexivity.
  - subst r. exists (ELog DEBUG "Issue snippet: %s" [] :: evs).
    rewrite Hi, Htr, <- app_assoc. reflexivity.
  - subst r. exists (ELog DEBUG "Issue snippet: %s" [] :: evs).
    rewrite Hi, Htr, <- app_assoc. reflexivity.
Qed.

(** A successful enrichment, taken apart: the issue type is a string, the
    controller returned an analysis, and the final issue is the merged one
    with the ticket rule applied and the two bookkeeping fields set. *)
Lemma add_ai_success s s' :
  add_ai_analysis_to_issue s = (Ok true, s') ->
  exists (t : string) result s1 url,
    dict_get (st_issue s) "issuetype" (VStr "") = VStr t /\
    enrichment_call s t = (Ok (Some result), s1) /\
    st_issue s' =
    <["ai_enriched" := VBool true]>
      (<["browsable_url" := VStr url]> (normalised (merged (st_issue s) result))).
Proof.
  intros H.
  destruct (dict_get (st_issue s) "issuetype" (VStr "")) as [ |b0|z0|t|l0|d0] eqn:Et;
    try (destruct (add_ai_bad_type s) as (e & He & _);
         [intros t' Ht'; rewrite Et in Ht'; discriminate | rewrite He in H; discriminate]).
  rewrite (add_ai_spec s t Et) in H.
  destruct (enrichment_call_spec s t) as (_ & evs & Hi & _).
  destruct (enrichment_call s t) as [[[result|]|e|] s1] eqn:Ec; try discriminate.
  simpl in Hi. apply finish_ok in H as (_ & url & Hs').
  exists t, result, s1, url. rewrite Hi in Hs'. auto.
Qed.

(** C9.  After a successful enrichment the ticket number of the issue is
    the empty string when the merged ticket number matches the placeholder
    pattern [IP-\d+] (whether it came from the model or was on the issue
    before); a merged ticket number that does not match is left as merged,
    and so is its absence. *)
Theorem placeholder_ticket_cleared s s' :
  add_ai_analysis_to_issue s = (Ok true, s') ->
  exists (t : string) result s1,
    dict_get (st_issue s) "issuetype" (VStr "") = VStr t /\
    enrichment_call s t = (Ok (Some result), s1) /\
    (forall tn, merged (st_issue s) result !! "ticket_number" = Some (VStr tn) ->
                Py.match_ip_ticket tn = true ->
                st_issue s' !! "ticket_number" = Some (VStr "")) /\
    (forall tn, merged (st_issue s) result !! "ticket_number" = Some (VStr tn) ->
                Py.match_ip_ticket tn = false ->
                st_issue s' !! "ticket_number" = Some (VStr tn)) /\
    (merged (st_issue s) result !! "ticket_number" = None ->
     st_issue s' !! "ticket_number" = None).
Proof.
  intros H. apply add_ai_success in H as (t & result & s1 & url & Ht & Hc & Hs').
  exists t, result, s1. split; [exact Ht|]. split; [exact Hc|].
  rewrite Hs'. unfold normalised.
  repeat split.
  - intros tn Hm Hp. rewrite Hm, Hp.
    rewrite lookup_insert_ne by discriminate.
    rewrite lookup_insert_ne by discriminate.
    apply lookup_insert_eq.
  - intros tn Hm Hp. rewrite Hm, Hp.
    rewrite lookup_insert_ne by discriminate.
    rewrite lookup_insert_ne by discriminate. exact Hm.
  - intros Hm. rewrite Hm.
    rewrite lookup_insert_ne by discriminate.
    rewrite lookup_insert_ne by discriminate. exact Hm.
Qed.

Lemma normalised_lookup_other m k :
  k <> "ticket_number" -> normalised m !! k = m !! k.
Proof.
  intros Hk. unfold normalised.
  destruct (m !! "ticket_number") as [[ |b0|z0|tn|l0|d0]|]; try reflexivity.
  destruct (Py.match_ip_ticket tn); [|reflexivity].
  now rewrite lookup_insert_ne by congruence.
Qed.

Lemma normalised_keeps m k : is_Some (m !! k) -> is_Some (normalised m !! k).
Proof.
  intros Hk. unfold normalised.
  destruct (m !! "ticket_number") as [[ |b0|z0|tn|l0|d0]|]; try assumption.
  destruct (Py.match_ip_ticket tn); [|assumption].
  destruct (decide ("ticket_number" = k)) as [<-|Hne].
  - rewrite lookup_insert_eq. eauto.
  - now rewrite lookup_insert_ne.
Qed.

(** C8.  The merge loop of [add_ai_analysis_to_issue] is additive: it
    raises nothing and logs nothing, every field of the result is in the
    issue afterwards with the value of the result, every other field of the
    issue is as before, and no field is removed.  Through the rest of a
    successful enrichment the merged issue is kept as well: apart from
    [ticket_number], [browsable_url] and [ai_enriched], which the enricher
    sets itself after the merge, every field has its merged value, and no
    field is removed. *)
Theorem merge_is_additive :
  (forall (result : analysis) s,
     List.NoDup (map fst result) ->
     exists s1,
       merge_fields result s = (Ok tt, s1) /\ st_trace s1 = st_trace s /\
       (forall f v, In (f, v) result -> st_issue s1 !! f = Some v) /\
       (forall k, ~ In k (map fst result) -> st_issue s1 !! k = st_issue s !! k) /\
       (forall k, is_Some (st_issue s !! k) -> is_Some (st_issue s1 !! k))) /\
  (forall s0 s',
     add_ai_analysis_to_issue s0 = (Ok true, s') ->
     exists (t : string) result sc,
       dict_get (st_issue s0) "issuetype" (VStr "") = VStr t /\
       enrichment_call s0 t = (Ok (Some result), sc) /\
       (forall k, k <> "ticket_number" -> k <> "browsable_url" -> k <> "ai_enriched" ->
                  st_issue s' !! k = merged (st_issue s0) result !! k) /\
       (forall k, is_Some (st_issue s0 !! k) -> is_Some (st_issue s' !! k))).
Proof.
  split.
  - intros result s Hnd.
    eexists. split; [apply merge_fields_spec|]. simpl. split; [reflexivity|].
    split; [|split].
    + intros f v Hin. now apply merged_lookup_field.
    + intros k Hk. now apply merged_lookup_other.
    + intros k Hk. now apply merged_keeps.
  - intros s0 s' H.
    apply add_ai_success in H as (t & result & sc & url & Ht & Hc & Hs').
    exists t, result, sc. split; [exact Ht|]. split; [exact Hc|].
    rewrite Hs'. split.
    + intros k H1 H2 H3.
      rewrite lookup_insert_ne by congruence.
      rewrite lookup_insert_ne by congruence.
      now apply normalised_lookup_other.
    + intros k Hk.
      destruct (decide ("ai_enriched" = k)) as [<-|Hne];
        [rewrite lookup_insert_eq; eauto | rewrite lookup_insert_ne by assumption].
      destruct (decide ("browsable_url" = k)) as [<-|Hne2];
        [rewrite lookup_insert_eq; eauto | rewrite lookup_insert_ne by assumption].
      apply normalised_keeps, merged_keeps, Hk.
Qed.


End WithEnvironment.

End EnrichFacts.

(* ===================================================================== *)
(** ** [_has_meaningful_content] *)
(* ===================================================================== *)

Module ContentFacts.

Import Enricher.

(** A text that is not empty once stripped. *)
Definition nonblank (x : string) : bool := negb (String.eqb (Py.strip x) "").

(** C6 (as amended).  What counts as meaningful content depends on the
    issue type.  For a bug: a technical summary that is not blank, together
    with a cause or a fix that is not blank; the executive summary is not
    looked at, and one of cause and fix may be empty.  For an epic: a
    technical or an executive summary that is not blank.  For any other
    type: a reasoning that is not blank and a non-empty list of inferred
    categories.  Blank means empty after stripping white space; a missing
    field counts as the empty string (the empty list for the categories).
    The check reads the issue and changes nothing. *)
Theorem meaningful_content_rule {S : Type} (issue : gmap string pyval) (s : S)
    (t : string) :
  dict_get issue "issuetype" (VStr "") = VStr t ->
  (Py.lower t = "bug" ->
   forall tech cause fix_ : string,
     dict_get issue "technical_summary" (VStr "") = VStr tech ->
     dict_get issue "cause" (VStr "") = VStr cause ->
     dict_get issue "fix" (VStr "") = VStr fix_ ->
     _has_meaningful_content issue s
     = (Ok (nonblank tech && (nonblank cause || nonblank fix_)), s)) /\
  (Py.lower t = "epic" ->
   forall tech exec : string,
     dict_get issue "technical_summary" (VStr "") = VStr tech ->
     dict_get issue "executive_summary" (VStr "") = VStr exec ->
     _has_meaningful_content issue s = (Ok (nonblank tech || nonblank exec), s)) /\
  (Py.lower t <> "bug" -> Py.lower t <> "epic" ->
   forall reasoning : string,
     dict_get issue "reasoning" (VStr "") = VStr reasoning ->
     _has_meaningful_content issue s
     = (Ok (nonblank reasoning
            && truthy (dict_get issue "inferredCategories" (VList []))), s)).
Proof.
  intros Ht. unfold _has_meaningful_content, nonblank.
  unfold bind, str_lower, str_strip, ret. rewrite Ht.
  repeat split.
  - intros Hb tech cause fix_ H1 H2 H3. rewrite Hb, H1, H2, H3. simpl.
    destruct (String.eqb (Py.strip tech) ""); [reflexivity|].
    destruct (String.eqb (Py.strip cause) ""); reflexivity.
  - intros He tech exec H1 H2. rewrite He, H1, H2. simpl.
    destruct (String.eqb (Py.strip tech) ""); reflexivity.
  - intros Hb He reasoning H1.
    destruct (String.eqb_spec (Py.lower t) "bug") as [E|_]; [contradiction|].
    destruct (String.eqb_spec (Py.lower t) "epic") as [E|_]; [contradiction|].
    rewrite H1.
    destruct (String.eqb (Py.strip reasoning) ""); reflexivity.
Qed.

End ContentFacts.

(* ===================================================================== *)
(** ** The batch coordinator: [fetch_and_analyze_issues] *)
(* ===================================================================== *)

Module BatchFacts.

Import Enricher Trace RetryFacts EnrichFacts.

Section WithEnvironment.

Variable json_loads : string -> bool.
Variable config : gmap string pyval.
Variable schema_init : schema -> gmap string pyval -> option analysis.
Variable model_validate_json : schema -> string -> option analysis.
Variable kernel_invoke :
  string -> gmap string pyval -> nat -> gmap string pyval -> invoke_outcome.
Variable py_repr : pyval -> string.
Variable jira_wrapper_new : option py_exn.
Variable jira_search_parse : pyval -> pyval -> py_exn + list (gmap string pyval).
Variable debug_enabled : bool.
Variable format_issue : gmap string pyval -> gmap string pyval -> string.
Variable env_parent_id : option string.
Variable page_create : pyval -> string -> string -> pyval -> page_response.

#[local] Abbreviation add_ai_analysis_to_issue :=
  (Enricher.add_ai_analysis_to_issue json_loads config schema_init model_validate_json
     kernel_invoke py_repr).
#[local] Abbreviation run_enricher :=
  (Enricher.run_enricher json_loads config schema_init model_validate_json
     kernel_invoke py_repr).
#[local] Abbreviation gather :=
  (Enricher.gather json_loads config schema_init model_validate_json
     kernel_invoke py_repr).
#[local] Abbreviation save_local_files := (Enricher.save_local_files config).
#[local] Abbreviation create_page :=
  (Enricher.create_page py_repr format_issue env_parent_id page_create).
#[local] Abbreviation page_loop :=
  (Enricher.page_loop py_repr format_issue env_parent_id page_create).
#[local] Abbreviation create_confluence :=
  (Enricher.create_confluence config py_repr format_issue env_parent_id page_create).
#[local] Abbreviation confluence_not_enabled := (Enricher.confluence_not_enabled config).
#[local] Abbreviation enrich_and_persist :=
  (Enricher.enrich_and_persist json_loads config schema_init model_validate_json
     kernel_invoke py_repr debug_enabled format_issue env_parent_id page_create).
#[local] Abbreviation fetch_and_analyze_issues :=
  (Enricher.fetch_and_analyze_issues json_loads config schema_init model_validate_json
     kernel_invoke py_repr jira_wrapper_new jira_search_parse debug_enabled format_issue
     env_parent_id page_create).

(** The tail of an enrichment only logs. *)
Lemma finish_quiet result s1 :
  exists evs,
    st_trace (snd (finish config py_repr result s1)) = st_trace s1 ++ evs /\
    quiet evs = true.
Proof.
  unfold finish.
  unfold bind at 1. rewrite merge_fields_spec.
  unfold bind, get_issue, re_match_ticket, dict_get, subscript, set_field, log, emit,
    ret, raise, add_event, state_traced; simpl.
  destruct (merged (st_issue s1) result !! "ticket_number") as [[ |b0|z0|tn|l0|d0]|];
    simpl; try (exists []; rewrite app_nil_r; split; reflexivity);
    try destruct (Py.match_ip_ticket tn); simpl;
    destruct (config !! "jira_url") as [jira_url|]; simpl;
    try (exists []; rewrite app_nil_r; split; reflexivity);
    destruct (merged (st_issue s1) result !! "key") as [key|]; simpl;
    try (exists []; rewrite app_nil_r; split; reflexivity);
    eexists; split; reflexivity.
Qed.

(** One enrichment calls no persistence collaborator. *)
Lemma add_ai_quiet s :
  exists evs,
    st_trace (snd (add_ai_analysis_to_issue s)) = st_trace s ++ evs /\
    quiet evs = true.
Proof.
  destruct (dict_get (st_issue s) "issuetype" (VStr "")) as [ |b0|z0|t|l0|d0] eqn:Et;
    try (destruct (add_ai_bad_type json_loads config schema_init model_validate_json
                     kernel_invoke py_repr s) as (e & He & _);
         [intros t' Ht'; rewrite Et in Ht'; discriminate
         | rewrite He; exists []; rewrite app_nil_r; split; reflexivity]).
  rewrite (add_ai_spec _ _ _ _ _ _ s t Et).
  destruct (enrichment_call_spec json_loads config schema_init model_validate_json
              kernel_invoke s t) as (_ & evs & _ & Htr & Hq).
  destruct (enrichment_call _ _ _ _ _ s t) as [[[result|]|e|] s1]; simpl in Htr.
  - destruct (finish_quiet result s1) as (evs' & Htr' & Hq').
    exists ((ELog DEBUG "Issue snippet: %s" [] :: evs) ++ evs').
    rewrite Htr', Htr, quiet_app, Hq'. simpl. rewrite Hq, <- app_assoc.
    split; reflexivity.
  - exists ((ELog DEBUG "Issue snippet: %s" [] :: evs)
            ++ [ELog ERROR "No AI result for %s, skipping." []]).
    simpl. rewrite Htr, quiet_app, <- app_assoc. simpl. rewrite Hq. split; reflexivity.
  - exists (ELog DEBUG "Issue snippet: %s" [] :: evs). simpl. rewrite Htr, Hq.
    split; reflexivity.
  - exists (ELog DEBUG "Issue snippet: %s" [] :: evs). simpl. rewrite Htr, Hq.
    split; reflexivity.
Qed.

Lemma run_enricher_quiet issue tr :
  exists evs, snd (run_enricher issue tr) = tr ++ evs /\ quiet evs = true.
Proof.
  unfold Enricher.run_enricher.
  destruct (add_ai_quiet {| st_issue := issue; st_trace := tr |}) as (evs & Htr & Hq).
  destruct (add_ai_analysis_to_issue _) as [[b|e|] s]; simpl in *; eauto.
Qed.

(** What [gather] yields for one issue and what it yields for the batch. *)
Definition enriched_as (issue : gmap string pyval) (b : bool)
    (issue' : gmap string pyval) : Prop :=
  exists tr tr', run_enricher issue tr = (Ok (b, issue'), tr').

Lemma gather_cons issue rest tr :
  gather (issue :: rest) tr =
  match run_enricher issue tr with
  | (Ok r, tr1) =>
      match gather rest tr1 with
      | (Ok rs, tr2) => (Ok (fst r :: fst rs, snd r :: snd rs), tr2)
      | (Raise e, tr2) => (Raise e, tr2)
      | (OutOfFuel, tr2) => (OutOfFuel, tr2)
      end
  | (Raise e, tr1) => (Raise e, tr1)
  | (OutOfFuel, tr1) => (OutOfFuel, tr1)
  end.
Proof.
  simpl. unfold bind at 1. destruct (run_enricher issue tr) as [[r|e|] tr1];
    reflexivity.
Qed.

Lemma gather_spec parsed tr :
  exists evs,
    snd (gather parsed tr) = tr ++ evs /\ quiet evs = true /\
    forall results parsed',
      fst (gather parsed tr) = Ok (results, parsed') ->
      Forall3 enriched_as parsed results parsed'.
Proof.
  revert tr; induction parsed as [|issue rest IH]; intros tr.
  - exists []. simpl. rewrite app_nil_r. split; [reflexivity | split; [reflexivity|]].
    intros results parsed' H; inversion H; subst. constructor.
  - rewrite gather_cons.
    destruct (run_enricher_quiet issue tr) as (evs1 & Htr1 & Hq1).
    destruct (run_enricher issue tr) as [[[b issue']|e|] tr1] eqn:E1; simpl in Htr1;
      try (exists evs1; split; [assumption | split; [assumption | discriminate]]).
    destruct (IH tr1) as (evs2 & Htr2 & Hq2 & Hres).
    destruct (gather rest tr1) as [[[results parsed']|e|] tr2]; simpl in Htr2, Hres |- *;
      exists (evs1 ++ evs2); rewrite quiet_app, Hq1, Hq2, Htr2, Htr1, app_assoc;
      (split; [reflexivity | split; [reflexivity |]]); try discriminate.
    intros results0 parsed0 H; inversion H; subst. constructor.
    + exists tr, (tr ++ evs1). exact E1.
    + now apply Hres.
Qed.

(** Computations on the batch trace all of whose events satisfy [P]. *)
Definition only (P : event -> bool) {A} (c : M (list event) A) : Prop :=
  forall tr, exists evs, snd (c tr) = tr ++ evs /\ forallb P evs = true.

Lemma only_ret P {A} (a : A) : only P (ret a).
Proof. intros tr. exists []. simpl. now rewrite app_nil_r. Qed.

Lemma only_raise P {A} (e : py_exn) : only P (@raise _ A e).
Proof. intros tr. exists []. simpl. now rewrite app_nil_r. Qed.

Lemma only_emit P (ev : event) : P ev = true -> only P (emit ev).
Proof. intros H tr. exists [ev]. simpl. now rewrite H. Qed.

Lemma only_log P lv template args :
  P (ELog lv template args) = true -> only P (log lv template args).
Proof. apply only_emit. Qed.

Lemma only_bind P {A B} (c : M (list event) A) (k : A -> M (list event) B) :
  only P c -> (forall a, only P (k a)) -> only P (bind c k).
Proof.
  intros Hc Hk tr. unfold bind.
  destruct (Hc tr) as (evs1 & H1 & Hq1).
  destruct (c tr) as [[a|e|] tr1]; simpl in H1; eauto.
  destruct (Hk a tr1) as (evs2 & H2 & Hq2).
  exists (evs1 ++ evs2). rewrite H2, H1, forallb_app, Hq1, Hq2, app_assoc. auto.
Qed.

Lemma only_catch P {A} (body : M (list event) A) (h : py_exn -> M (list event) A) :
  only P body -> (forall e, only P (h e)) -> only P (catch body h).
Proof.
  intros Hc Hk tr. unfold catch.
  destruct (Hc tr) as (evs1 & H1 & Hq1).
  destruct (body tr) as [[a|e|] tr1]; simpl in H1; eauto.
  destruct (Hk e tr1) as (evs2 & H2 & Hq2).
  exists (evs1 ++ evs2). rewrite H2, H1, forallb_app, Hq1, Hq2, app_assoc. auto.
Qed.

Lemma only_weaken (P Q : event -> bool) {A} (c : M (list event) A) :
  (forall ev, P ev = true -> Q ev = true) -> only P c -> only Q c.
Proof.
  intros HPQ Hc tr. destruct (Hc tr) as (evs & H & Hq). exists evs. split; [exact H|].
  rewrite forallb_forall in Hq |- *. auto.
Qed.

Lemma only_run_enricher P issue :
  (forall ev, is_persistence ev = false -> P ev = true) -> only P (run_enricher issue).
Proof.
  intros HP tr. destruct (run_enricher_quiet issue tr) as (evs & H & Hq).
  exists evs. split; [exact H|]. unfold quiet in Hq.
  rewrite forallb_forall in Hq |- *. intros ev Hin. apply HP.
  specialize (Hq ev Hin). now destruct (is_persistence ev).
Qed.

(** Goals of the form [only P c] for the straight-line code of the
    coordinator. *)
Ltac only_step :=
  first
    [ apply only_ret | apply only_raise
    | apply only_log; reflexivity | apply only_emit; reflexivity
    | apply only_bind; [| intros ?] | apply only_catch; [| intros ?]
    | match goal with
      | |- only _ (if ?b then _ else _) => destruct b
      | |- only _ (match ?x with _ => _ end) => destruct x
      | |- only _ (let _ := _ in _) => cbv zeta
      end ].

Ltac only_solve := repeat only_step.

Lemma only_subscript P d k : only P (subscript d k).
Proof. unfold subscript. only_solve. Qed.

Lemma only_py_in P x v : only P (py_in x v).
Proof. unfold py_in. only_solve. Qed.

Lemma only_first_item P v : only P (first_item v).
Proof. unfold first_item. only_solve. Qed.

Lemma only_has_content P issue : only P (_has_meaningful_content issue).
Proof.
  unfold _has_meaningful_content, str_lower, str_strip.
  repeat first [only_step | match goal with
                            | |- only _ (match ?x with _ => _ end _) => destruct x
                            end].
Qed.

Definition no_page (ev : event) : bool :=
  match ev with EPageCreate _ => false | _ => true end.

Definition no_save (ev : event) : bool :=
  match ev with ESave _ _ => false | _ => true end.

Definition no_persistence (ev : event) : bool := negb (is_persistence ev).

Lemma only_save_local_files parsed : only no_page (save_local_files parsed).
Proof.
  unfold Enricher.save_local_files.
  repeat first [apply only_subscript | apply only_py_in | only_step].
Qed.

Lemma only_page_loop space parsed c : only no_save (page_loop space parsed c).
Proof.
  revert c; induction parsed as [|issue rest IH]; intros c; simpl; [apply only_ret|].
  apply only_bind; [|intros c'; apply IH].
  unfold Enricher.create_page.
  repeat first [apply only_subscript | apply only_first_item | apply only_has_content
               | only_step].
Qed.

Lemma only_create_confluence parsed result :
  only no_save (create_confluence parsed result).
Proof.
  unfold Enricher.create_confluence.
  repeat first [apply only_page_loop | only_step].
Qed.

Lemma only_confluence_not_enabled result :
  only no_persistence (confluence_not_enabled result).
Proof.
  unfold Enricher.confluence_not_enabled.
  repeat first [apply only_py_in | only_step].
Qed.

(** The formats asked for: [fmt in file_types_to_save]. *)
Definition wanted (fmt : string) : bool :=
  match dict_get config "file_types_to_save" (VList [VStr "json"]) with
  | VList l => existsb (is_str fmt) l
  | VStr s => Py.contains fmt s
  | VDict d => existsb (fun kv => String.eqb (fst kv) fmt) d
  | _ => false
  end.

(** The saves of the local-file block, in the order of the source. *)
Definition expected_saves (parsed : list (gmap string pyval))
  : list (string * list (gmap string pyval)) :=
  (if wanted "xlsx" then [("xlsx", parsed)] else [])
  ++ (if wanted "json" then [("json", parsed)] else [])
  ++ (if wanted "md" then [("md", parsed)] else []).

Lemma save_local_files_saves parsed tr tr' :
  save_local_files parsed tr = (Ok tt, tr') ->
  saves tr' = saves tr ++ expected_saves parsed.
Proof.
  unfold Enricher.save_local_files, expected_saves, wanted.
  set (warn1 := match dict_get config "file_path" VNone with
                | VNone => _ | _ => _ end).
  set (warn2 := match dict_get config "jira_issue_type" (VStr "Issue") with
                | VNone => _ | _ => _ end).
  assert (forall tr0, exists evs, warn1 tr0 = (Ok tt, tr0 ++ evs) /\ saves evs = []) as H1.
  { intros tr0. subst warn1. destruct (dict_get config "file_path" VNone);
      first [ exists []; rewrite app_nil_r; split; reflexivity
            | eexists; split; reflexivity ]. }
  assert (forall tr0, exists evs, warn2 tr0 = (Ok tt, tr0 ++ evs) /\ saves evs = []) as H2.
  { intros tr0. subst warn2.
    destruct (dict_get config "jira_issue_type" (VStr "Issue")) as [ |b0|z0|[|c0 s0]|l0|d0];
      first [ exists []; rewrite app_nil_r; split; reflexivity
            | eexists; split; reflexivity ]. }
  clearbody warn1 warn2.
  unfold bind at 1. destruct (H1 tr) as (evs1 & -> & Hs1).
  unfold bind at 1, subscript at 1.
  destruct (config !! "jql") as [jql|]; [|discriminate]. unfold ret at 1.
  unfold bind at 1, log at 1, emit at 1.
  unfold bind at 1.
  match goal with |- context [warn2 ?t] => destruct (H2 t) as (evs2 & -> & Hs2) end.
  unfold py_in, bind, ret, raise, log, emit, add_event, trace_traced.
  destruct (dict_get config "file_types_to_save" (VList [VStr "json"]))
    as [ |b0|z0|s0|l0|d0]; try discriminate;
    repeat match goal with
           | |- context [if ?b then _ else _] => destruct b
           end;
    intros [= <-]; rewrite ?saves_app, ?Hs1, ?Hs2; simpl;
    rewrite ?app_nil_r, <- ?app_assoc; reflexivity.
Qed.

Definition counts_log (results : list bool) (total : nat) : event :=
  ELog INFO "Successfully enriched {successful_enrichments} out of {len(parsed)} issues"
    [count_successful results; total].

(** A normal return of lines 438-746, taken apart: all issues were gathered,
    the counts were logged, and only then the persistence blocks ran. *)
Lemma enrich_and_persist_ok parsed tr0 result tr :
  enrich_and_persist parsed tr0 = (Ok result, tr) ->
  exists results parsed' evs_enrich evs_persist,
    gather parsed tr0 = (Ok (results, parsed'), tr0 ++ evs_enrich) /\
    quiet evs_enrich = true /\
    tr = tr0 ++ evs_enrich ++ counts_log results (length parsed) :: evs_persist /\
    saves evs_persist =
      (if truthy (dict_get config "create_local_files" (VBool true))
       then expected_saves parsed' else []).
Proof.
  unfold Enricher.enrich_and_persist.
  unfold bind at 1. destruct debug_enabled; [discriminate|]. unfold ret at 1.
  unfold bind at 1.
  destruct (gather_spec parsed tr0) as (evs_enrich & Htr1 & Hq1 & _).
  destruct (gather parsed tr0) as [[[results parsed']|e|] tr1]; try discriminate.
  simpl in Htr1. subst tr1. cbv beta iota. simpl fst. simpl snd.
  unfold bind at 1, log at 1, emit at 1. cbv beta iota.
  unfold bind at 1.
  set (tr2 := add_event _ (tr0 ++ evs_enrich)).
  assert (exists evs, (if count_successful results =? 0
                       then log ERROR "No issues were successfully enriched with AI content. Check Azure OpenAI connectivity." []
                       else ret tt) tr2 = (Ok tt, tr2 ++ evs) /\ saves evs = [])
    as (evs3 & -> & Hs3).
  { destruct (count_successful results =? 0);
      [eexists; split; reflexivity | exists []; rewrite app_nil_r; split; reflexivity]. }
  unfold bind at 1.
  assert (forall r4 tr4,
             (if truthy (dict_get config "create_local_files" (VBool true))
              then save_local_files parsed' else ret tt) (tr2 ++ evs3) = (r4, tr4) ->
             r4 = Ok tt ->
             exists evs, tr4 = (tr2 ++ evs3) ++ evs /\
                         saves evs = (if truthy (dict_get config "create_local_files"
                                                   (VBool true))
                                      then expected_saves parsed' else [])) as H4.
  { intros r4 tr4 H ->.
    destruct (truthy (dict_get config "create_local_files" (VBool true))).
    - destruct (only_save_local_files parsed' (tr2 ++ evs3)) as (evs & Hevs & _).
      rewrite H in Hevs. simpl in Hevs. exists evs. split; [exact Hevs|].
      apply save_local_files_saves in H. rewrite Hevs, saves_app in H.
      now apply app_inv_head in H.
    - injection H as <-. exists []. now rewrite app_nil_r. }
  destruct ((if truthy (dict_get config "create_local_files" (VBool true))
             then save_local_files parsed' else ret tt) (tr2 ++ evs3))
    as [[[]|e|] tr4] eqn:E4; try discriminate.
  destruct (H4 _ _ eq_refl eq_refl) as (evs4 & -> & Hs4). clear H4 E4.
  unfold bind at 1.
  set (confluence := if truthy (dict_get config "create_confluence_pages" (VBool false))
                     then create_confluence parsed' _ else confluence_not_enabled _).
  assert (only no_save confluence) as H5.
  { subst confluence.
    destruct (truthy (dict_get config "create_confluence_pages" (VBool false)));
      [apply only_create_confluence|].
    eapply only_weaken; [|apply only_confluence_not_enabled].
    intros []; simpl; auto; discriminate. }
  destruct (H5 ((tr2 ++ evs3) ++ evs4)) as (evs5 & Htr5 & Hs5).
  destruct (confluence ((tr2 ++ evs3) ++ evs4)) as [[r5|e|] tr5]; try discriminate.
  simpl in Htr5. subst tr5.
  unfold bind, log, emit, ret. intros [= <- <-].
  exists results, parsed', evs_enrich.
  exists (evs3 ++ evs4 ++ evs5
          ++ [ELog INFO "Processing completed successfully in {time} seconds for JQL: {jql}" []]).
  split; [reflexivity|]. split; [exact Hq1|]. split.
  - subst tr2. unfold add_event, trace_traced, counts_log. simpl.
    rewrite <- !app_assoc. reflexivity.
  - rewrite !saves_app, Hs3, Hs4. simpl.
    assert (saves evs5 = []) as ->.
    { clear -Hs5. induction evs5 as [|ev evs IH]; [reflexivity|]. simpl in Hs5.
      apply andb_prop in Hs5 as [H1 H2]. destruct ev; simpl; auto; discriminate. }
    now rewrite !app_nil_r.
Qed.

(** The two ways [fetch_and_analyze_issues] can go: it ends before any
    enrichment, having called no persistence collaborator and without a
    status result; or the search gave a non-empty list, and the rest is
    [enrich_and_persist] on that list. *)
Ltac early :=
  left; eexists; cbv beta iota zeta; cbn [fst snd]; rewrite <- ?app_assoc; cbn [app];
  split; [reflexivity | split; [reflexivity | eauto]].

Lemma fetch_shape tr0 :
  (exists evs,
     snd (fetch_and_analyze_issues tr0) = tr0 ++ evs /\ quiet evs = true /\
     (fst (fetch_and_analyze_issues tr0) = Ok None \/
      exists e, fst (fetch_and_analyze_issues tr0) = Raise e
                /\ e_class e = JiraFetchError)) \/
  (exists parsed pre jql max_results,
     parsed <> [] /\ jira_search_parse jql max_results = inr parsed /\
     quiet pre = true /\
     fetch_and_analyze_issues tr0 =
     match enrich_and_persist parsed (tr0 ++ pre) with
     | (Ok result, tr) => (Ok (Some result), tr)
     | (Raise e, tr) => (Raise e, tr)
     | (OutOfFuel, tr) => (OutOfFuel, tr)
     end).
Proof.
  unfold Enricher.fetch_and_analyze_issues, subscript, bind, catch, log, emit, ret,
    raise, add_event, trace_traced.
  cbv beta iota zeta.
  destruct (config !! "jira_username"); cbv beta iota zeta; [|early].
  destruct (config !! "jira_api_key"); cbv beta iota zeta; [|early].
  destruct (config !! "jira_url"); cbv beta iota zeta; [|early].
  destruct jira_wrapper_new; cbv beta iota zeta; [early|].
  destruct (config !! "jql") as [jql|]; cbv beta iota zeta; [|early].
  destruct (config !! "max_results") as [max_results|]; cbv beta iota zeta; [|early].
  destruct (jira_search_parse jql max_results) as [e|[|issue rest]] eqn:E;
    cbv beta iota zeta; [early | early |].
  destruct (forallb key_is_str (issue :: rest)); cbv beta iota zeta; [|early].
  right. exists (issue :: rest). eexists. exists jql, max_results.
  split; [discriminate|]. split; [exact E|].
  rewrite <- !app_assoc. simpl app. split; [|reflexivity]. reflexivity.
Qed.

(** Results of [False] do not cut the batch short: when no task raises,
    [gather] returns one result per issue. *)
Lemma gather_total parsed tr0 :
  (forall issue, In issue parsed ->
     forall tr, exists b issue' tr', run_enricher issue tr = (Ok (b, issue'), tr')) ->
  exists results parsed' tr',
    gather parsed tr0 = (Ok (results, parsed'), tr') /\
    length results = length parsed.
Proof.
  revert tr0; induction parsed as [|issue rest IH]; intros tr0 Hall.
  - exists [], [], tr0. split; reflexivity.
  - rewrite gather_cons.
    destruct (Hall issue (or_introl eq_refl) tr0) as (b & issue' & tr1 & ->).
    destruct (IH tr1) as (results & parsed' & tr' & -> & Hlen).
    { intros i Hi. apply Hall. now right. }
    exists (b :: results), (issue' :: parsed'), tr'. simpl. split; [reflexivity|].
    now rewrite Hlen.
Qed.

Lemma Forall3_length {A B C} (R : A -> B -> C -> Prop) l k m :
  Forall3 R l k m -> length k = length l /\ length m = length l.
Proof. induction 1; simpl; [auto|]. destruct IHForall3. split; congruence. Qed.

(** C7 (as amended).  When [fetch_and_analyze_issues] returns its status
    result, the search gave a non-empty list [parsed]; [gather] enriched
    every issue of it and returned one boolean per issue, in order;
    the counts logged are the number of [True] results and the number of
    fetched issues; up to that log record no persistence collaborator was
    called; and the file saves, all after it, are one save of the whole
    enriched list per format among xlsx, json and md that is asked for by
    [file_types_to_save], or none when [create_local_files] is off.
    Results of [False] never cut the batch short: whenever no task raises,
    [gather] returns a result for every issue. *)
Theorem batch_contract :
  (forall result tr,
     fetch_and_analyze_issues [] = (Ok (Some result), tr) ->
     exists parsed results parsed' pre evs_enrich evs_persist,
       parsed <> [] /\
       (exists jql max_results, jira_search_parse jql max_results = inr parsed) /\
       gather parsed pre = (Ok (results, parsed'), pre ++ evs_enrich) /\
       Forall3 enriched_as parsed results parsed' /\
       length results = length parsed /\ length parsed' = length parsed /\
       tr = pre ++ evs_enrich ++ counts_log results (length parsed) :: evs_persist /\
       persistence (pre ++ evs_enrich) = [] /\
       saves evs_persist =
         (if truthy (dict_get config "create_local_files" (VBool true))
          then expected_saves parsed' else [])) /\
  (forall parsed tr0,
     (forall issue, In issue parsed ->
        forall tr, exists b issue' tr', run_enricher issue tr = (Ok (b, issue'), tr')) ->
     exists results parsed' tr',
       gather parsed tr0 = (Ok (results, parsed'), tr') /\
       length results = length parsed).
Proof.
  split; [|apply gather_total].
  intros result tr H.
  destruct (fetch_shape []) as [(evs & _ & _ & [Hn | (e & He & _)]) | Hshape].
  - rewrite H in Hn. discriminate.
  - rewrite H in He. discriminate.
  - destruct Hshape as (parsed & pre & jql & max_results & Hne & Hsearch & Hq & Hrun).
    rewrite Hrun in H. simpl in H.
    destruct (enrich_and_persist parsed pre) as [[r|e|] tr'] eqn:E; try discriminate.
    injection H as -> ->.
    apply enrich_and_persist_ok in E
      as (results & parsed' & evs_enrich & evs_persist & Hg & Hq2 & Htr & Hs).
    exists parsed, results, parsed', pre, evs_enrich, evs_persist.
    destruct (gather_spec parsed pre) as (evs' & _ & _ & Hall).
    rewrite Hg in Hall. specialize (Hall _ _ eq_refl).
    destruct (Forall3_length _ _ _ _ Hall) as [Hl1 Hl2].
    repeat split; eauto.
    rewrite persistence_app, (quiet_persistence _ Hq), (quiet_persistence _ Hq2).
    reflexivity.
Qed.

(** C10.  When the search finds no issue, [fetch_and_analyze_issues] calls
    no persistence collaborator and gives no status result: it makes the
    bare return, modelled by [None] (or raises [JiraFetchError] when the
    configuration lacks a key the fetch needs or the wrapper cannot be
    built).  Conversely, a run that calls a persistence collaborator has
    fetched a non-empty list. *)
Theorem empty_fetch_persists_nothing :
  (forall tr0,
     (forall jql max_results, jira_search_parse jql max_results = inr []) ->
     persistence (snd (fetch_and_analyze_issues tr0)) = persistence tr0 /\
     (forall result, fst (fetch_and_analyze_issues tr0) <> Ok (Some result)) /\
     (is_Some (config !! "jira_username") -> is_Some (config !! "jira_api_key") ->
      is_Some (config !! "jira_url") -> is_Some (config !! "jql") ->
      is_Some (config !! "max_results") -> jira_wrapper_new = None ->
      fst (fetch_and_analyze_issues tr0) = Ok None)) /\
  (persistence (snd (fetch_and_analyze_issues [])) <> [] ->
   exists jql max_results parsed,
     jira_search_parse jql max_results = inr parsed /\ parsed <> []).
Proof.
  split.
  - intros tr0 Hempty.
    destruct (fetch_shape tr0) as [(evs & Htr & Hq & Hres) | Hshape].
    2:{ destruct Hshape as (parsed & pre & jql & max_results & Hne & Hsearch & _).
        rewrite Hempty in Hsearch. now injection Hsearch as <-. }
    split; [|split].
    + rewrite Htr, persistence_app, (quiet_persistence _ Hq). apply app_nil_r.
    + intros result Hr. destruct Hres as [Hn | (e & He & _)]; congruence.
    + intros [v1 H1] [v2 H2] [v3 H3] [v4 H4] [v5 H5] Hw.
      unfold Enricher.fetch_and_analyze_issues, subscript, bind, catch, log, emit, ret,
        raise, add_event, trace_traced.
      rewrite H1, H2, H3, H4, H5, Hw. cbv beta iota zeta.
      rewrite Hempty. reflexivity.
  - intros Hp.
    destruct (fetch_shape []) as [(evs & Htr & Hq & _) | Hshape].
    + exfalso. apply Hp. rewrite Htr. simpl. now apply quiet_persistence.
    + destruct Hshape as (parsed & pre & jql & max_results & Hne & Hsearch & _).
      eauto.
Qed.

End WithEnvironment.

End BatchFacts.

(* ===================================================================== *)
(** ** Concrete runs *)
(* ===================================================================== *)

Module Examples.

Import Enricher Trace RetryFacts EnrichFacts ContentFacts BatchFacts StringFacts.

(** A configuration with what the fetch and the enricher read. *)
Definition config : gmap string pyval :=
  list_to_map
    [("jira_url", VStr "https://jira.example.com");
     ("jira_username", VStr "bot");
     ("jira_api_key", VStr "secret");
     ("jql", VStr "project = ABC");
     ("max_results", VInt 50);
     ("azure_openai_gpt_deployment", VStr "gpt-4o")].

(** The same, asking for a JSON file and a Markdown file. *)
Definition config_two_formats : gmap string pyval :=
  <["file_types_to_save" := VList [VStr "json"; VStr "md"]]> config.

Definition schema_init (sch : schema) (issue_data : gmap string pyval)
  : option analysis := Some [].

Definition py_repr (v : pyval) : string := "?".

Definition field (name value : string) : string :=
  Py.quoted name +:+ ": " +:+ Py.quoted value.

(** A bug analysis as the model writes it, with a placeholder ticket
    number, and the typed analysis the schema class makes of it. *)
Definition bug_json : string :=
  "{" +:+ field "ticket_number" "IP-42" +:+ ", "
  +:+ field "executive_summary" "App crashes when saving" +:+ ", "
  +:+ field "technical_summary" "Null pointer in save handler" +:+ ", "
  +:+ field "cause" "Missing null check" +:+ ", "
  +:+ field "fix" "Added guard clause" +:+ "}".

Definition bug_analysis : analysis :=
  [("ticket_number", VStr "IP-42");
   ("executive_summary", VStr "App crashes when saving");
   ("technical_summary", VStr "Null pointer in save handler");
   ("cause", VStr "Missing null check");
   ("fix", VStr "Added guard clause")].

Definition model_validate_json (sch : schema) (json_content : string)
  : option analysis :=
  if String.eqb json_content bug_json then Some bug_analysis else None.

Definition fenced (body : string) : string :=
  "```json" +:+ String "010"%char body +:+ String "010"%char "```".

Definition issue_of (key : string) : gmap string pyval :=
  list_to_map
    [("key", VStr key); ("summary", VStr "Crash on save");
     ("description", VStr ""); ("issuetype", VStr "Bug")].

(** Four model services. *)
Definition timeout_exn : py_exn := exn_of TimeoutError "".

Definition parameter_exn : py_exn :=
  exn_of OtherException "Error code: 400 - unsupported_parameter: max_tokens".

Definition unauthorized_exn : py_exn :=
  {| e_class := OtherException; status_code := Some 401%Z;
     message := "Access denied due to invalid subscription key";
     llm_output := None |}.

(** Time-outs on attempts 1 and 2, a fenced answer on attempt 3. *)
Definition invoke_slow (issue_type : string) (issue_data : gmap string pyval)
    (attempt : nat) (additions : gmap string pyval) : invoke_outcome :=
  match attempt with
  | 0 | 1 => Raised timeout_exn
  | _ => Returned (Some (fenced bug_json))
  end.

(** A parameter rejection on attempt 1, the answer on attempt 2. *)
Definition invoke_rejected (issue_type : string) (issue_data : gmap string pyval)
    (attempt : nat) (additions : gmap string pyval) : invoke_outcome :=
  match attempt with
  | 0 => Raised parameter_exn
  | _ => Returned (Some bug_json)
  end.

(** A 401 on every call. *)
Definition invoke_unauthorized (issue_type : string) (issue_data : gmap string pyval)
    (attempt : nat) (additions : gmap string pyval) : invoke_outcome :=
  Raised unauthorized_exn.

(** An answer for the issues ABC-1 and ABC-3, prose for the others. *)
Definition invoke_some (issue_type : string) (issue_data : gmap string pyval)
    (attempt : nat) (additions : gmap string pyval) : invoke_outcome :=
  match issue_data !! "key" with
  | Some (VStr "ABC-1") | Some (VStr "ABC-3") => Returned (Some (fenced bug_json))
  | _ => Returned (Some "Sorry, I cannot help.")
  end.

Definition five_issues : list (gmap string pyval) :=
  issue_of <$> ["ABC-1"; "ABC-2"; "ABC-3"; "ABC-4"; "ABC-5"].

Definition start (key : string) : state :=
  {| st_issue := issue_of key; st_trace := [] |}.

Definition analyze (invoke : string -> gmap string pyval -> nat -> gmap string pyval
                             -> invoke_outcome) :=
  analyze_issue_with_ai Json.loads config schema_init model_validate_json invoke
    (issue_of "ABC-1") (VStr "Bug") (start "ABC-1").

Definition enrich (invoke : string -> gmap string pyval -> nat -> gmap string pyval
                            -> invoke_outcome) (key : string) :=
  add_ai_analysis_to_issue Json.loads config schema_init model_validate_json invoke
    py_repr (start key).

Definition format_issue (issue analysis_data : gmap string pyval) : string :=
  "<h1>Release notes</h1><p>This page was automatically generated.</p>".

Definition page_create (space : pyval) (title body : string) (parent : pyval)
  : page_response := PageResult true.

Definition fetch (cfg : gmap string pyval) (found : list (gmap string pyval)) :=
  fetch_and_analyze_issues Json.loads cfg schema_init model_validate_json invoke_some
    py_repr None (fun _ _ => inr found) false format_issue None page_create [].



#[local] Abbreviation env_analysis invoke :=
  (Json.loads, config, schema_init, model_validate_json, invoke).

(** *** The retry controller *)

(** After a parameter rejection on attempt 1, attempt 2 follows with no
    sleep before it: the delay before attempt 2 is not 2 seconds. *)
Lemma no_backoff_after_parameter_rejection :
  let tl := timeline (st_trace (snd (analyze invoke_rejected))) in
  attempts tl = [1; 2] /\ delays_after 1 tl = [] /\ delays_after 1 tl <> [2 ^ 1].
Proof. vm_compute. repeat split; discriminate. Qed.

(** Three time-outs: the third one is followed by a sleep of 8 seconds,
    after which nothing is attempted. *)
Example sleep_after_last_timeout :
  timeline (st_trace (snd (analyze (fun _ _ _ _ => Raised timeout_exn))))
  = [TAttempt 1; TSleep 2; TAttempt 2; TSleep 4; TAttempt 3; TSleep 8].
Proof. vm_compute. reflexivity. Qed.

Lemma retry_backoff_schedule_witness :
  let run := analyze invoke_slow in
  let tl := timeline (st_trace (snd run)) in
  (fst run = Ok (Some bug_analysis) /\ sleeps tl = [2; 4]) /\
  delays_after 1 tl = [2] /\ delays_after 2 tl = [4].
Proof.
  destruct (retry_backoff_schedule Json.loads config schema_init model_validate_json
              invoke_slow (issue_of "ABC-1") "Bug" (issue_of "ABC-1"))
    as (_ & _ & Hdelay & Hscenario).
  split; [|split].
  - apply (Hscenario [] timeout_exn timeout_exn (fenced bug_json) bug_analysis);
      try reflexivity.
    vm_compute. discriminate.
  - apply (Hdelay 1); [lia | vm_compute; auto].
  - apply (Hdelay 2); [lia | vm_compute; auto].
Defined.

Lemma unauthorized_is_fatal_witness :
  let run := analyze invoke_unauthorized in
  (exists e', fst run = Raise e' /\ e_class e' = HttpUnauthorizedError) /\
  attempts (timeline (st_trace (snd run))) = [1] /\
  sleeps (timeline (st_trace (snd run))) = [].
Proof.
  apply (unauthorized_is_fatal Json.loads config schema_init model_validate_json
           invoke_unauthorized (issue_of "ABC-1") "Bug" (issue_of "ABC-1") []
           unauthorized_exn); reflexivity.
Defined.

(** *** The response extractor *)

Lemma extract_none_without_json_witness :
  Extractor._extract_json_from_text Json.loads "Sorry, I cannot help." = "".
Proof.
  apply (ExtractorFacts.extract_none_without_json Json.loads).
  apply no_json_by_enumeration. vm_compute. reflexivity.
Defined.

(** A fenced block wins over the braces around it. *)
Example fenced_block_extracted :
  Extractor._extract_json_from_text Json.loads
    ("Here you go: {x} " +:+ fenced bug_json +:+ " Bye.") = bug_json.
Proof. vm_compute. reflexivity. Qed.

(** *** The issue enricher *)

(** The unauthorized failure of the model call leaves the enricher as an
    exception: no boolean is returned. *)
Lemma unauthorized_escapes_the_enricher :
  fst (enrich invoke_unauthorized "ABC-1") = Raise (exn_of HttpUnauthorizedError "") /\
  forall b, fst (enrich invoke_unauthorized "ABC-1") <> Ok b.
Proof. vm_compute. split; [reflexivity | discriminate]. Qed.

Lemma enrich_boolean_contract_witness :
  (exists evs,
     enrich invoke_some "ABC-2" =
     (Ok false,
      {| st_issue := <["ai_enriched" := VBool false]> (issue_of "ABC-2");
         st_trace := [] ++ evs ++ [ELog ERROR "No AI result for %s, skipping." []] |})) /\
  (exists s', enrich invoke_slow "ABC-1" = (Ok true, s')) /\
  (exists e s', enrich invoke_unauthorized "ABC-1" = (Raise e, s')
                /\ e_class e = HttpUnauthorizedError).
Proof.
  split; [|split].
  - pose proof (enrich_boolean_contract Json.loads config schema_init
                  model_validate_json invoke_some py_repr (start "ABC-2") "Bug" eq_refl)
      as H.
    assert (RetryFacts.verdict Json.loads config schema_init model_validate_json
              invoke_some (schema_cls (Py.lower "Bug")) (Py.lower "Bug")
              (make_snippet (st_issue (start "ABC-2")) (snippet_keys (Py.lower "Bug")))
              max_attempts 0 = KFall) as Hv by (vm_compute; reflexivity).
    rewrite Hv in H. exact H.
  - pose proof (enrich_boolean_contract Json.loads config schema_init
                  model_validate_json invoke_slow py_repr (start "ABC-1") "Bug" eq_refl)
      as H.
    assert (RetryFacts.verdict Json.loads config schema_init model_validate_json
              invoke_slow (schema_cls (Py.lower "Bug")) (Py.lower "Bug")
              (make_snippet (st_issue (start "ABC-1")) (snippet_keys (Py.lower "Bug")))
              max_attempts 0 = KReturn bug_analysis) as Hv by (vm_compute; reflexivity).
    rewrite Hv in H. apply H.
    + eexists. vm_compute. reflexivity.
    + eexists. vm_compute. reflexivity.
    + intros v Hv'. vm_compute in Hv'. injection Hv' as <-. eexists. reflexivity.
  - pose proof (enrich_boolean_contract Json.loads config schema_init
                  model_validate_json invoke_unauthorized py_repr (start "ABC-1") "Bug"
                  eq_refl) as H.
    assert (RetryFacts.verdict Json.loads config schema_init model_validate_json
              invoke_unauthorized (schema_cls (Py.lower "Bug")) (Py.lower "Bug")
              (make_snippet (st_issue (start "ABC-1")) (snippet_keys (Py.lower "Bug")))
              max_attempts 0 = KFatal) as Hv by (vm_compute; reflexivity).
    rewrite Hv in H. exact H.
Defined.

(** The example of the specification: the fenced bug analysis is merged. *)
Example enrichment_of_a_bug :
  let run := enrich invoke_slow "ABC-1" in
  fst run = Ok true /\
  st_issue (snd run) !! "ai_enriched" = Some (VBool true) /\
  st_issue (snd run) !! "fix" = Some (VStr "Added guard clause") /\
  st_issue (snd run) !! "summary" = Some (VStr "Crash on save") /\
  st_issue (snd run) !! "ticket_number" = Some (VStr "") /\
  st_issue (snd run) !! "browsable_url"
  = Some (VStr "https://jira.example.com/browse/ABC-1").
Proof. vm_compute. repeat split; reflexivity. Qed.

Lemma merge_is_additive_witness :
  (exists s1,
     merge_fields bug_analysis (start "ABC-1") = (Ok tt, s1) /\
     st_trace s1 = st_trace (start "ABC-1") /\
     (forall f v, In (f, v) bug_analysis -> st_issue s1 !! f = Some v) /\
     (forall k, ~ In k (map fst bug_analysis) ->
                st_issue s1 !! k = st_issue (start "ABC-1") !! k) /\
     (forall k, is_Some (st_issue (start "ABC-1") !! k) -> is_Some (st_issue s1 !! k))) /\
  (exists (t : string) result sc,
     dict_get (st_issue (start "ABC-1")) "issuetype" (VStr "") = VStr t /\
     enrichment_call Json.loads config schema_init model_validate_json invoke_slow
       (start "ABC-1") t = (Ok (Some result), sc) /\
     (forall k, k <> "ticket_number" -> k <> "browsable_url" -> k <> "ai_enriched" ->
                st_issue (snd (enrich invoke_slow "ABC-1")) !! k
                = merged (st_issue (start "ABC-1")) result !! k) /\
     (forall k, is_Some (st_issue (start "ABC-1") !! k) ->
                is_Some (st_issue (snd (enrich invoke_slow "ABC-1")) !! k))).
Proof.
  split.
  - apply (proj1 (merge_is_additive Json.loads config schema_init model_validate_json
                    invoke_slow py_repr) bug_analysis (start "ABC-1")).
    repeat constructor; simpl; intuition discriminate.
  - apply (proj2 (merge_is_additive Json.loads config schema_init model_validate_json
                    invoke_slow py_repr) (start "ABC-1")
             (snd (enrich invoke_slow "ABC-1"))).
    vm_compute. reflexivity.
Defined.

Lemma placeholder_ticket_cleared_witness :
  exists (t : string) result s1,
    dict_get (st_issue (start "ABC-1")) "issuetype" (VStr "") = VStr t /\
    enrichment_call Json.loads config schema_init model_validate_json invoke_slow
      (start "ABC-1") t = (Ok (Some result), s1) /\
    (forall tn, merged (st_issue (start "ABC-1")) result !! "ticket_number"
                = Some (VStr tn) ->
                Py.match_ip_ticket tn = true ->
                st_issue (snd (enrich invoke_slow "ABC-1")) !! "ticket_number"
                = Some (VStr "")) /\
    (forall tn, merged (st_issue (start "ABC-1")) result !! "ticket_number"
                = Some (VStr tn) ->
                Py.match_ip_ticket tn = false ->
                st_issue (snd (enrich invoke_slow "ABC-1")) !! "ticket_number"
                = Some (VStr tn)) /\
    (merged (st_issue (start "ABC-1")) result !! "ticket_number" = None ->
     st_issue (snd (enrich invoke_slow "ABC-1")) !! "ticket_number" = None).
Proof.
  apply (placeholder_ticket_cleared Json.loads config schema_init model_validate_json
           invoke_slow py_repr (start "ABC-1") (snd (enrich invoke_slow "ABC-1"))).
  vm_compute. reflexivity.
Defined.

(** The pattern is anchored at the start only. *)
Example ticket_pattern :
  Py.match_ip_ticket "IP-42" = true /\ Py.match_ip_ticket "IP-42 (old)" = true /\
  Py.match_ip_ticket "INC000000123456" = false /\ Py.match_ip_ticket "IP-" = false /\
  Py.match_ip_ticket "XIP-42" = false.
Proof. vm_compute. repeat split; reflexivity. Qed.

(** *** Meaningful content *)

Definition bug_without_fix : gmap string pyval :=
  list_to_map
    [("issuetype", VStr "Bug"); ("executive_summary", VStr "   ");
     ("technical_summary", VStr "Null pointer in save handler");
     ("cause", VStr "Missing null check"); ("fix", VStr "")].

(** A bug whose executive summary is blank and whose fix is empty has
    meaningful content. *)
Lemma bug_without_fix_is_meaningful :
  _has_meaningful_content bug_without_fix tt = (Ok true, tt) /\
  bug_without_fix !! "fix" = Some (VStr "") /\
  ContentFacts.nonblank "   " = false.
Proof. vm_compute. repeat split; reflexivity. Qed.

Definition epic_with_one_summary : gmap string pyval :=
  list_to_map
    [("issuetype", VStr "Epic"); ("executive_summary", VStr "Faster saving");
     ("technical_summary", VStr " ")].

Definition story_without_categories : gmap string pyval :=
  list_to_map
    [("issuetype", VStr "Story"); ("reasoning", VStr "Touches the save path");
     ("inferredCategories", VList [])].

Lemma meaningful_content_rule_witness :
  _has_meaningful_content bug_without_fix tt
  = (Ok (nonblank "Null pointer in save handler"
         && (nonblank "Missing null check" || nonblank "")), tt) /\
  _has_meaningful_content epic_with_one_summary tt
  = (Ok (nonblank " " || nonblank "Faster saving"), tt) /\
  _has_meaningful_content story_without_categories tt
  = (Ok (nonblank "Touches the save path" && truthy (VList [])), tt).
Proof.
  split; [|split].
  - apply (proj1 (meaningful_content_rule bug_without_fix tt "Bug" eq_refl));
      reflexivity.
  - apply (proj1 (proj2 (meaningful_content_rule epic_with_one_summary tt "Epic"
                           eq_refl))); reflexivity.
  - apply (proj2 (proj2 (meaningful_content_rule story_without_categories tt "Story"
                           eq_refl))); try reflexivity; vm_compute; discriminate.
Defined.

(** An epic with one summary counts; a story without categories does not. *)
Example other_variants :
  fst (_has_meaningful_content epic_with_one_summary tt) = Ok true /\
  fst (_has_meaningful_content story_without_categories tt) = Ok false.
Proof. vm_compute. split; reflexivity. Qed.

(** *** The batch coordinator *)

(** With two formats configured the enriched list is saved twice. *)
Lemma two_formats_two_saves :
  let trace := snd (fetch config_two_formats [issue_of "ABC-1"]) in
  map fst (saves trace) = ["json"; "md"] /\
  length (persistence trace) = 2 /\ length (persistence trace) <> 1.
Proof. vm_compute. repeat split; discriminate. Qed.

(** The counts of the log record written after the gathering. *)
Definition logged_counts (trace : list event) : list (nat * nat) :=
  omap (fun ev =>
          match ev with
          | ELog INFO template [successful; total] =>
              if String.eqb template
                   "Successfully enriched {successful_enrichments} out of {len(parsed)} issues"
              then Some (successful, total) else None
          | _ => None
          end) trace.

(** Five issues, two of which the model answers: counts 2 and 5, and with
    the default configuration one save of all five issues. *)
Example five_issues_two_enriched :
  let trace := snd (fetch config five_issues) in
  logged_counts trace = [(2, 5)] /\
  map fst (saves trace) = ["json"] /\
  map (fun s => length (snd s)) (saves trace) = [5].
Proof. vm_compute. repeat split; reflexivity. Qed.

Lemma batch_contract_witness :
  exists parsed results parsed' pre evs_enrich evs_persist,
    parsed <> [] /\
    (exists jql max_results : pyval,
       (fun _ _ : pyval => @inr py_exn _ five_issues) jql max_results = inr parsed) /\
    Enricher.gather Json.loads config schema_init model_validate_json invoke_some py_repr
      parsed pre = (Ok (results, parsed'), pre ++ evs_enrich) /\
    Forall3 (enriched_as Json.loads config schema_init model_validate_json invoke_some
               py_repr) parsed results parsed' /\
    length results = length parsed /\ length parsed' = length parsed /\
    snd (fetch config five_issues)
    = pre ++ evs_enrich ++ counts_log results (length parsed) :: evs_persist /\
    persistence (pre ++ evs_enrich) = [] /\
    saves evs_persist =
      (if truthy (dict_get config "create_local_files" (VBool true))
       then expected_saves config parsed' else []).
Proof.
  assert (exists result, fetch config five_issues
                         = (Ok (Some result), snd (fetch config five_issues)))
    as [result Hrun] by (eexists; vm_compute; reflexivity).
  exact (proj1 (batch_contract Json.loads config schema_init model_validate_json
                  invoke_some py_repr None (fun _ _ => inr five_issues) false
                  format_issue None page_create) result _ Hrun).
Defined.

Lemma empty_fetch_persists_nothing_witness :
  (persistence (snd (fetch config [])) = [] /\ fst (fetch config []) = Ok None) /\
  (exists (jql max_results : pyval) parsed,
     (fun _ _ : pyval => @inr py_exn _ five_issues) jql max_results = inr parsed
     /\ parsed <> []).
Proof.
  split.
  - destruct (proj1 (empty_fetch_persists_nothing Json.loads config schema_init
                       model_validate_json invoke_some py_repr None (fun _ _ => inr [])
                       false format_issue None page_create) [] (fun _ _ => eq_refl))
      as (Hp & _ & Hnone).
    split; [exact Hp|].
    apply Hnone; try reflexivity; eexists; vm_compute; reflexivity.
  - apply (proj2 (empty_fetch_persists_nothing Json.loads config schema_init
                    model_validate_json invoke_some py_repr None
                    (fun _ _ => inr five_issues) false format_issue None page_create)).
    vm_compute. discriminate.
Defined.

End Examples.

(* ===================================================================== *)
(** ** More on the response extractor *)
(* ===================================================================== *)

Module ExtractorProps.

Import StringFacts.

#[local] Arguments String.append !s1 s2 : simpl nomatch.

(** All characters of a string satisfy [p]. *)
Fixpoint all_chars (p : ascii -> bool) (s : string) : bool :=
  match s with
  | EmptyString => true
  | String c s' => p c && all_chars p s'
  end.

Definition not_backtick (c : ascii) : bool := negb (Ascii.eqb c "`"%char).

Lemma append_length (a b : string) :
  String.length (a +:+ b) = String.length a + String.length b.
Proof. induction a as [|c a IH]; simpl; [reflexivity | now rewrite IH]. Qed.

Lemma drop_app (a s : string) : Py.drop (String.length a) (a +:+ s) = s.
Proof. induction a as [|c a IH]; simpl; [now destruct s | exact IH]. Qed.

Lemma index_shift (a p s : string) :
  String.index (String.length a) p (a +:+ s)
  = option_map (fun m => String.length a + m) (String.index 0 p s).
Proof.
  induction a as [|c a IH]; simpl.
  - destruct (String.index 0 p s); reflexivity.
  - rewrite IH. destruct (String.index 0 p s); reflexivity.
Qed.

Lemma index_fence_first (pre rest : string) :
  all_chars not_backtick pre = true ->
  String.index 0 "```" (pre +:+ "```" +:+ rest) = Some (String.length pre).
Proof.
  induction pre as [|c pre IH]; intros Hp.
  - destruct rest; reflexivity.
  - simpl in Hp. apply andb_prop in Hp as [Hc Hpre].
    change (String c pre +:+ "```" +:+ rest) with (String c (pre +:+ "```" +:+ rest)).
    cbn [String.index String.prefix].
    destruct (Ascii.ascii_dec "`" c) as [<-|_]; [discriminate|].
    now rewrite IH.
Qed.

Lemma span_stops (p : ascii -> bool) (a : string) c r :
  p c = false -> Py.span p (a +:+ String c r) = Py.span p a.
Proof.
  intros Hc. induction a as [|x a IH]; simpl; [now rewrite Hc|].
  destruct (p x); [now rewrite IH | reflexivity].
Qed.

Lemma lstrip_drops_span (s : string) :
  Py.lstrip s = Py.drop (Py.span Py.isspace s) s.
Proof.
  induction s as [|c s IH]; simpl; [reflexivity|].
  destruct (Py.isspace c); [exact IH | reflexivity].
Qed.

Lemma substring_app_exact (a b r : string) :
  String.substring (String.length a) (String.length b) (a +:+ b +:+ r) = b.
Proof.
  induction a as [|c a IH]; simpl; [|exact IH].
  induction b as [|d b IHb]; simpl; [now destruct r | now rewrite IHb].
Qed.

Lemma drop_span_split (p : ascii -> bool) (s : string) :
  exists w, s = w +:+ Py.drop (Py.span p s) s /\ String.length w = Py.span p s /\
            all_chars p w = true.
Proof.
  induction s as [|c s (w & Hw & Hl & Ha)]; simpl.
  - exists "". auto.
  - destruct (p c) eqn:E.
    + exists (String c w). simpl. rewrite <- Hw, Hl, E, Ha. auto.
    + exists "". auto.
Qed.

Lemma all_chars_app p a b :
  all_chars p (a +:+ b) = all_chars p a && all_chars p b.
Proof.
  induction a as [|c a IH]; simpl; [reflexivity|]. rewrite IH. now rewrite andb_assoc.
Qed.

Lemma prefix_empty (s : string) : String.prefix "" s = true.
Proof. now destruct s. Qed.

Lemma prefix_json_backtick (body rest : string) :
  all_chars not_backtick body = true ->
  String.prefix "json" (body +:+ "```" +:+ rest) = String.prefix "json" body.
Proof.
  intros Hb.
  destruct body as [|c1 [|c2 [|c3 [|c4 b]]]];
    cbn [String.append String.prefix all_chars] in *;
    repeat match goal with
           | |- context [Ascii.ascii_dec ?x ?y] => destruct (Ascii.ascii_dec x y)
           end; subst; try reflexivity; try discriminate.
  now destruct b.
Qed.

Section WithJson.

Variable json_loads : string -> bool.

#[local] Abbreviation extract := (Extractor._extract_json_from_text json_loads).

(** X1.  What the extractor returns, when it returns anything, is accepted by
    [json.loads] and is a piece of the text. *)
Theorem extract_result_is_json_in_text (text : string) :
  extract text <> "" ->
  json_loads (extract text) = true /\ substring_of (extract text) text.
Proof.
  intros Hne. destruct (ExtractorFacts.extract_sound json_loads text) as [H|H];
    [contradiction | exact H].
Qed.

(** The fenced-block scan on a text with one block: prose without a
    backtick, a fence with or without the [json] tag, a body without a
    backtick, the closing fence. *)
Lemma findall_single_block (pre tag body post : string) :
  all_chars not_backtick pre = true ->
  all_chars not_backtick body = true ->
  (tag = "json" \/ (tag = "" /\ Py.startswith "json" body = false)) ->
  exists more,
    Py.findall_fenced_blocks (pre +:+ "```" +:+ tag +:+ body +:+ "```" +:+ post)
    = Py.lstrip body :: more.
Proof.
  intros Hpre Hbody Htag.
  set (text := pre +:+ "```" +:+ tag +:+ body +:+ "```" +:+ post).
  unfold Py.findall_fenced_blocks. cbn [Py.findall_fenced].
  unfold Py.find_from at 1. subst text. rewrite index_fence_first by assumption.
  set (text := pre +:+ "```" +:+ tag +:+ body +:+ "```" +:+ post).
  assert (Py.drop (String.length pre + 3) text = tag +:+ body +:+ "```" +:+ post) as Hd0.
  { subst text. replace (String.length pre + 3) with (String.length (pre +:+ "```"))
      by (rewrite append_length; reflexivity).
    rewrite <- (append_assoc pre "```"). apply drop_app. }
  rewrite Hd0.
  set (q1 := if Py.startswith "json" (tag +:+ body +:+ "```" +:+ post)
             then String.length pre + 3 + 4 else String.length pre + 3).
  assert (q1 = String.length (pre +:+ "```" +:+ tag)) as Hq1.
  { subst q1. rewrite !append_length. destruct Htag as [-> | [-> Hj]].
    - simpl. unfold Py.startswith. rewrite prefix_empty. lia.
    - change ("" +:+ body +:+ "```" +:+ post) with (body +:+ "```" +:+ post).
      unfold Py.startswith in *.
      rewrite prefix_json_backtick, Hj by assumption. simpl. lia. }
  assert (Py.drop q1 text = body +:+ "```" +:+ post) as Hd1.
  { rewrite Hq1. subst text.
    replace (pre +:+ "```" +:+ tag +:+ body +:+ "```" +:+ post)
      with ((pre +:+ "```" +:+ tag) +:+ body +:+ "```" +:+ post)
      by (now rewrite !append_assoc).
    apply drop_app. }
  rewrite Hd1.
  assert (Py.span Py.isspace (body +:+ "```" +:+ post) = Py.span Py.isspace body) as ->
    by (apply (span_stops Py.isspace body "`" ("``" +:+ post)); reflexivity).
  destruct (drop_span_split Py.isspace body) as (w & Hw & Hlw & _).
  set (body' := Py.drop (Py.span Py.isspace body) body) in *.
  assert (all_chars not_backtick body' = true) as Hb'.
  { rewrite Hw, all_chars_app in Hbody. now apply andb_prop in Hbody as [_ ?]. }
  assert (pre +:+ "```" +:+ tag +:+ body +:+ "```" +:+ post
          = (pre +:+ "```" +:+ tag +:+ w) +:+ body' +:+ "```" +:+ post) as Htext.
  { rewrite Hw at 1. now rewrite !append_assoc. }
  assert (q1 + Py.span Py.isspace body = String.length (pre +:+ "```" +:+ tag +:+ w)) as Hq.
  { rewrite Hq1, <- Hlw, !append_length. lia. }
  rewrite Hq. unfold Py.find_from. clear Hd0 Hd1. subst text.
  rewrite Htext. rewrite index_shift, index_fence_first by assumption.
  cbn [option_map]. eexists. f_equal.
  unfold Py.slice.
  replace (String.length (pre +:+ "```" +:+ tag +:+ w) + String.length body'
           - String.length (pre +:+ "```" +:+ tag +:+ w)) with (String.length body') by lia.
  rewrite substring_app_exact. subst body'. symmetry. apply lstrip_drops_span.
Qed.

(** X2.  A text with a single fenced block, tagged [json] or not, whose stripped
    body parses: the extractor returns exactly that stripped body, whatever
    the prose before and after the block (which may hold braces). *)
Theorem single_fenced_block_extracted (pre tag body post : string) :
  all_chars not_backtick pre = true ->
  all_chars not_backtick body = true ->
  (tag = "json" \/ (tag = "" /\ Py.startswith "json" body = false)) ->
  json_loads (Py.strip body) = true ->
  extract (pre +:+ "```" +:+ tag +:+ body +:+ "```" +:+ post) = Py.strip body.
Proof.
  intros Hpre Hbody Htag Hjson.
  destruct (findall_single_block pre tag body post Hpre Hbody Htag) as [more Hfind].
  unfold Extractor._extract_json_from_text. rewrite Hfind. simpl.
  assert (Py.strip (Py.lstrip body) = Py.strip body) as ->.
  { unfold Py.strip. f_equal. clear. induction body as [|c s IH]; simpl; [reflexivity|].
    destruct (Py.isspace c) eqn:E; [exact IH|]. simpl. now rewrite E. }
  now rewrite Hjson.
Qed.

(** The brace walk: a returned candidate is the slice from [start_idx] to a
    position that the walk has reached. *)
Lemma brace_walk_reaches text start_idx n i bc ins esc r :
  Extractor.brace_walk json_loads text start_idx n i bc ins esc = Some r ->
  exists j, i <= j /\ r = Py.slice start_idx (j + 1) text.
Proof.
  revert i bc ins esc; induction n as [|n IH]; intros i bc ins esc; simpl;
    [discriminate|].
  assert (forall bc ins esc,
             Extractor.brace_walk json_loads text start_idx n (S i) bc ins esc = Some r ->
             exists j, i <= j /\ r = Py.slice start_idx (j + 1) text) as Hnext.
  { intros ? ? ? H. apply IH in H as (j & Hj & ->). exists j. split; [lia | reflexivity]. }
  destruct (String.get i text) as [char|]; [|discriminate].
  repeat match goal with
         | |- context [if ?b then _ else _] =>
             lazymatch b with
             | json_loads _ => fail
             | _ => destruct b
             end
         end;
    try (apply Hnext);
    (destruct (json_loads (Py.slice start_idx (i + 1) text)) eqn:E;
     [intros [= <-]; exists i; split; [lia | reflexivity] | apply Hnext]).
Qed.

Lemma substring_drop (a n : nat) (s : string) :
  String.substring a n s = String.substring 0 n (Py.drop a s).
Proof.
  revert s; induction a as [|a IH]; intros s; [reflexivity|].
  destruct s as [|c s]; simpl; [now destruct n | apply IH].
Qed.

Lemma substring_prefix (n : nat) (s : string) :
  String.prefix (String.substring 0 n s) s = true.
Proof.
  revert s; induction n as [|n IH]; intros [|c s]; simpl; try reflexivity.
  destruct (Ascii.ascii_dec c c); [apply IH | congruence].
Qed.

(** X3.  A result of the brace strategy always begins at the first opening brace
    of the text: it is a prefix of the text from that brace on.  An object
    that begins later in the text is never what the strategy returns. *)
Theorem brace_candidate_starts_at_first_brace (text r : string) :
  Extractor.by_braces json_loads text = Some r ->
  exists start_idx,
    Py.find_from 0 "{" text = Some start_idx /\
    Py.startswith r (Py.drop start_idx text) = true /\
    Py.startswith "{" r = true.
Proof.
  unfold Extractor.by_braces.
  destruct (Py.find_from 0 "{" text) as [start_idx|] eqn:Hfind; [|discriminate].
  intros H. apply brace_walk_reaches in H as (j & Hj & ->).
  exists start_idx. split; [reflexivity|]. unfold Py.startswith, Py.slice.
  rewrite substring_drop. split; [apply substring_prefix|].
  unfold Py.find_from in Hfind. apply String.index_correct1 in Hfind.
  rewrite substring_drop in Hfind.
  replace (j + 1 - start_idx) with (S (j - start_idx)) by lia.
  destruct (Py.drop start_idx text) as [|c d]; [discriminate|].
  cbn [String.substring] in *. injection Hfind as -> _.
  cbn [String.prefix]. destruct (Ascii.ascii_dec "{" "{"); [apply prefix_empty | congruence].
Qed.

End WithJson.

End ExtractorProps.

(* ===================================================================== *)
(** ** More on the retry controller *)
(* ===================================================================== *)

Module RetryProps.

Import Enricher Trace RetryFacts.

Section WithEnvironment.

Variable json_loads : string -> bool.
Variable config : gmap string pyval.
Variable schema_init : schema -> gmap string pyval -> option analysis.
Variable model_validate_json : schema -> string -> option analysis.
Variable kernel_invoke :
  string -> gmap string pyval -> nat -> gmap string pyval -> invoke_outcome.

#[local] Abbreviation analyze_issue_with_ai :=
  (Enricher.analyze_issue_with_ai json_loads config schema_init model_validate_json
     kernel_invoke).
#[local] Abbreviation kind_of :=
  (RetryFacts.kind_of json_loads config schema_init model_validate_json kernel_invoke).
#[local] Abbreviation call := (RetryFacts.call config kernel_invoke).
#[local] Abbreviation analyze_spec :=
  (RetryFacts.analyze_spec json_loads config schema_init model_validate_json
     kernel_invoke).

(** A pass whose answer yields no analysis: nothing can be extracted from
    the text, or the schema class rejects what was extracted. *)
Lemma kind_of_unusable sch issue_type issue_data attempt m result_str :
  schema_init sch issue_data = Some m ->
  call issue_type issue_data attempt = Returned (Some result_str) ->
  Extractor._extract_json_from_text json_loads result_str = "" \/
  model_validate_json sch (Extractor._extract_json_from_text json_loads result_str)
  = None ->
  kind_of sch issue_type issue_data attempt = KFall.
Proof.
  intros Hm Hc Hbad. unfold RetryFacts.kind_of. rewrite Hm.
  unfold RetryFacts.call in Hc |- *. rewrite Hc. simpl.
  destruct Hbad as [-> | Hv]; [reflexivity|].
  destruct (String.eqb _ ""); [reflexivity | now rewrite Hv].
Qed.

(** X4.  On a string issue type [analyze_issue_with_ai] always comes back: with
    an analysis, with [None], or with an [HttpUnauthorizedError] and no
    other exception.  It leaves the issue dictionary as it was and calls no
    persistence collaborator. *)
Theorem analysis_is_contained issue_data (t : string) (s : state) :
  let run := analyze_issue_with_ai issue_data (VStr t) s in
  ((exists r, fst run = Ok r) \/
   (exists e, fst run = Raise e /\ e_class e = HttpUnauthorizedError)) /\
  st_issue (snd run) = st_issue s /\
  persistence (st_trace (snd run)) = persistence (st_trace s).
Proof.
  intros run. destruct (analyze_spec issue_data t s) as (Hres & evs & [Hi Ht] & _ & Hq).
  fold run in Hres, Hi, Ht. split; [|split; [exact Hi|]].
  - destruct (verdict _ _ _ _ _ _ _ _ _); simpl in Hres; eauto.
  - rewrite Ht, persistence_app, (quiet_persistence _ Hq). apply app_nil_r.
Qed.

(** X5.  When every answer of the model is unusable (no JSON can be extracted
    from it, or the schema class rejects it), the three attempts are used up
    with sleeps of 2 and 4 seconds between them, no sleep follows the third,
    and the result is [None]. *)
Theorem unusable_answers_exhaust_the_attempts issue_data (t : string) (s : state) m :
  let sch := schema_cls (Py.lower t) in
  let run := analyze_issue_with_ai issue_data (VStr t) s in
  schema_init sch issue_data = Some m ->
  (forall attempt, attempt < max_attempts ->
     exists result_str,
       call (Py.lower t) issue_data attempt = Returned (Some result_str) /\
       (Extractor._extract_json_from_text json_loads result_str = "" \/
        model_validate_json sch
          (Extractor._extract_json_from_text json_loads result_str) = None)) ->
  fst run = Ok None /\
  exists evs,
    st_trace (snd run) = st_trace s ++ evs /\
    timeline evs = [TAttempt 1; TSleep 2; TAttempt 2; TSleep 4; TAttempt 3].
Proof.
  intros sch run Hm Hall.
  assert (forall attempt, attempt < max_attempts ->
                          kind_of sch (Py.lower t) issue_data attempt = KFall) as K.
  { intros attempt Ha. destruct (Hall attempt Ha) as (result_str & Hc & Hbad).
    eapply kind_of_unusable; eassumption. }
  destruct (analyze_spec issue_data t s) as (Hres & evs & [_ Ht] & Htl & _).
  fold run in Hres, Ht. fold sch in Hres, Htl.
  simpl in Hres, Htl.
  rewrite (K 0), (K 1), (K 2) in Hres, Htl by (unfold max_attempts; lia).
  simpl in Hres, Htl. split; [exact Hres|]. exists evs. split; assumption.
Qed.

(** X6.  When the model call times out on all three attempts, the result is
    [None] and each time-out is followed by its sleep: 2, 4 and, after the
    last attempt, 8 seconds. *)
Theorem three_timeouts_sleep_three_times issue_data (t : string) (s : state) m :
  let sch := schema_cls (Py.lower t) in
  let run := analyze_issue_with_ai issue_data (VStr t) s in
  schema_init sch issue_data = Some m ->
  (forall attempt, attempt < max_attempts ->
     exists e, call (Py.lower t) issue_data attempt = Raised e /\
               e_class e = TimeoutError) ->
  fst run = Ok None /\
  exists evs,
    st_trace (snd run) = st_trace s ++ evs /\
    timeline evs
    = [TAttempt 1; TSleep 2; TAttempt 2; TSleep 4; TAttempt 3; TSleep 8].
Proof.
  intros sch run Hm Hall.
  assert (forall attempt, attempt < max_attempts ->
                          kind_of sch (Py.lower t) issue_data attempt = KTimeout) as K.
  { intros attempt Ha. destruct (Hall attempt Ha) as (e & Hc & He).
    eapply kind_of_timeout; eassumption. }
  destruct (analyze_spec issue_data t s) as (Hres & evs & [_ Ht] & Htl & _).
  fold run in Hres, Ht. fold sch in Hres, Htl.
  simpl in Hres, Htl.
  rewrite (K 0), (K 1), (K 2) in Hres, Htl by (unfold max_attempts; lia).
  simpl in Hres, Htl. split; [exact Hres|]. exists evs. split; assumption.
Qed.

(** X7.  Whatever the model service answers, one analysis sleeps 14 seconds in
    all at most, in sleeps of 2, 4 or 8 seconds. *)
Theorem total_backoff_is_bounded issue_data (t : string) (s : state) :
  let run := analyze_issue_with_ai issue_data (VStr t) s in
  exists evs,
    st_trace (snd run) = st_trace s ++ evs /\
    list_sum (sleeps (timeline evs)) <= 14 /\
    Forall (fun d => d = 2 \/ d = 4 \/ d = 8) (sleeps (timeline evs)).
Proof.
  intros run. destruct (analyze_spec issue_data t s) as (_ & evs & [_ Ht] & Htl & _).
  fold run in Ht. exists evs. split; [exact Ht|]. rewrite Htl. simpl.
  repeat match goal with
         | |- context [RetryFacts.kind_of ?a ?b ?c ?d ?e ?f ?g ?h ?i] =>
             destruct (RetryFacts.kind_of a b c d e f g h i); simpl
         end;
    (split; [lia | repeat (constructor; [lia|]); constructor]).
Qed.

End WithEnvironment.

End RetryProps.

(* ===================================================================== *)
(** ** More on the issue enricher *)
(* ===================================================================== *)

Module EnrichProps.

Import Enricher.

Lemma comprehension_lookup (f : string -> pyval) (keys : list string) (k : string) :
  (list_to_map ((fun k => (k, f k)) <$> keys) : gmap string pyval) !! k
  = if bool_decide (k ∈ keys) then Some (f k) else None.
Proof.
  induction keys as [|key rest IH]; [reflexivity|].
  cbn [fmap list_fmap list_to_map foldr]. simpl.
  destruct (decide (k = key)) as [->|Hne].
  - rewrite lookup_insert_eq. rewrite bool_decide_eq_true_2; [reflexivity|].
    apply list_elem_of_here.
  - rewrite lookup_insert_ne by congruence. rewrite IH.
    destruct (bool_decide (k ∈ rest)) eqn:E.
    + apply bool_decide_eq_true_1 in E. rewrite bool_decide_eq_true_2; [reflexivity|].
      now apply list_elem_of_further.
    + apply bool_decide_eq_false_1 in E. rewrite bool_decide_eq_false_2; [reflexivity|].
      intros Hin. apply elem_of_cons in Hin as [?|?]; [congruence | contradiction].
Qed.

(** X8.  The snippet that is sent to the model holds the listed fields and no
    other: key, summary, description, priority, components, comments and
    image URLs, with children and parent for an epic only.  A listed field
    that the issue lacks is sent as [None]; what else the issue holds
    (reporter, assignee, status, ...) is not sent. *)
Theorem snippet_holds_the_listed_fields_only (issue : gmap string pyval)
    (issuetype k : string) :
  make_snippet issue (snippet_keys issuetype) !! k
  = if bool_decide
         (k ∈ ["key"; "summary"; "description"; "priority"; "components"; "comments";
               "imgURLs"]
          \/ issuetype = "epic" /\ k ∈ ["children"; "parent"])
    then Some (dict_get issue k VNone)
    else None.
Proof.
  unfold make_snippet. rewrite comprehension_lookup.
  apply (f_equal (fun b : bool => if b then _ else _)).
  apply bool_decide_ext. unfold snippet_keys.
  rewrite elem_of_app.
  destruct (String.eqb_spec issuetype "epic") as [->|Hne].
  - tauto.
  - split; [intros [H|H]; [now left | inversion H]|].
    intros [H | [H _]]; [now left | contradiction].
Qed.

(** X9.  The placeholder pattern is a test on the start of the ticket number:
    it matches the strings that begin with IP-, then a digit, whatever
    follows, and no other string. *)
Theorem ticket_pattern_is_a_prefix_test (s : string) :
  Py.match_ip_ticket s = true <->
  exists d rest, Py.isdigit d = true /\ s = "IP-" +:+ String d rest.
Proof.
  unfold Py.match_ip_ticket, Py.startswith. split.
  - intros H. apply andb_prop in H as [Hp Hd].
    destruct s as [|c1 [|c2 [|c3 r]]]; cbn [String.prefix] in Hp; try discriminate;
      repeat match type of Hp with
             | context [Ascii.ascii_dec ?x ?y] => destruct (Ascii.ascii_dec x y)
             end; try discriminate.
    subst. cbn [Py.drop] in Hd.
    destruct r as [|d rest]; [discriminate|]. cbn [Py.span] in Hd.
    destruct (Py.isdigit d) eqn:E; [|discriminate].
    exists d, rest. split; [exact E | reflexivity].
  - intros (d & rest & Hd & ->).
    change ("IP-" +:+ String d rest)
      with (String "I" (String "P" (String "-" (String d rest)))).
    cbn [String.prefix Py.drop Py.span]. rewrite Hd.
    repeat match goal with
           | |- context [Ascii.ascii_dec ?x ?y] =>
               destruct (Ascii.ascii_dec x y); [|congruence]
           end.
    now destruct (String d rest).
Qed.

End EnrichProps.

(* ===================================================================== *)
(** ** More on the batch coordinator *)
(* ===================================================================== *)

Module BatchProps.

Import Enricher Trace RetryFacts EnrichFacts BatchFacts.

(** The titles of the Confluence pages a trace asks for. *)
Definition pages (trace : list event) : list string :=
  omap (fun ev => match ev with EPageCreate title => Some title | _ => None end) trace.

Definition is_log (ev : event) : bool :=
  match ev with ELog _ _ _ => true | _ => false end.

(** The issues of the page loop that pass both tests before the inner
    [try]: [ai_enriched] is truthy and [_has_meaningful_content] returns
    [True]. *)
Definition page_candidate (issue : gmap string pyval) : bool :=
  truthy (dict_get issue "ai_enriched" (VBool false))
  && match _has_meaningful_content (S := unit) issue tt with
     | (Ok true, _) => true
     | _ => false
     end.

Lemma pages_app (a b : list event) : pages (a ++ b) = pages a ++ pages b.
Proof. apply omap_app. Qed.

Lemma no_page_pages (evs : list event) : forallb no_page evs = true -> pages evs = [].
Proof.
  induction evs as [|ev evs IH]; simpl; [reflexivity|].
  intros H. apply andb_prop in H as [H1 H2]. destruct ev; simpl; auto; discriminate.
Qed.

(** The content check reads the issue only: its result does not depend on
    the state it runs in, and it leaves the state alone. *)
Lemma has_content_pure {S} (issue : gmap string pyval) (s : S) :
  _has_meaningful_content issue s
  = (fst (_has_meaningful_content (S := unit) issue tt), s).
Proof.
  unfold _has_meaningful_content, str_lower, str_strip, bind, ret, raise.
  repeat match goal with
         | |- context [match ?x with _ => _ end] =>
             lazymatch x with
             | context [match _ with _ => _ end] => fail
             | _ => destruct x eqn:?; simpl
             end
         end; try reflexivity.
Qed.

(** Computations that ask for [n] pages at most. *)
Definition bounded (n : nat) {A} (c : M (list event) A) : Prop :=
  forall tr, exists evs, snd (c tr) = tr ++ evs /\ length (pages evs) <= n.

Lemma bounded_only {A} (c : M (list event) A) : only no_page c -> bounded 0 c.
Proof.
  intros Hc tr. destruct (Hc tr) as (evs & H & Hq). exists evs. split; [exact H|].
  now rewrite (no_page_pages _ Hq).
Qed.

Lemma bounded_weaken n m {A} (c : M (list event) A) :
  n <= m -> bounded n c -> bounded m c.
Proof. intros Hnm Hc tr. destruct (Hc tr) as (evs & H & Hl). exists evs. split; [exact H | lia]. Qed.

Lemma bounded_bind n m {A B} (c : M (list event) A) (k : A -> M (list event) B) :
  bounded n c -> (forall a, bounded m (k a)) -> bounded (n + m) (bind c k).
Proof.
  intros Hc Hk tr. unfold bind.
  destruct (Hc tr) as (evs1 & H1 & Hl1).
  destruct (c tr) as [[a|e|] tr1]; simpl in H1;
    try (exists evs1; split; [exact H1 | lia]).
  destruct (Hk a tr1) as (evs2 & H2 & Hl2).
  exists (evs1 ++ evs2). rewrite H2, H1, pages_app, length_app, app_assoc.
  split; [reflexivity | lia].
Qed.

Lemma bounded_catch n m {A} (body : M (list event) A) (h : py_exn -> M (list event) A) :
  bounded n body -> (forall e, bounded m (h e)) -> bounded (n + m) (catch body h).
Proof.
  intros Hc Hk tr. unfold catch.
  destruct (Hc tr) as (evs1 & H1 & Hl1).
  destruct (body tr) as [[a|e|] tr1]; simpl in H1;
    try (exists evs1; split; [exact H1 | lia]).
  destruct (Hk e tr1) as (evs2 & H2 & Hl2).
  exists (evs1 ++ evs2). rewrite H2, H1, pages_app, length_app, app_assoc.
  split; [reflexivity | lia].
Qed.

Ltac quiet_step :=
  first
    [ apply only_subscript | apply only_first_item | apply only_has_content
    | apply only_py_in
    | apply only_ret | apply only_raise
    | apply only_log; reflexivity | apply only_emit; reflexivity
    | apply only_bind; [| intros ?] | apply only_catch; [| intros ?]
    | match goal with
      | |- only _ (if ?b then _ else _) => destruct b
      | |- only _ (match ?x with _ => _ end) => destruct x
      | |- only _ (let _ := _ in _) => cbv zeta
      end ].

Section WithEnvironment.

Variable py_repr : pyval -> string.
Variable format_issue : gmap string pyval -> gmap string pyval -> string.
Variable env_parent_id : option string.
Variable page_create : pyval -> string -> string -> pyval -> page_response.

#[local] Abbreviation create_page :=
  (Enricher.create_page py_repr format_issue env_parent_id page_create).
#[local] Abbreviation page_loop :=
  (Enricher.page_loop py_repr format_issue env_parent_id page_create).

(** The inner [try] of the page loop calls [page_create] once at most. *)
Lemma create_page_bounded space issue c : bounded 1 (create_page space issue c).
Proof.
  unfold Enricher.create_page. cbv zeta.
  destruct (_ || _);
    [apply (bounded_weaken 0 1); [lia|]; apply bounded_only; repeat quiet_step|].
  apply (bounded_bind 0 1); [apply bounded_only; repeat quiet_step | intros fix_version].
  apply (bounded_bind 0 1); [apply bounded_only; repeat quiet_step | intros key].
  apply (bounded_bind 0 1); [apply bounded_only; repeat quiet_step | intros _].
  apply (bounded_bind 0 1); [apply bounded_only; repeat quiet_step | intros _].
  apply (bounded_bind 0 1); [apply bounded_only; repeat quiet_step | intros _].
  apply (bounded_bind 1 0); [| intros _; apply bounded_only; repeat quiet_step].
  intros tr. eexists. split; [reflexivity | simpl; lia].
Qed.

(** X10.  The page loop asks for a page only for an issue with a truthy
    [ai_enriched] entry whose content check returns [True], and for each of
    these once at most: the pages asked for are no more than these issues. *)
Theorem pages_only_for_enriched_issues space parsed c tr :
  exists evs,
    snd (page_loop space parsed c tr) = tr ++ evs /\
    length (pages evs) <= length (List.filter page_candidate parsed).
Proof.
  revert c tr. induction parsed as [|issue rest IH]; intros c tr.
  - exists []. simpl. now rewrite app_nil_r.
  - cbn [Enricher.page_loop List.filter].
    assert (length (List.filter page_candidate (issue :: rest))
            = (if page_candidate issue then 1 else 0)
              + length (List.filter page_candidate rest)) as Hlen
      by (simpl; destruct (page_candidate issue); reflexivity).
    cbn [List.filter] in Hlen. rewrite Hlen.
    apply (bounded_bind (if page_candidate issue then 1 else 0)
             (length (List.filter page_candidate rest)));
      [| intros c' tr'; apply IH].
    unfold page_candidate.
    destruct (truthy (dict_get issue "ai_enriched" (VBool false)));
      [| apply bounded_only; apply only_ret].
    cbn [andb]. intros tr0. unfold bind at 1. rewrite has_content_pure.
    destruct (_has_meaningful_content (S := unit) issue tt) as [[[|]|e|] []];
      cbn [fst].
    + apply (bounded_catch 1 0); [apply create_page_bounded|].
      intros e. apply bounded_only. repeat quiet_step.
    + apply bounded_only. repeat quiet_step.
    + exists []. rewrite app_nil_r. split; [reflexivity | simpl; lia].
    + exists []. rewrite app_nil_r. split; [reflexivity | simpl; lia].
Qed.

End WithEnvironment.

(** Computations that raise no exception of a class rejected by [C]. *)
Definition raises_only (C : exn_class -> bool) {A} (c : M (list event) A) : Prop :=
  forall tr e tr', c tr = (Raise e, tr') -> C (e_class e) = true.

Lemma raises_only_ret C {A} (a : A) : raises_only C (ret a).
Proof. intros tr e tr' H. discriminate. Qed.

Lemma raises_only_emit C (ev : event) : raises_only C (emit ev).
Proof. intros tr e tr' H. discriminate. Qed.

Lemma raises_only_log C lv template args : raises_only C (log lv template args).
Proof. apply raises_only_emit. Qed.

Lemma raises_only_raise C {A} (e : py_exn) :
  C (e_class e) = true -> raises_only C (@raise _ A e).
Proof. intros H tr e' tr' [= <- _]. exact H. Qed.

Lemma raises_only_bind C {A B} (c : M (list event) A) (k : A -> M (list event) B) :
  raises_only C c -> (forall a, raises_only C (k a)) -> raises_only C (bind c k).
Proof.
  intros Hc Hk tr e tr'. unfold bind.
  destruct (c tr) as [[a|e1|] tr1] eqn:E; [apply Hk | | discriminate].
  intros [= <- <-]. eapply Hc; eassumption.
Qed.

Lemma raises_only_catch C {A} (body : M (list event) A) (h : py_exn -> M (list event) A) :
  (forall e, raises_only C (h e)) -> raises_only C (catch body h).
Proof.
  intros Hk tr e tr'. unfold catch.
  destruct (body tr) as [[a|e1|] tr1]; [discriminate | apply Hk | discriminate].
Qed.

Definition not_unauthorized (c : exn_class) : bool :=
  match c with HttpUnauthorizedError => false | _ => true end.

Ltac raises_step :=
  first
    [ apply raises_only_ret | apply raises_only_raise; reflexivity
    | apply raises_only_log | apply raises_only_emit
    | apply raises_only_bind; [| intros ?] | apply raises_only_catch; intros ?
    | match goal with
      | |- raises_only _ (if ?b then _ else _) => destruct b
      | |- raises_only _ (match ?x with _ => _ end) => destruct x
      | |- raises_only _ (let _ := _ in _) => cbv zeta
      end ].

Lemma raises_only_subscript d k : raises_only not_unauthorized (subscript d k).
Proof. unfold subscript. repeat raises_step. Qed.

Lemma raises_only_py_in x v : raises_only not_unauthorized (py_in x v).
Proof. unfold py_in. repeat raises_step. Qed.

Lemma raises_only_first_item v : raises_only not_unauthorized (first_item v).
Proof. unfold first_item. repeat raises_step. Qed.

Lemma raises_only_has_content issue :
  raises_only not_unauthorized (_has_meaningful_content issue).
Proof.
  unfold _has_meaningful_content, str_lower, str_strip.
  repeat first [raises_step
               | match goal with
                 | |- raises_only _ (match ?x with _ => _ end _) => destruct x
                 end].
Qed.

Ltac raises_solve :=
  repeat first [ apply raises_only_subscript | apply raises_only_py_in
               | apply raises_only_first_item | apply raises_only_has_content
               | raises_step ].

(** Computations whose returned value, when they return, satisfies [P]. *)
Definition returns {S A} (P : A -> Prop) (c : M S A) : Prop :=
  forall s a s', c s = (Ok a, s') -> P a.

Lemma returns_ret {S A} (P : A -> Prop) (a : A) : P a -> returns (S := S) P (ret a).
Proof. intros H s a' s' [= <- _]. exact H. Qed.

Lemma returns_raise {S A} (P : A -> Prop) (e : py_exn) : returns (S := S) P (raise e).
Proof. intros s a s' H. discriminate. Qed.

Lemma returns_bind {S A B} (Q : A -> Prop) (P : B -> Prop)
    (c : M S A) (k : A -> M S B) :
  returns Q c -> (forall a, Q a -> returns P (k a)) -> returns P (bind c k).
Proof.
  intros Hc Hk s b s'. unfold bind.
  destruct (c s) as [[a|e|] s1] eqn:E; try discriminate.
  apply Hk. eapply Hc. exact E.
Qed.

Lemma returns_any {S A} (c : M S A) : returns (fun _ => True) c.
Proof. intros s a s' _. exact I. Qed.

Section WithBatch.

Variable json_loads : string -> bool.
Variable config : gmap string pyval.
Variable schema_init : schema -> gmap string pyval -> option analysis.
Variable model_validate_json : schema -> string -> option analysis.
Variable kernel_invoke :
  string -> gmap string pyval -> nat -> gmap string pyval -> invoke_outcome.
Variable py_repr : pyval -> string.
Variable jira_wrapper_new : option py_exn.
Variable jira_search_parse : pyval -> pyval -> py_exn + list (gmap string pyval).
Variable debug_enabled : bool.
Variable format_issue : gmap string pyval -> gmap string pyval -> string.
Variable env_parent_id : option string.
Variable page_create : pyval -> string -> string -> pyval -> page_response.

#[local] Abbreviation gather :=
  (Enricher.gather json_loads config schema_init model_validate_json
     kernel_invoke py_repr).
#[local] Abbreviation save_local_files := (Enricher.save_local_files config).
#[local] Abbreviation page_loop :=
  (Enricher.page_loop py_repr format_issue env_parent_id page_create).
#[local] Abbreviation create_confluence :=
  (Enricher.create_confluence config py_repr format_issue env_parent_id page_create).
#[local] Abbreviation confluence_not_enabled := (Enricher.confluence_not_enabled config).
#[local] Abbreviation enrich_and_persist :=
  (Enricher.enrich_and_persist json_loads config schema_init model_validate_json
     kernel_invoke py_repr debug_enabled format_issue env_parent_id page_create).
#[local] Abbreviation fetch_and_analyze_issues :=
  (Enricher.fetch_and_analyze_issues json_loads config schema_init model_validate_json
     kernel_invoke py_repr jira_wrapper_new jira_search_parse debug_enabled format_issue
     env_parent_id page_create).

Lemma raises_only_page_loop space parsed c :
  raises_only not_unauthorized (page_loop space parsed c).
Proof.
  revert c; induction parsed as [|issue rest IH]; intros c; simpl;
    [apply raises_only_ret|].
  apply raises_only_bind; [|intros c'; apply IH].
  unfold Enricher.create_page. raises_solve.
Qed.

(** Once the enrichments have returned, nothing of what follows raises an
    [HttpUnauthorizedError]. *)
Lemma after_gather_not_unauthorized parsed tr0 results parsed' tr1 e tr :
  gather parsed tr0 = (Ok (results, parsed'), tr1) ->
  enrich_and_persist parsed tr0 = (Raise e, tr) ->
  not_unauthorized (e_class e) = true.
Proof.
  intros Hg. unfold Enricher.enrich_and_persist.
  unfold bind at 1. destruct debug_enabled; [intros [= <- _]; reflexivity|].
  unfold ret at 1. unfold bind at 1. rewrite Hg. cbv beta iota zeta.
  match goal with
  | |- ?k tr1 = _ -> _ => assert (raises_only not_unauthorized k) as Hk
  end; [| intros H; exact (Hk _ _ _ H)].
  unfold Enricher.save_local_files, Enricher.create_confluence,
    Enricher.confluence_not_enabled.
  repeat first [apply raises_only_page_loop | apply raises_only_subscript
               | apply raises_only_py_in | raises_step].
Qed.

(** X11.  An [HttpUnauthorizedError] that leaves [fetch_and_analyze_issues] comes
    from an enrichment, before the first call of a persistence collaborator:
    no file has been saved and no page has been asked for. *)
Theorem unauthorized_leaves_no_partial_output tr0 e tr :
  fetch_and_analyze_issues tr0 = (Raise e, tr) ->
  e_class e = HttpUnauthorizedError ->
  persistence tr = persistence tr0.
Proof.
  intros Hrun He.
  destruct (fetch_shape json_loads config schema_init model_validate_json kernel_invoke
              py_repr jira_wrapper_new jira_search_parse debug_enabled format_issue
              env_parent_id page_create tr0)
    as [(evs & Htr & Hq & _) | (parsed & pre & _ & _ & _ & _ & Hq & Hshape)].
  - rewrite Hrun in Htr. simpl in Htr. subst tr.
    rewrite persistence_app, (quiet_persistence _ Hq). apply app_nil_r.
  - rewrite Hshape in Hrun.
    destruct (enrich_and_persist parsed (tr0 ++ pre)) as [[r|e1|] tr1] eqn:E;
      try discriminate.
    injection Hrun as -> ->.
    destruct (gather_spec json_loads config schema_init model_validate_json
                kernel_invoke py_repr parsed (tr0 ++ pre)) as (evs & Htr & Hq2 & _).
    destruct (gather parsed (tr0 ++ pre)) as [[[results parsed']|e2|] tr2] eqn:Eg.
    + pose proof (after_gather_not_unauthorized _ _ _ _ _ _ _ Eg E) as Hn.
      rewrite He in Hn. discriminate.
    + assert (tr = tr2) as ->.
      { revert E. unfold Enricher.enrich_and_persist. unfold bind at 1.
        destruct debug_enabled; [intros [= <- <-]; discriminate|].
        unfold ret at 1. unfold bind at 1. rewrite Eg. now intros [= _ <-]. }
      simpl in Htr. subst tr2.
      rewrite !persistence_app, (quiet_persistence _ Hq), (quiet_persistence _ Hq2).
      now rewrite !app_nil_r.
    + exfalso. revert E. unfold Enricher.enrich_and_persist. unfold bind at 1.
      destruct debug_enabled; [intros [= <- <-]; discriminate|].
      unfold ret at 1. unfold bind at 1. rewrite Eg. discriminate.
Qed.

(** What happens before the first enrichment, case by case: only log
    records are written, and the run ends in a [JiraFetchError], ends with
    the bare return of an empty search, or goes on with the non-empty list
    of the search. *)
Ltac before_enrichment :=
  eexists; cbv beta iota zeta; cbn [fst snd]; rewrite <- ?app_assoc; cbn [app];
  split; cycle 1.

Lemma fetch_before_enrichment tr0 :
  exists pre,
    forallb is_log pre = true /\
    ((exists e, fetch_and_analyze_issues tr0 = (Raise e, tr0 ++ pre) /\
                e_class e = JiraFetchError /\
                forall jql max_results parsed,
                  jira_search_parse jql max_results = inr parsed ->
                  forallb key_is_str parsed = true ->
                  config !! "jql" = Some jql ->
                  config !! "max_results" = Some max_results ->
                  config !! "jira_username" = None \/ config !! "jira_api_key" = None \/
                  config !! "jira_url" = None \/ jira_wrapper_new <> None) \/
     (fetch_and_analyze_issues tr0 = (Ok None, tr0 ++ pre) /\
      exists jql max_results, jira_search_parse jql max_results = inr []) \/
     (exists parsed jql max_results,
        parsed <> [] /\ jira_search_parse jql max_results = inr parsed /\
        fetch_and_analyze_issues tr0 =
        match enrich_and_persist parsed (tr0 ++ pre) with
        | (Ok result, tr) => (Ok (Some result), tr)
        | (Raise e, tr) => (Raise e, tr)
        | (OutOfFuel, tr) => (OutOfFuel, tr)
        end)).
Proof.
  unfold Enricher.fetch_and_analyze_issues, subscript, bind, catch, log, emit, ret,
    raise, add_event, trace_traced.
  cbv beta iota zeta.
  destruct (config !! "jira_username") eqn:K1; cbv beta iota zeta.
  2:{ before_enrichment;
        [left; eexists; split; [reflexivity|]; split; [reflexivity|]; auto
        | reflexivity]. }
  destruct (config !! "jira_api_key") eqn:K2; cbv beta iota zeta.
  2:{ before_enrichment;
        [left; eexists; split; [reflexivity|]; split; [reflexivity|]; auto
        | reflexivity]. }
  destruct (config !! "jira_url") eqn:K3; cbv beta iota zeta.
  2:{ before_enrichment;
        [left; eexists; split; [reflexivity|]; split; [reflexivity|]; auto
        | reflexivity]. }
  destruct jira_wrapper_new eqn:K4; cbv beta iota zeta.
  { before_enrichment;
      [left; eexists; split; [reflexivity|]; split; [reflexivity|];
       intros; do 3 right; discriminate
      | reflexivity]. }
  destruct (config !! "jql") as [jql|] eqn:K5; cbv beta iota zeta.
  2:{ before_enrichment;
        [left; eexists; split; [reflexivity|]; split; [reflexivity|];
         intros; discriminate
        | reflexivity]. }
  destruct (config !! "max_results") as [max_results|] eqn:K6; cbv beta iota zeta.
  2:{ before_enrichment;
        [left; eexists; split; [reflexivity|]; split; [reflexivity|];
         intros; discriminate
        | reflexivity]. }
  destruct (jira_search_parse jql max_results) as [e|[|issue rest]] eqn:E;
    cbv beta iota zeta.
  - before_enrichment;
      [left; eexists; split; [reflexivity|]; split; [reflexivity|];
       intros jql' max' parsed Hs _ [= <-] [= <-]; congruence
      | reflexivity].
  - before_enrichment; [right; left; split; [reflexivity | eauto] | reflexivity].
  - destruct (forallb key_is_str (issue :: rest)) eqn:Ek; cbv beta iota zeta.
    + before_enrichment;
        [right; right; exists (issue :: rest), jql, max_results;
         split; [discriminate|]; split; [exact E | reflexivity]
        | reflexivity].
    + before_enrichment;
        [left; eexists; split; [reflexivity|]; split; [reflexivity|];
         intros jql' max' parsed Hs Hk [= <-] [= <-]; congruence
        | reflexivity].
Qed.

(** X12.  A search that fails, with whatever exception (an
    [HttpUnauthorizedError] of the Jira server included), makes
    [fetch_and_analyze_issues] raise [JiraFetchError]: the class of the
    original exception is lost, and only log records have been written. *)
Theorem search_failure_is_a_fetch_error tr0 :
  (forall jql max_results, exists e, jira_search_parse jql max_results = inl e) ->
  exists e' evs,
    fetch_and_analyze_issues tr0 = (Raise e', tr0 ++ evs) /\
    e_class e' = JiraFetchError /\ forallb is_log evs = true.
Proof.
  intros Hfail.
  destruct (fetch_before_enrichment tr0)
    as (pre & Hlog & [(e & Hrun & He & _)
                     | [(_ & jql & max_results & Hs)
                       | (parsed & jql & max_results & _ & Hs & _)]]).
  - exists e, pre. auto.
  - destruct (Hfail jql max_results) as [e He]. congruence.
  - destruct (Hfail jql max_results) as [e He]. congruence.
Qed.

(** X13.  With the root logger at DEBUG level the batch never gets to the
    enrichment: the call of [create_file_path] with two arguments raises
    [TypeError].  The run writes log records only (no model call, no file,
    no page), it gives no status result, and it returns (with [None]) only
    when the search found nothing. *)
Theorem debug_level_stops_the_batch tr0 :
  debug_enabled = true ->
  exists evs,
    snd (fetch_and_analyze_issues tr0) = tr0 ++ evs /\
    forallb is_log evs = true /\
    ((fst (fetch_and_analyze_issues tr0) = Ok None /\
      exists jql max_results, jira_search_parse jql max_results = inr []) \/
     (exists e, fst (fetch_and_analyze_issues tr0) = Raise e /\
                (e_class e = JiraFetchError \/
                 e_class e = TypeError /\
                 exists jql max_results parsed,
                   jira_search_parse jql max_results = inr parsed /\ parsed <> []))).
Proof.
  intros Hdebug.
  destruct (fetch_before_enrichment tr0)
    as (pre & Hlog & [(e & Hrun & He & _)
                     | [(Hrun & jql & max_results & Hs)
                       | (parsed & jql & max_results & Hne & Hs & Hrun)]]).
  - exists pre. rewrite Hrun. eauto 8.
  - exists pre. rewrite Hrun. eauto 8.
  - exists pre. rewrite Hrun. unfold Enricher.enrich_and_persist.
    unfold bind at 1. rewrite Hdebug. unfold raise. cbn [fst snd].
    split; [reflexivity|]. split; [exact Hlog|]. right. eexists.
    split; [reflexivity|]. right. split; [reflexivity|]. eauto.
Qed.

Lemma returns_create_confluence parsed result :
  returns (fun r => status r = status result) (create_confluence parsed result).
Proof.
  unfold Enricher.create_confluence. cbv zeta.
  repeat (eapply returns_bind; [apply returns_any | intros ? _]).
  apply returns_ret. reflexivity.
Qed.

Lemma returns_confluence_not_enabled result :
  returns (fun r => status r = status result) (confluence_not_enabled result).
Proof.
  unfold Enricher.confluence_not_enabled. cbv zeta.
  destruct (truthy _); [|apply returns_ret; reflexivity].
  eapply returns_bind; [apply returns_any | intros conf _].
  destruct conf; [|apply returns_ret; reflexivity].
  repeat match goal with |- returns _ (if ?b then _ else _) => destruct b end;
    (eapply returns_bind; [apply returns_any | intros ? _]);
    apply returns_ret; reflexivity.
Qed.

(** X14.  Every status result that [fetch_and_analyze_issues] returns has the
    status [success], and its details end with the completion entry:
    enrichments that failed, files that were not asked for and pages that
    were skipped or refused show in the warnings and details only. *)
Theorem returned_status_is_success tr0 result tr :
  fetch_and_analyze_issues tr0 = (Ok (Some result), tr) ->
  status result = "success" /\
  exists ds, details result = ds ++ [DCompleted].
Proof.
  intros Hrun.
  destruct (fetch_before_enrichment tr0)
    as (pre & _ & [(e & Hrun' & _)
                  | [(Hrun' & _) | (parsed & _ & _ & _ & _ & Hrun')]]);
    rewrite Hrun' in Hrun; try discriminate.
  destruct (enrich_and_persist parsed (tr0 ++ pre)) as [[r|e|] tr1] eqn:E;
    try discriminate.
  injection Hrun as -> ->.
  revert E. generalize (tr0 ++ pre). intros tr2 E.
  assert (returns (fun r => status r = "success" /\
                            exists ds, details r = ds ++ [DCompleted])
            (enrich_and_persist parsed)) as Hret; [|exact (Hret _ _ _ E)].
  unfold Enricher.enrich_and_persist. cbv zeta.
  do 5 (eapply returns_bind; [apply returns_any | intros ? _]).
  eapply returns_bind with (Q := fun r => status r = "success").
  - destruct (truthy _);
      [apply returns_create_confluence | apply returns_confluence_not_enabled].
  - intros r Hr. eapply returns_bind; [apply returns_any | intros ? _].
    apply returns_ret. split; [exact Hr | eauto].
Qed.

End WithBatch.

End BatchProps.

(* ===================================================================== *)
(** ** [src/utils/file_utils.py]: the body of a Confluence page *)
(* ===================================================================== *)

Module FileUtils.

Import Enricher.

(** [sep.join(parts)] *)
Fixpoint join (sep : string) (parts : list string) : string :=
  match parts with
  | [] => ""
  | [part] => part
  | part :: rest => part +:+ sep +:+ join sep rest
  end.

(** [s.split(sep)] for a separator of one character *)
Fixpoint split (sep : ascii) (s : string) : list string :=
  match s with
  | EmptyString => [""]
  | String c s' =>
      if Ascii.eqb c sep then "" :: split sep s'
      else match split sep s' with
           | part :: rest => String c part :: rest
           | [] => [String c ""]
           end
  end.

(** The first entry for [k] in a dictionary value. *)
Fixpoint assoc (k : string) (d : list (string * pyval)) : option pyval :=
  match d with
  | [] => None
  | (k', v) :: rest => if String.eqb k' k then Some v else assoc k rest
  end.

(** [v.get(k, default)] on a value: only dictionaries have [get]. *)
Definition value_get {S} (v : pyval) (k : string) (default : pyval) : M S pyval :=
  match v with
  | VDict d => ret (match assoc k d with Some x => x | None => default end)
  | _ => raise (exn_of AttributeError "object has no attribute 'get'")
  end.

Definition newline : string := String "010"%char EmptyString.

Definition footer : string :=
  "<p><em>This page was automatically generated by AI4ReleaseNotes.</em></p>".

Section WithEnvironment.

(** [repr] of a value that is no string, for the f-strings. *)
Variable py_repr : pyval -> string.

(** [os.environ.get('JIRA_URL', 'https://jira.example.com')] *)
Variable jira_base_url : string.

#[local] Abbreviation format_value := (Enricher.format_value py_repr).

(** A heading and a paragraph, when the analysis has a truthy value for
    [field]. *)
Definition section (analysis_data : gmap string pyval) (field title lead : string)
  : list string :=
  let value := dict_get analysis_data field VNone in
  if truthy value
  then ["<h2>" +:+ title +:+ "</h2>"; "<p>" +:+ lead +:+ format_value value +:+ "</p>"]
  else [].

(** [for category in categories]: the items of a list, the keys of a
    dictionary; numbers and booleans cannot be iterated. *)
Definition iterate {S} (categories : pyval) : M S (list pyval) :=
  match categories with
  | VList l => ret l
  | VDict d => ret (VStr <$> (fst <$> d))
  | VStr s => ret ((fun c => VStr (String c EmptyString)) <$> list_ascii_of_string s)
  | _ => raise (exn_of TypeError "object is not iterable")
  end.

(** The block under [if analysis_data.get('inferredCategories'):] *)
Definition categories_block (analysis_data : gmap string pyval)
  : M unit (list string) :=
  let categories := dict_get analysis_data "inferredCategories" VNone in
  if truthy categories then
    let categories :=
      match categories with
      | VStr s =>
          (* If it's a string, convert to list by splitting *)
          VList ((fun cat => VStr (Py.strip cat)) <$> split ","%char s)
      | _ => categories
      end in
    if truthy categories then
      items <- iterate categories ;;
      ret (["<h2>Categories</h2>"; "<ul>"]
           ++ ((fun category => "<li>" +:+ format_value category +:+ "</li>") <$> items)
           ++ ["</ul>"])
    else ret ["<h2>Categories</h2>"]
  else ret [].

(** The list [html_content] of [format_issue(issue_data, analysis_data)]. *)
Definition html_content (issue_data analysis_data : gmap string pyval)
  : M unit (list string) :=
  (* Add issue header *)
  let key := dict_get issue_data "key" (VStr "") in
  fields_summary <- value_get (dict_get issue_data "fields" (VDict [])) "summary" (VStr "") ;;
  let summary := py_or fields_summary (dict_get issue_data "summary" (VStr "")) in
  issuetype <- value_get (dict_get issue_data "fields" (VDict [])) "issuetype" (VDict []) ;;
  name <- value_get issuetype "name" (VStr "") ;;
  let issue_type := py_or name (dict_get issue_data "issue_type" (VStr "")) in
  let header :=
    ["<h1>" +:+ format_value key +:+ " - " +:+ format_value summary +:+ "</h1>";
     "<p><strong>Type:</strong> " +:+ format_value issue_type +:+ "</p>"] in
  (* Add Jira link *)
  let link :=
    if negb (String.eqb jira_base_url "") && truthy key
    then ["<p><a href=" +:+ Py.quoted (jira_base_url +:+ "/browse/" +:+ format_value key)
          +:+ ">View in Jira</a></p>"]
    else [] in
  let summaries :=
    section analysis_data "executive_summary" "Executive Summary" ""
    ++ section analysis_data "technical_summary" "Technical Summary" "" in
  (* For bug issues, add specific fields *)
  lowered <- str_lower issue_type ;;
  let bug :=
    if String.eqb lowered "bug"
    then section analysis_data "cause" "Cause" ""
         ++ section analysis_data "fix" "Fix" ""
         ++ section analysis_data "impact" "Impact" ""
    else [] in
  let details := section analysis_data "reasoning" "Details" "" in
  categories <- categories_block analysis_data ;;
  let confidence := section analysis_data "confidence" "Confidence" "AI Confidence Score: " in
  ret (header ++ link ++ ["<hr/>"] ++ summaries ++ bug ++ details ++ categories
       ++ confidence ++ ["<hr/>"; footer]).

(** [format_issue(issue_data, analysis_data)] *)
Definition format_issue (issue_data analysis_data : gmap string pyval)
  : M unit string :=
  lines <- html_content issue_data analysis_data ;;
  ret (join newline lines).

Lemma join_ends (sep last : string) (parts : list string) :
  exists before, join sep (parts ++ [last]) = before +:+ last.
Proof.
  induction parts as [|part rest (before & IH)].
  - exists "". reflexivity.
  - destruct rest as [|next rest].
    + exists (part +:+ sep). simpl. now rewrite StringFacts.append_assoc.
    + exists (part +:+ sep +:+ before).
      change (join sep ((part :: next :: rest) ++ [last]))
        with (part +:+ sep +:+ join sep ((next :: rest) ++ [last])).
      rewrite IH. now rewrite !StringFacts.append_assoc.
Qed.

Lemma join_starts (sep first : string) (rest : list string) :
  exists after, join sep (first :: rest) = first +:+ after.
Proof.
  destruct rest as [|next rest].
  - exists "". simpl. now rewrite StringFacts.append_empty_r.
  - eexists. reflexivity.
Qed.

Lemma rstrip_app (a b : string) :
  Py.rstrip b <> "" -> Py.rstrip (a +:+ b) = a +:+ Py.rstrip b.
Proof.
  intros Hb. induction a as [|c a IH]; [reflexivity|].
  change (String c a +:+ b) with (String c (a +:+ b)).
  change (String c a +:+ Py.rstrip b) with (String c (a +:+ Py.rstrip b)).
  cbn [Py.rstrip]. rewrite IH.
  destruct (a +:+ Py.rstrip b) eqn:E; [|reflexivity].
  destruct a; [simpl in E; contradiction | discriminate].
Qed.

(** The lines of a page begin with the heading and end with the footer. *)
Lemma html_content_shape issue_data analysis_data lines :
  html_content issue_data analysis_data tt = (Ok lines, tt) ->
  exists title middle,
    lines = ("<h1>" +:+ title) :: middle ++ [footer].
Proof.
  unfold html_content, bind, ret.
  destruct (value_get _ "summary" _ tt) as [[fields_summary| |] []]; try discriminate.
  destruct (value_get _ "issuetype" _ tt) as [[issuetype| |] []]; try discriminate.
  destruct (value_get issuetype "name" _ tt) as [[name| |] []]; try discriminate.
  destruct (str_lower _ tt) as [[lowered| |] []]; try discriminate.
  destruct (categories_block analysis_data tt) as [[categories| |] []]; try discriminate.
  intros [= <-]. eexists.
  exists (("<p><strong>Type:</strong> "
           +:+ format_value (py_or name (dict_get issue_data "issue_type" (VStr "")))
           +:+ "</p>")
          :: (if negb (String.eqb jira_base_url "")
                 && truthy (dict_get issue_data "key" (VStr ""))
              then ["<p><a href="
                    +:+ Py.quoted
                          (jira_base_url +:+ "/browse/"
                           +:+ format_value (dict_get issue_data "key" (VStr "")))
                    +:+ ">View in Jira</a></p>"]
              else [])
          ++ ["<hr/>"]
          ++ (section analysis_data "executive_summary" "Executive Summary" ""
              ++ section analysis_data "technical_summary" "Technical Summary" "")
          ++ (if String.eqb lowered "bug"
              then section analysis_data "cause" "Cause" ""
                   ++ section analysis_data "fix" "Fix" ""
                   ++ section analysis_data "impact" "Impact" ""
              else [])
          ++ section analysis_data "reasoning" "Details" ""
          ++ categories
          ++ section analysis_data "confidence" "Confidence" "AI Confidence Score: "
          ++ ["<hr/>"]).
  cbn [app]. do 2 f_equal.
  repeat first [rewrite <- app_assoc | rewrite <- app_comm_cons]. reflexivity.
Qed.

(** X27.  A page that [format_issue] returns is never empty or short: stripped,
    it has the 73 characters of the footer at least.  The test on the body
    in the page loop of the enricher (fewer than 50 characters) cannot fail
    on it. *)
Theorem format_issue_body_is_long_enough issue_data analysis_data body :
  format_issue issue_data analysis_data tt = (Ok body, tt) ->
  73 <= String.length (Py.strip body) /\
  String.eqb body "" || (String.length (Py.strip body) <? 50) = false.
Proof.
  unfold format_issue, bind, ret.
  destruct (html_content issue_data analysis_data tt) as [[lines| |] []] eqn:E;
    try discriminate.
  intros [= <-].
  destruct (html_content_shape _ _ _ E) as (title & middle & ->).
  destruct (join_starts newline ("<h1>" +:+ title) (middle ++ [footer])) as [after Ha].
  destruct (join_ends newline footer (("<h1>" +:+ title) :: middle)) as [before Hb].
  cbn [app] in Hb.
  set (body := join newline (("<h1>" +:+ title) :: middle ++ [footer])) in *.
  clearbody body.
  assert (Py.strip body = body) as Hstrip.
  { unfold Py.strip.
    assert (Py.lstrip body = body) as -> by (rewrite Ha; reflexivity).
    rewrite Hb. rewrite rstrip_app by (vm_compute; discriminate). reflexivity. }
  assert (73 <= String.length body) as Hlen.
  { rewrite Hb, ExtractorProps.append_length. change (String.length footer) with 73. lia. }
  rewrite Hstrip. split; [exact Hlen|].
  apply orb_false_intro.
  - apply String.eqb_neq. intros Hbody. rewrite Hbody in Hlen. simpl in Hlen. lia.
  - apply Nat.ltb_ge. lia.
Qed.

Lemma section_without analysis_data removed field title lead :
  field <> removed ->
  section (delete removed analysis_data) field title lead
  = section analysis_data field title lead.
Proof.
  intros Hne. unfold section, dict_get. now rewrite lookup_delete_ne by congruence.
Qed.

Lemma categories_without analysis_data removed :
  removed <> "inferredCategories" ->
  categories_block (delete removed analysis_data) = categories_block analysis_data.
Proof.
  intros Hne. unfold categories_block, dict_get.
  now rewrite lookup_delete_ne by congruence.
Qed.

(** X28.  The enricher keeps the type of an issue under [issuetype];
    [format_issue] looks for it under [fields] and under [issue_type].  For
    an issue that has neither of these two keys the page names no type, and
    it never has the sections of a bug: it is the page of the analysis
    without cause, fix and impact. *)
Theorem page_of_an_issue_without_type_key issue_data analysis_data :
  issue_data !! "fields" = None -> issue_data !! "issue_type" = None ->
  (forall lines,
     html_content issue_data analysis_data tt = (Ok lines, tt) ->
     In "<p><strong>Type:</strong> </p>" lines) /\
  format_issue issue_data analysis_data tt
  = format_issue issue_data
      (delete "cause" (delete "fix" (delete "impact" analysis_data))) tt.
Proof.
  intros Hf Ht.
  assert (forall a,
             html_content issue_data a tt =
             match categories_block a tt with
             | (Ok categories, _) =>
                 (Ok (["<h1>" +:+ format_value (dict_get issue_data "key" (VStr ""))
                       +:+ " - "
                       +:+ format_value
                             (py_or (VStr "") (dict_get issue_data "summary" (VStr "")))
                       +:+ "</h1>";
                       "<p><strong>Type:</strong> </p>"]
                      ++ (if negb (String.eqb jira_base_url "")
                             && truthy (dict_get issue_data "key" (VStr ""))
                          then ["<p><a href="
                                +:+ Py.quoted
                                      (jira_base_url +:+ "/browse/"
                                       +:+ format_value
                                             (dict_get issue_data "key" (VStr "")))
                                +:+ ">View in Jira</a></p>"]
                          else [])
                      ++ ["<hr/>"]
                      ++ (section a "executive_summary" "Executive Summary" ""
                          ++ section a "technical_summary" "Technical Summary" "")
                      ++ []
                      ++ section a "reasoning" "Details" ""
                      ++ categories
                      ++ section a "confidence" "Confidence" "AI Confidence Score: "
                      ++ ["<hr/>"; footer]), tt)
             | (Raise e, _) => (Raise e, tt)
             | (OutOfFuel, _) => (OutOfFuel, tt)
             end) as Hlines.
  { intros a. unfold html_content, dict_get. rewrite Hf, Ht.
    unfold value_get, bind, ret. cbn [assoc py_or truthy String.eqb negb str_lower].
    unfold ret. cbn [Py.lower String.eqb].
    destruct (categories_block a tt) as [[categories| |] []]; reflexivity. }
  split.
  - intros lines. rewrite Hlines.
    destruct (categories_block analysis_data tt) as [[categories| |] []];
      try discriminate.
    intros [= <-]. right. now left.
  - unfold format_issue, bind. rewrite !Hlines.
    rewrite !categories_without by discriminate.
    rewrite !section_without by discriminate. reflexivity.
Qed.

End WithEnvironment.

End FileUtils.

(* ===================================================================== *)
(** ** [src/jira/jira_client.py]: [JiraAPIWrapper.parse_issues] *)
(* ===================================================================== *)

Module JiraClient.

Import Enricher FileUtils.

(** The local variables of [parse_issues] that are assigned in the loop over
    the issue links and read after it: they keep their values from one issue
    to the next.  [None] is an unbound variable. *)
Record locals := mk_locals {
  rel_type : option pyval;
  rel_key : option pyval;
  rel_summary : option pyval
}.

Definition unbound : locals :=
  {| rel_type := None; rel_key := None; rel_summary := None |}.

(** [v[k]] for a string [k]: a dictionary raises [KeyError] for a missing
    key, every other value raises [TypeError]. *)
Definition item {S} (v : pyval) (k : string) : M S pyval :=
  match v with
  | VDict d =>
      match assoc k d with
      | Some x => ret x
      | None => raise (exn_of KeyError k)
      end
  | _ => raise (exn_of TypeError "indices must be integers or object is not subscriptable")
  end.

(** [v[0:10]] *)
Definition first_ten {S} (v : pyval) : M S pyval :=
  match v with
  | VStr s => ret (VStr (Py.slice 0 10 s))
  | VList l => ret (VList (take 10 l))
  | _ => raise (exn_of TypeError "object is not subscriptable")
  end.

(** [k in v.keys()] *)
Definition has_key {S} (v : pyval) (k : string) : M S bool :=
  match v with
  | VDict d => ret (match assoc k d with Some _ => true | None => false end)
  | _ => raise (exn_of AttributeError "object has no attribute 'keys'")
  end.

(** [[f(x) for x in items]], left to right *)
Fixpoint traverse {S A} (f : pyval -> M S A) (items : list pyval) : M S (list A) :=
  match items with
  | [] => ret []
  | x :: rest => y <- f x ;; ys <- traverse f rest ;; ret (y :: ys)
  end.

Definition not_bracket (c : ascii) : bool := negb (Ascii.eqb c "]"%char).

(** [re.sub(r"\[~accountid:[^\]]+\]", '', s)]: at a position where the text
    [[~accountid:] begins, the class takes the characters up to the next
    closing bracket; with one character at least and the bracket there, the
    match is dropped and the scan goes on after it; otherwise, and at every
    other position, the character is kept.  [fuel] bounds the positions. *)
Fixpoint remove_account_refs (fuel : nat) (s : string) : string :=
  match fuel with
  | O => s
  | S fuel' =>
      match s with
      | EmptyString => EmptyString
      | String c s' =>
          if Py.startswith "[~accountid:" s then
            let rest := Py.drop 12 s in
            let k := Py.span not_bracket rest in
            match Py.drop k rest with
            | String _ after =>
                if (0 <? k) then remove_account_refs fuel' after
                else String c (remove_account_refs fuel' s')
            | EmptyString => String c (remove_account_refs fuel' s')
            end
          else String c (remove_account_refs fuel' s')
      end
  end.

(** [re.sub] raises [TypeError] on what is no string. *)
Definition re_sub {S} (v : pyval) : M S pyval :=
  match v with
  | VStr s => ret (VStr (remove_account_refs (String.length s) s))
  | _ => raise (exn_of TypeError "expected string or bytes-like object")
  end.

Definition get_local (name : string) (read : locals -> option pyval) : M locals pyval :=
  fun s =>
    match read s with
    | Some v => (Ok v, s)
    | None => (Raise (exn_of OtherException
                        ("cannot access local variable '" +:+ name +:+ "'")), s)
    end.

Definition set_rel_type (v : pyval) : M locals unit :=
  fun s => (Ok tt, {| rel_type := Some v; rel_key := rel_key s;
                      rel_summary := rel_summary s |}).

Definition set_rel_key (v : pyval) : M locals unit :=
  fun s => (Ok tt, {| rel_type := rel_type s; rel_key := Some v;
                      rel_summary := rel_summary s |}).

Definition set_rel_summary (v : pyval) : M locals unit :=
  fun s => (Ok tt, {| rel_type := rel_type s; rel_key := rel_key s;
                      rel_summary := Some v |}).

(** The assignments under [if "inwardIssue" in related_issue.keys():] and
    under the test for [outwardIssue]. *)
Definition read_link (related_issue : pyval) (direction issue_key : string)
  : M locals unit :=
  present <- has_key related_issue issue_key ;;
  if present : bool then
    link_type <- item related_issue "type" ;;
    t <- item link_type direction ;;
    set_rel_type t ;;
    linked <- item related_issue issue_key ;;
    k <- item linked "key" ;;
    set_rel_key k ;;
    linked <- item related_issue issue_key ;;
    linked_fields <- item linked "fields" ;;
    s <- item linked_fields "summary" ;;
    set_rel_summary s
  else ret tt.

(** The loop over [issue["fields"].get("issuelinks", [])]: [rel_issues] is
    the dictionary of the last link. *)
Fixpoint related_issues (links : list pyval) (rel_issues : pyval) : M locals pyval :=
  match links with
  | [] => ret rel_issues
  | related_issue :: rest =>
      read_link related_issue "inward" "inwardIssue" ;;
      read_link related_issue "outward" "outwardIssue" ;;
      t <- get_local "rel_type" rel_type ;;
      k <- get_local "rel_key" rel_key ;;
      s <- get_local "rel_summary" rel_summary ;;
      related_issues rest (VDict [("type", t); ("key", k); ("summary", s)])
  end.

Definition parse_comment (comment : pyval) : M locals pyval :=
  comment_body <- value_get comment "body" (VStr "") ;;
  (* Remove the specified patterns from the comment body *)
  comment_body <- re_sub comment_body ;;
  author <- item comment "author" ;;
  author <- item author "displayName" ;;
  created <- item comment "created" ;;
  ret (VDict [("body", comment_body); ("author", author); ("created", created)]).

(** The body of the [try] statement of the loop, for one issue. *)
Definition parse_issue (issue : pyval) : M locals (gmap string pyval) :=
  key <- item issue "key" ;;
  fields <- item issue "fields" ;;
  summary <- item fields "summary" ;;
  created <- item fields "created" ;;
  created <- first_ten created ;;
  priority <- item fields "priority" ;;
  priority <- item priority "name" ;;
  status <- item fields "status" ;;
  status <- item status "name" ;;
  id <- item issue "id" ;;
  description <- value_get fields "description" (VStr "") ;;
  issuetype <- item fields "issuetype" ;;
  issuetype <- item issuetype "name" ;;
  lowered <- str_lower issuetype ;;
  wsjf <- (if String.eqb lowered "epic"
           then value_get fields "customfield_12918" VNone
           else ret VNone) ;;
  reporter <- item fields "reporter" ;;
  reporter <- item reporter "displayName" ;;
  attachments <- value_get fields "attachment" (VList []) ;;
  attachments <- iterate attachments ;;
  imgURLs <- traverse (fun attach => item attach "content") attachments ;;
  (* collect parent id *)
  parent <- catch (parent <- item fields "parent" ;; first_ten parent)
                  (fun _ => ret (VStr "None")) ;;
  labels <- value_get fields "labels" (VList []) ;;
  versions <- value_get fields "fixVersions" (VList []) ;;
  versions <- iterate versions ;;
  fixVersions <- traverse (fun version => item version "name") versions ;;
  (* parse and collect comment details *)
  comment <- value_get fields "comment" (VDict []) ;;
  comments <- value_get comment "comments" (VList []) ;;
  comments <- iterate comments ;;
  comments <- traverse parse_comment comments ;;
  components <- value_get fields "components" (VList []) ;;
  components <- iterate components ;;
  components <- traverse (fun component => item component "name") components ;;
  assignee <- catch (assignee <- item fields "assignee" ;; item assignee "displayName")
                    (fun _ => ret (VStr "None")) ;;
  links <- value_get fields "issuelinks" (VList []) ;;
  links <- iterate links ;;
  rel_issues <- related_issues links (VDict []) ;;
  (* collect all parsed details *)
  ret (list_to_map
         [("key", key); ("summary", summary); ("created", created);
          ("assignee", assignee); ("priority", priority); ("status", status);
          ("description", description); ("id", id); ("issuetype", issuetype);
          ("components", VList components); ("comments", VList comments);
          ("related_issues", rel_issues); ("fixVersions", VList fixVersions);
          ("reporter", reporter); ("labels", labels); ("wsjf", wsjf);
          ("imgURLs", VList imgURLs); ("parent", parent)]).

(** [for issue_idx, issue in enumerate(issues["issues"])]: an issue whose
    parsing raises is logged and left out. *)
Fixpoint parse_loop (issues : list pyval) : M locals (list (gmap string pyval)) :=
  match issues with
  | [] => ret []
  | issue :: rest =>
      parsed_issue <- catch (d <- parse_issue issue ;; ret (Some d))
                            (fun _ => ret None) ;;
      parsed <- parse_loop rest ;;
      ret (match parsed_issue with Some d => d :: parsed | None => parsed end)
  end.

(** [len(v)] *)
Definition len (v : pyval) : option nat :=
  match v with
  | VStr s => Some (String.length s)
  | VList l => Some (length l)
  | VDict d => Some (length d)
  | _ => None
  end.

(** [parse_issues(issues)] (lines 580-693); its log records are left out. *)
Definition parse_issues (issues : pyval) : result (list (gmap string pyval)) :=
  (* Input validation *)
  if negb (truthy issues) then Ok []
  else
    match issues with
    | VDict d =>
        match assoc "issues" d with
        | None => Ok []
        | Some found =>
            match len found with
            | None => Raise (exn_of TypeError "object has no len()")
            | Some O => Ok []
            | Some _ =>
                fst ((items <- iterate found ;; parse_loop items) unbound)
            end
        end
    | _ => Ok []
    end.

(** *** Properties *)

Import BatchProps.

(** The keys of a parsed issue. *)
Definition parsed_keys : list string :=
  ["key"; "summary"; "created"; "assignee"; "priority"; "status"; "description";
   "id"; "issuetype"; "components"; "comments"; "related_issues"; "fixVersions";
   "reporter"; "labels"; "wsjf"; "imgURLs"; "parent"].

(** A dictionary with the keys of a parsed issue and a string as issue
    type. *)
Definition well_formed (d : gmap string pyval) : Prop :=
  (forall k, is_Some (d !! k) <-> In k parsed_keys) /\
  exists t, d !! "issuetype" = Some (VStr t).

Lemma parse_issue_well_formed issue : returns well_formed (parse_issue issue).
Proof.
  unfold parse_issue.
  do 12 (eapply returns_bind; [apply returns_any | intros ? _]).
  eapply returns_bind; [apply returns_any | intros issuetype _].
  destruct issuetype as [ |b0|z0|t|l0|d0];
    try (intros ? ? ? H; unfold bind, str_lower, raise in H; discriminate).
  repeat (eapply returns_bind; [apply returns_any | intros ? _]).
  apply returns_ret. split; [|exists t; reflexivity].
  intros k.
  match goal with
  | |- is_Some (list_to_map ?l !! k) <-> _ =>
      pose proof (not_elem_of_list_to_map (M := gmap string) l k) as Hk;
      change (l.*1) with parsed_keys in Hk
  end.
  rewrite <- list_elem_of_In. rewrite <- not_eq_None_Some.
  split.
  - intros Hsome. destruct (decide (k ∈ parsed_keys)) as [Hin|Hnot]; [exact Hin|].
    exfalso. apply Hsome. now apply Hk.
  - intros Hin Hnone. apply Hk in Hnone. contradiction.
Qed.

Lemma parse_loop_well_formed issues :
  returns (Forall well_formed) (parse_loop issues).
Proof.
  induction issues as [|issue rest IH]; [apply returns_ret; constructor|].
  cbn [parse_loop].
  eapply returns_bind with
    (Q := fun r => match r with Some d => well_formed d | None => True end).
  - intros s r s'. unfold catch, bind, ret.
    pose proof (parse_issue_well_formed issue s) as Hwf.
    destruct (parse_issue issue s) as [[d|e|] s1]; intros [= <- _];
      [eapply Hwf; reflexivity | exact I].
  - intros r Hr. eapply returns_bind; [apply IH | intros parsed Hp].
    apply returns_ret. destruct r; [constructor|]; assumption.
Qed.

(** X29.  Every issue that [parse_issues] returns has the eighteen keys of the
    dictionary it builds and no other, and a string as its issue type.  So
    the enricher finds [key] and a string under [issuetype] in it; and it
    has neither [fields] nor [issue_type], the two places where
    [format_issue] looks for the type. *)
Theorem parsed_issues_have_the_eighteen_fields (raw : pyval)
    (parsed : list (gmap string pyval)) (issue : gmap string pyval) :
  parse_issues raw = Ok parsed -> In issue parsed ->
  (forall k, is_Some (issue !! k) <-> In k parsed_keys) /\
  (exists t, dict_get issue "issuetype" (VStr "") = VStr t) /\
  is_Some (issue !! "key") /\
  issue !! "fields" = None /\ issue !! "issue_type" = None.
Proof.
  intros Hrun Hin.
  assert (well_formed issue) as [Hkeys [t Ht]].
  { unfold parse_issues in Hrun.
    destruct (negb (truthy raw)); [injection Hrun as <-; contradiction|].
    destruct raw as [ | | | | |d]; try (injection Hrun as <-; contradiction).
    destruct (assoc "issues" d) as [found|]; [|injection Hrun as <-; contradiction].
    destruct (len found) as [[|n]|]; try discriminate;
      [injection Hrun as <-; contradiction|].
    assert (returns (Forall well_formed)
              (items <- iterate found ;; parse_loop items)) as Hret.
    { eapply returns_bind; [apply returns_any | intros items _].
      apply parse_loop_well_formed. }
    destruct ((items <- iterate found ;; parse_loop items) unbound)
      as [r s'] eqn:E. simpl in Hrun. subst r.
    pose proof (Hret _ _ _ E) as Hall.
    rewrite Forall_forall in Hall. apply Hall. now apply list_elem_of_In. }
  split; [exact Hkeys|]. split; [exists t; unfold dict_get; now rewrite Ht|].
  split; [apply Hkeys; unfold parsed_keys; cbn [In]; tauto|].
  split; apply eq_None_not_Some; intros H; apply Hkeys in H;
    unfold parsed_keys in H; cbn [In] in H;
    repeat match goal with H : _ \/ _ |- _ => destruct H end;
    try discriminate; contradiction.
Qed.

(** Computations that come to an end: they return or raise. *)
Definition settles {S A} (c : M S A) : Prop := forall s, fst (c s) <> OutOfFuel.

Lemma settles_ret {S A} (a : A) : settles (S := S) (ret a).
Proof. intros s. discriminate. Qed.

Lemma settles_raise {S A} (e : py_exn) : settles (S := S) (A := A) (raise e).
Proof. intros s. discriminate. Qed.

Lemma settles_bind {S A B} (c : M S A) (k : A -> M S B) :
  settles c -> (forall a, settles (k a)) -> settles (bind c k).
Proof.
  intros Hc Hk s. unfold bind. specialize (Hc s).
  destruct (c s) as [[a|e|] s1]; [apply Hk | discriminate | contradiction].
Qed.

Lemma settles_catch {S A} (body : M S A) (h : py_exn -> M S A) :
  settles body -> (forall e, settles (h e)) -> settles (catch body h).
Proof.
  intros Hc Hk s. unfold catch. specialize (Hc s).
  destruct (body s) as [[a|e|] s1]; [discriminate | apply Hk | contradiction].
Qed.

Ltac settle :=
  repeat first
    [ apply settles_ret | apply settles_raise
    | apply settles_bind; [| intros ?] | apply settles_catch; [| intros ?]
    | match goal with
      | |- settles (if ?b then _ else _) => destruct b
      | |- settles (match ?x with _ => _ end) => destruct x
      end ].

Lemma settles_item {S} v k : settles (S := S) (item v k).
Proof. unfold item. settle. Qed.

Lemma settles_first_ten {S} v : settles (S := S) (first_ten v).
Proof. unfold first_ten. settle. Qed.

Lemma settles_value_get {S} v k default : settles (S := S) (value_get v k default).
Proof. unfold value_get. settle. Qed.

Lemma settles_iterate {S} v : settles (S := S) (iterate v).
Proof. unfold iterate. settle. Qed.

Lemma settles_has_key {S} v k : settles (S := S) (has_key v k).
Proof. unfold has_key. settle. Qed.

Lemma settles_re_sub {S} v : settles (S := S) (re_sub v).
Proof. unfold re_sub. settle. Qed.

Lemma settles_str_lower {S} v : settles (S := S) (str_lower v).
Proof. unfold str_lower. settle. Qed.

Lemma settles_get_local name read : settles (get_local name read).
Proof. intros s. unfold get_local. destruct (read s); discriminate. Qed.

Lemma settles_traverse {S A} (f : pyval -> M S A) items :
  (forall x, settles (f x)) -> settles (traverse f items).
Proof.
  intros Hf. induction items as [|x rest IH]; simpl; [apply settles_ret|].
  apply settles_bind; [apply Hf | intros y].
  apply settles_bind; [apply IH | intros ys]. apply settles_ret.
Qed.

Ltac settle_all :=
  repeat first
    [ apply settles_item | apply settles_first_ten | apply settles_value_get
    | apply settles_iterate | apply settles_has_key | apply settles_re_sub
    | apply settles_str_lower | apply settles_get_local
    | apply settles_traverse; intros ?
    | apply settles_ret | apply settles_raise
    | apply settles_bind; [| intros ?] | apply settles_catch; [| intros ?]
    | match goal with
      | |- settles (if ?b then _ else _) => destruct b
      | |- settles (set_rel_type _) => intros ?; discriminate
      | |- settles (set_rel_key _) => intros ?; discriminate
      | |- settles (set_rel_summary _) => intros ?; discriminate
      end ].

Lemma settles_read_link related_issue direction issue_key :
  settles (read_link related_issue direction issue_key).
Proof. unfold read_link. settle_all. Qed.

Lemma settles_related_issues links rel_issues :
  settles (related_issues links rel_issues).
Proof.
  revert rel_issues; induction links as [|related_issue rest IH]; intros rel_issues;
    simpl; [apply settles_ret|].
  repeat first [apply settles_read_link | apply IH | apply settles_get_local
               | apply settles_bind; [| intros ?]].
Qed.

Lemma settles_parse_issue issue : settles (parse_issue issue).
Proof.
  unfold parse_issue, parse_comment.
  repeat first [apply settles_related_issues | progress settle_all].
Qed.

(** The loop returns, with one issue at most for each item. *)
Lemma parse_loop_returns issues s :
  exists parsed s',
    parse_loop issues s = (Ok parsed, s') /\ length parsed <= length issues.
Proof.
  revert s; induction issues as [|issue rest IH]; intros s.
  - exists [], s. split; [reflexivity | simpl; lia].
  - cbn [parse_loop]. unfold bind at 1, catch, bind at 1, ret at 1 2.
    pose proof (settles_parse_issue issue s) as Hs.
    destruct (parse_issue issue s) as [[d|e|] s1]; [| | now destruct Hs];
      unfold bind at 1; destruct (IH s1) as (parsed & s' & -> & Hl);
      eexists; eexists; (split; [reflexivity | simpl; lia]).
Qed.

Lemma iterate_length {S} found n items (s s' : S) :
  len found = Some n -> iterate found s = (Ok items, s') -> length items = n.
Proof.
  unfold len, iterate, ret.
  destruct found as [ |b0|z0|t|l0|d0]; try discriminate; intros [= <-] [= <- _].
  - rewrite length_fmap. clear. induction t; simpl; auto.
  - reflexivity.
  - now rewrite !length_fmap.
Qed.

(** X30.  An issue that cannot be parsed never fails the call: whatever the
    search has returned, [parse_issues] returns a list, with one issue at
    most for each item found under [issues], and the empty list when there
    is no such key; the one exception it can raise is the [TypeError] of
    [len] on a value under [issues] that has no length. *)
Theorem broken_issues_are_skipped (raw : pyval) :
  ((forall d, raw = VDict d -> assoc "issues" d = None) -> parse_issues raw = Ok []) /\
  match parse_issues raw with
  | Ok parsed =>
      forall d found,
        raw = VDict d -> assoc "issues" d = Some found ->
        exists n, len found = Some n /\ length parsed <= n
  | Raise e =>
      e_class e = TypeError /\
      exists d found, raw = VDict d /\ assoc "issues" d = Some found /\ len found = None
  | OutOfFuel => False
  end.
Proof.
  unfold parse_issues. split.
  - intros Hno. destruct (negb (truthy raw)); [reflexivity|].
    destruct raw as [ |b0|z0|t|l0|d0]; try reflexivity.
    now rewrite (Hno d0 eq_refl).
  - destruct (negb (truthy raw)) eqn:Et.
    { intros d found -> Hf. destruct d; [discriminate|]. discriminate. }
    destruct raw as [ |b0|z0|t|l0|d0]; try (intros d found; discriminate).
    destruct (assoc "issues" d0) as [found|] eqn:Ef.
    2:{ intros d found' [= <-]. congruence. }
    destruct (len found) as [[|n]|] eqn:El.
    + intros d found' [= <-] Hf. exists 0. rewrite Hf in Ef.
      injection Ef as ->. split; [exact El | simpl; lia].
    + unfold bind.
      destruct (iterate found unbound) as [[items| |] s1] eqn:Ei.
      * destruct (parse_loop_returns items s1) as (parsed & s' & -> & Hl).
        cbn [fst]. intros d found' [= <-] Hf. rewrite Hf in Ef. injection Ef as ->.
        exists (S n). split; [exact El|].
        now rewrite (iterate_length _ _ _ _ _ El Ei) in Hl.
      * exfalso. destruct found; discriminate.
      * exfalso. destruct found; discriminate.
    + split; [reflexivity|]. eauto.
Qed.

End JiraClient.

(* ===================================================================== *)
(** ** The constructor of [JiraEnricher] and its model adjustment *)
(* ===================================================================== *)

Module Setup.

Import Enricher.

Section WithFloats.

(** The configuration may hold floating-point numbers ([temperature]); the
    code only tests them for truth and compares them with [1.0].  [F] is the
    type of floats, [one] is [1.0]. *)
Context {F : Type} `{EqDecision F}.
Variable one : F.
Variable float_truthy : F -> bool.

Inductive cval :=
| CVal (v : pyval)
| CFloat (x : F).

(** [v == 1.0]: the float [1.0] itself, the integer [1] and [True]. *)
Definition equals_one (v : cval) : bool :=
  match v with
  | CFloat x => bool_decide (x = one)
  | CVal (VInt z) => (z =? 1)%Z
  | CVal (VBool b) => b
  | CVal _ => false
  end.

(** [v == s] for a string literal [s] *)
Definition equals_str (s : string) (v : cval) : bool :=
  match v with CVal (VStr x) => String.eqb x s | _ => false end.

(** [bool(v)] *)
Definition ctruthy (v : cval) : bool :=
  match v with CVal v => truthy v | CFloat x => float_truthy x end.

Definition preview_version : string := "2024-12-01-preview".

(** [_adjust_config_for_model()] (lines 88-117) as the update it makes to
    [self.config]; its log records are left out. *)
Definition _adjust_config_for_model (config : gmap string cval) : gmap string cval :=
  let deployment :=
    match config !! "azure_openai_gpt_deployment" with
    | Some v => v
    | None => CVal (VStr "")
    end in
  (* Handle o4-mini model specific requirements *)
  if equals_str "o4-mini" deployment then
    (* Ensure the correct API version; [config.get] gives [None] for a
       missing key, which differs from the string *)
    let config :=
      match config !! "azure_openai_chat_completions_api_version" with
      | Some v =>
          if equals_str preview_version v then config
          else <["azure_openai_chat_completions_api_version" :=
                   CVal (VStr preview_version)]> config
      | None =>
          <["azure_openai_chat_completions_api_version" :=
              CVal (VStr preview_version)]> config
      end in
    (* Check for any max_tokens in the config and convert them *)
    let config :=
      match config !! "max_tokens" with
      | Some v => <["max_completion_tokens" := v]> (delete "max_tokens" config)
      | None => config
      end in
    (* this model only supports default (1.0) *)
    let config :=
      match config !! "temperature" with
      | Some v =>
          if negb (equals_one v) then <["temperature" := CFloat one]> config
          else config
      | None => config
      end in
    config
  else config.

Definition azure_config_keys : list string :=
  ["azure_openai_key"; "azure_openai_gpt_deployment"; "azure_openai_endpoint";
   "azure_openai_chat_completions_api_version"].

(** [for key in azure_config_keys: if not self.config.get(key): raise]: the
    key of the [ValueError], if one is raised. *)
Fixpoint first_missing (config : gmap string cval) (keys : list string)
  : option string :=
  match keys with
  | [] => None
  | key :: rest =>
      match config !! key with
      | Some v => if ctruthy v then first_missing config rest else Some key
      | None => Some key
      end
  end.

(** The [AzureChatCompletion] built from [service_params] and
    [kernel.add_service]: the message of the exception they raise, if any. *)
Variable add_service : gmap string cval -> option string.

(** [kernel.add_plugin(...)]: the message of the exception it raises, or
    the names of the functions of the plugin. *)
Variable add_plugin : string + list string.

(** Both [except] clauses of the constructor raise [RuntimeError]. *)
Inductive init_outcome :=
| Initialised (config : gmap string cval)
| RuntimeError (msg : string).

Definition contains_name (name : string) (names : list string) : bool :=
  existsb (String.eqb name) names.

(** [JiraEnricher.__init__(config)] (lines 24-86). *)
Definition init (config : gmap string cval) : init_outcome :=
  let config := _adjust_config_for_model config in
  match first_missing config azure_config_keys with
  | Some key =>
      RuntimeError ("Azure OpenAI initialization failed: "
                    +:+ "Missing required Azure OpenAI configuration: " +:+ key)
  | None =>
      let service_params : gmap string cval :=
        list_to_map
          (omap (fun p => pair (fst p) <$> (config !! snd p))
             [("api_key", "azure_openai_key");
              ("deployment_name", "azure_openai_gpt_deployment");
              ("endpoint", "azure_openai_endpoint");
              ("api_version", "azure_openai_chat_completions_api_version")]) in
      match add_service service_params with
      | Some msg => RuntimeError ("Azure OpenAI initialization failed: " +:+ msg)
      | None =>
          match add_plugin with
          | inl msg => RuntimeError ("Plugin initialization failed: " +:+ msg)
          | inr names =>
              if negb (contains_name "Bug" names) then
                RuntimeError ("Plugin initialization failed: "
                              +:+ "Bug function not found in ReleaseNotes plugin")
              else if negb (contains_name "Issue" names) then
                RuntimeError ("Plugin initialization failed: "
                              +:+ "Issue function not found in ReleaseNotes plugin")
              else if negb (contains_name "Epic" names) then
                RuntimeError ("Plugin initialization failed: "
                              +:+ "Epic function not found in ReleaseNotes plugin")
              else Initialised config
          end
      end
  end.

(** The keys the adjustment may write or delete. *)
Definition adjusted_keys : list string :=
  ["azure_openai_chat_completions_api_version"; "max_tokens";
   "max_completion_tokens"; "temperature"].

Definition is_o4_mini (config : gmap string cval) : bool :=
  match config !! "azure_openai_gpt_deployment" with
  | Some v => equals_str "o4-mini" v
  | None => false
  end.

Lemma adjust_unfold config :
  _adjust_config_for_model config =
  if is_o4_mini config then
    let c1 := match config !! "azure_openai_chat_completions_api_version" with
              | Some v =>
                  if equals_str preview_version v then config
                  else <["azure_openai_chat_completions_api_version" :=
                           CVal (VStr preview_version)]> config
              | None =>
                  <["azure_openai_chat_completions_api_version" :=
                      CVal (VStr preview_version)]> config
              end in
    let c2 := match c1 !! "max_tokens" with
              | Some v => <["max_completion_tokens" := v]> (delete "max_tokens" c1)
              | None => c1
              end in
    match c2 !! "temperature" with
    | Some v => if negb (equals_one v) then <["temperature" := CFloat one]> c2 else c2
    | None => c2
    end
  else config.
Proof.
  unfold _adjust_config_for_model, is_o4_mini.
  destruct (config !! "azure_openai_gpt_deployment"); reflexivity.
Qed.

Lemma equals_one_one : equals_one (CFloat one) = true.
Proof. simpl. now apply bool_decide_eq_true. Qed.

Lemma equals_str_refl s : equals_str s (CVal (VStr s)) = true.
Proof. simpl. apply String.eqb_refl. Qed.

(** What the adjustment leaves behind for the o4-mini deployment. *)
Lemma adjust_o4_mini config :
  is_o4_mini config = true ->
  let config' := _adjust_config_for_model config in
  is_o4_mini config' = true /\
  config' !! "azure_openai_chat_completions_api_version"
  = Some (CVal (VStr preview_version)) /\
  config' !! "max_tokens" = None /\
  (forall v, config' !! "temperature" = Some v -> equals_one v = true) /\
  config' !! "max_completion_tokens"
  = match config !! "max_tokens" with
    | Some v => Some v
    | None => config !! "max_completion_tokens"
    end.
Proof.
  intros Ho. cbv zeta. rewrite adjust_unfold, Ho. cbv zeta.
  unfold is_o4_mini in *.
  set (c1 := match config !! "azure_openai_chat_completions_api_version" with
             | Some v => if equals_str preview_version v then config else _
             | None => _
             end).
  assert (c1 !! "azure_openai_chat_completions_api_version"
          = Some (CVal (VStr preview_version)) /\
          forall k, k <> "azure_openai_chat_completions_api_version" ->
                    c1 !! k = config !! k) as [H1 F1].
  { subst c1.
    destruct (config !! "azure_openai_chat_completions_api_version") as [v|] eqn:E.
    - destruct (equals_str preview_version v) eqn:Ev.
      + split; [|reflexivity]. rewrite E. f_equal.
        destruct v as [[ | | |x| | ]|]; try discriminate.
        simpl in Ev. apply String.eqb_eq in Ev. now subst.
      + split; [apply lookup_insert_eq | intros k Hk; now apply lookup_insert_ne].
    - split; [apply lookup_insert_eq | intros k Hk; now apply lookup_insert_ne]. }
  clearbody c1.
  set (c2 := match c1 !! "max_tokens" with
             | Some v => _
             | None => c1
             end).
  assert (c2 !! "max_tokens" = None /\
          c2 !! "max_completion_tokens"
          = match c1 !! "max_tokens" with
            | Some v => Some v
            | None => c1 !! "max_completion_tokens"
            end /\
          forall k, k <> "max_tokens" -> k <> "max_completion_tokens" ->
                    c2 !! k = c1 !! k) as (H2 & H2' & F2).
  { subst c2. destruct (c1 !! "max_tokens") as [v|] eqn:E.
    - split; [|split].
      + rewrite lookup_insert_ne by discriminate. apply lookup_delete_eq.
      + apply lookup_insert_eq.
      + intros k Hk Hk'. rewrite lookup_insert_ne by congruence.
        apply lookup_delete_ne. congruence.
    - auto. }
  clearbody c2.
  rewrite (F1 "max_tokens"), (F1 "max_completion_tokens") in H2' by discriminate.
  assert (forall c3 : gmap string cval,
             (forall k, k <> "temperature" -> c3 !! k = c2 !! k) ->
             (forall v, c3 !! "temperature" = Some v -> equals_one v = true) ->
             match c3 !! "azure_openai_gpt_deployment" with
             | Some v => equals_str "o4-mini" v
             | None => false
             end = true /\
             c3 !! "azure_openai_chat_completions_api_version"
             = Some (CVal (VStr preview_version)) /\
             c3 !! "max_tokens" = None /\
             (forall v, c3 !! "temperature" = Some v -> equals_one v = true) /\
             c3 !! "max_completion_tokens"
             = match config !! "max_tokens" with
               | Some v => Some v
               | None => config !! "max_completion_tokens"
               end) as Hfin.
  { intros c3 F3 T3.
    rewrite (F3 "azure_openai_gpt_deployment"), (F3 "max_tokens"),
      (F3 "azure_openai_chat_completions_api_version"), (F3 "max_completion_tokens")
      by discriminate.
    rewrite H2, H2'.
    rewrite (F2 "azure_openai_gpt_deployment"),
      (F2 "azure_openai_chat_completions_api_version") by discriminate.
    rewrite H1, (F1 "azure_openai_gpt_deployment") by discriminate. auto. }
  destruct (c2 !! "temperature") as [v|] eqn:E.
  - destruct (equals_one v) eqn:Ev; cbn [negb].
    + apply Hfin; [reflexivity|]. intros v' Hv'. congruence.
    + apply Hfin; [intros k Hk; now apply lookup_insert_ne|].
      intros v'. rewrite lookup_insert_eq. intros [= <-]. apply equals_one_one.
  - apply Hfin; [reflexivity|]. intros v' Hv'. congruence.
Qed.

(** X15.  Adjusting twice is adjusting once: the constructor can be given a
    configuration that an earlier constructor has already adjusted. *)
Theorem adjust_is_idempotent (config : gmap string cval) :
  _adjust_config_for_model (_adjust_config_for_model config)
  = _adjust_config_for_model config.
Proof.
  destruct (is_o4_mini config) eqn:Ho.
  2:{ rewrite (adjust_unfold config), Ho. rewrite adjust_unfold, Ho. reflexivity. }
  destruct (adjust_o4_mini config Ho) as (Ho' & Hv & Hm & Ht & _).
  set (config' := _adjust_config_for_model config) in *.
  rewrite adjust_unfold, Ho'. cbv zeta.
  rewrite Hv, equals_str_refl, Hm.
  destruct (config' !! "temperature") as [v|] eqn:E; [|reflexivity].
  now rewrite (Ht v eq_refl).
Qed.

(** X16.  For the o4-mini deployment the adjusted configuration has the preview
    API version, no [max_tokens] entry, and a temperature equal to 1.0 if it
    has one; a token limit is not lost, it is found under
    [max_completion_tokens]. *)
Theorem adjust_for_o4_mini (config : gmap string cval) (limit : cval) :
  config !! "azure_openai_gpt_deployment" = Some (CVal (VStr "o4-mini")) ->
  config !! "max_tokens" = Some limit ->
  let config' := _adjust_config_for_model config in
  config' !! "azure_openai_chat_completions_api_version"
  = Some (CVal (VStr preview_version)) /\
  config' !! "max_tokens" = None /\
  config' !! "max_completion_tokens" = Some limit /\
  (forall v, config' !! "temperature" = Some v -> equals_one v = true).
Proof.
  intros Hd Hl.
  assert (is_o4_mini config = true) as Ho by (unfold is_o4_mini; now rewrite Hd).
  destruct (adjust_o4_mini config Ho) as (_ & Hv & Hm & Ht & Hc).
  rewrite Hl in Hc. auto.
Qed.

Lemma adjust_frame (config : gmap string cval) (k : string) :
  k <> "azure_openai_chat_completions_api_version" -> k <> "max_tokens" ->
  k <> "max_completion_tokens" -> k <> "temperature" ->
  _adjust_config_for_model config !! k = config !! k.
Proof.
  intros K1 K2 K3 K4.
  rewrite adjust_unfold. destruct (is_o4_mini config); [|reflexivity]. cbv zeta.
  repeat match goal with
         | |- context [match ?x with _ => _ end] =>
             lazymatch x with
             | context [match _ with _ => _ end] => fail
             | _ => destruct x
             end
         end;
    repeat first [ rewrite lookup_insert_ne by (intros ?; subst; contradiction)
                 | rewrite lookup_delete_ne by (intros ?; subst; contradiction) ];
    reflexivity.
Qed.

(** A configuration that has the four required settings still has them
    after the adjustment. *)
Lemma adjust_keeps_required_settings (config : gmap string cval) :
  first_missing config azure_config_keys = None ->
  first_missing (_adjust_config_for_model config) azure_config_keys = None.
Proof.
  unfold azure_config_keys, first_missing.
  rewrite !adjust_frame by discriminate.
  destruct (config !! "azure_openai_key") as [v1|]; [|discriminate].
  destruct (ctruthy v1); [|discriminate].
  destruct (config !! "azure_openai_gpt_deployment") as [v2|] eqn:E2; [|discriminate].
  destruct (ctruthy v2); [|discriminate].
  destruct (config !! "azure_openai_endpoint") as [v3|]; [|discriminate].
  destruct (ctruthy v3); [|discriminate].
  destruct (is_o4_mini config) eqn:Ho.
  - destruct (adjust_o4_mini config Ho) as (_ & -> & _). reflexivity.
  - now rewrite (adjust_unfold config), Ho.
Qed.

(** X17.  The adjustment changes nothing for another deployment, and for o4-mini
    it touches the API version, the two token limits and the temperature
    only: credentials, endpoint and every other setting stay as they are. *)
Theorem adjust_touches_four_keys_only (config : gmap string cval) :
  (is_o4_mini config = false -> _adjust_config_for_model config = config) /\
  (forall k, k ∉ adjusted_keys ->
             _adjust_config_for_model config !! k = config !! k).
Proof.
  split.
  - intros Ho. now rewrite adjust_unfold, Ho.
  - intros k Hk. unfold adjusted_keys in Hk.
    apply adjust_frame; intros ->; apply Hk;
      repeat first [apply list_elem_of_here | apply list_elem_of_further].
Qed.

(** X18.  With the o4-mini deployment the constructor never fails for a missing
    API version: whatever the configuration says about the version, the
    check of the required settings passes as soon as key and endpoint are
    set, and a failure of the constructor comes from the service or the
    plugin. *)
Theorem o4_mini_needs_no_api_version (config : gmap string cval) (key endpoint : cval) :
  config !! "azure_openai_gpt_deployment" = Some (CVal (VStr "o4-mini")) ->
  config !! "azure_openai_key" = Some key -> ctruthy key = true ->
  config !! "azure_openai_endpoint" = Some endpoint -> ctruthy endpoint = true ->
  first_missing (_adjust_config_for_model config) azure_config_keys = None /\
  (add_service
     (list_to_map
        [("api_key", key); ("deployment_name", CVal (VStr "o4-mini"));
         ("endpoint", endpoint); ("api_version", CVal (VStr preview_version))])
   = None ->
   forall names, add_plugin = inr names ->
     contains_name "Bug" names = true -> contains_name "Issue" names = true ->
     contains_name "Epic" names = true ->
     init config = Initialised (_adjust_config_for_model config)).
Proof.
  intros Hd Hk Tk He Te.
  assert (is_o4_mini config = true) as Ho by (unfold is_o4_mini; now rewrite Hd).
  destruct (adjust_o4_mini config Ho) as (_ & Hv & _).
  assert (first_missing (_adjust_config_for_model config) azure_config_keys = None) as Hm.
  { unfold azure_config_keys, first_missing.
    rewrite !adjust_frame by discriminate. rewrite Hk, Tk, Hd, He, Te, Hv. reflexivity. }
  split; [exact Hm|].
  intros Hs names Hp Hb Hi Hep. unfold init. rewrite Hm. cbv zeta. cbn [omap list_omap fst snd].
  rewrite !adjust_frame by discriminate. rewrite Hk, Hd, He, Hv.
  cbn [fmap option_fmap option_map].
  rewrite Hs, Hp, Hb, Hi, Hep. reflexivity.
Qed.

End WithFloats.

End Setup.

(* ===================================================================== *)
(** ** [src/config/app_config.py]: the configuration of a request *)
(* ===================================================================== *)

Module AppConfig.

Import Enricher.

Section WithEnvironment.

(** [os.environ], after the [.env] file has been loaded. *)
Variable environ : gmap string string.

(** [int(s)] for a string: [None] when it raises [ValueError]. *)
Variable py_int : string -> option Z.

(** [os.getenv(var)] *)
Definition getenv (var : string) : pyval :=
  match environ !! var with Some s => VStr s | None => VNone end.

(** [os.getenv(var, default)] with a string default *)
Definition getenv_default (var default : string) : string :=
  match environ !! var with Some s => s | None => default end.

(** [os.getenv(var, default).lower() == "true"] *)
Definition flag (var default : string) : pyval :=
  VBool (String.eqb (Py.lower (getenv_default var default)) "true").

Definition DEFAULT_MAX_RESULTS : Z := 2.

Definition REQUIRED_ENV_VARS : list string :=
  ["AZURE_OPENAI_KEY"; "AZURE_OPENAI_CHAT_COMPLETIONS_API_VERSION";
   "AZURE_OPENAI_GPT_DEPLOYMENT"; "AZURE_OPENAI_ENDPOINT";
   "ATLASSIAN_URL"; "ATLASSIAN_USERNAME"; "ATLASSIAN_API_KEY"].

(** [[var for var in self.REQUIRED_ENV_VARS if not os.getenv(var)]] *)
Definition missing_vars : list string :=
  List.filter (fun var => negb (truthy (getenv var))) REQUIRED_ENV_VARS.

(** [_validate_env_vars()]: the variables named by the
    [ConfigurationError], when it is raised. *)
Definition _validate_env_vars : option (list string) :=
  match missing_vars with
  | [] => None
  | _ :: _ => Some missing_vars
  end.

(** [is_production()] *)
Definition is_production : bool :=
  String.eqb (Py.lower (getenv_default "ENVIRONMENT" "development")) "production".

(** [int(os.getenv("MAX_RESULTS", self.DEFAULT_MAX_RESULTS))] *)
Definition max_results_setting : option Z :=
  match environ !! "MAX_RESULTS" with
  | Some s => py_int s
  | None => Some DEFAULT_MAX_RESULTS
  end.

(** The dictionary that [_get_base_config] builds, for the value of
    [max_results] it has computed. *)
Definition base_settings (jql issuetype : string) (max_results : Z)
  : gmap string pyval :=
  list_to_map
    [("jql", VStr jql);
     ("issue_type", VStr issuetype);
     ("max_results", VInt max_results);
     (* Jira configuration *)
     ("jira_username", getenv "ATLASSIAN_USERNAME");
     ("jira_api_key", getenv "ATLASSIAN_API_KEY");
     ("jira_url", getenv "ATLASSIAN_URL");
     (* Azure OpenAI configuration *)
     ("azure_openai_key", getenv "AZURE_OPENAI_KEY");
     ("azure_openai_endpoint", getenv "AZURE_OPENAI_ENDPOINT");
     ("azure_openai_chat_completions_api_version",
      getenv "AZURE_OPENAI_CHAT_COMPLETIONS_API_VERSION");
     ("azure_openai_gpt_deployment", getenv "AZURE_OPENAI_GPT_DEPLOYMENT");
     (* Output settings *)
     ("create_local_files", flag "CREATE_LOCAL_FILES" "True");
     ("ssl_verify", flag "SSL_VERIFY" "False");
     (* Confluence settings if available *)
     ("create_confluence_pages", flag "CREATE_CONFLUENCE_PAGES" "False");
     ("confluence_space_key",
      py_or (getenv "CONFLUENCE_SPACE_KEY") (getenv "CONFLUENCE_SPACE"));
     ("confluence_space",
      py_or (getenv "CONFLUENCE_SPACE") (getenv "CONFLUENCE_SPACE_KEY"));
     ("confluence_parent_page_id",
      py_or (getenv "CONFLUENCE_PARENT_PAGE_ID") (getenv "CONFLUENCE_PARENT_ID"));
     ("confluence_parent_id",
      py_or (getenv "CONFLUENCE_PARENT_ID") (getenv "CONFLUENCE_PARENT_PAGE_ID"));
     ("confluence_base_url",
      py_or (getenv "CONFLUENCE_BASE_URL") (getenv "ATLASSIAN_URL"));
     ("confluence_url",
      py_or (getenv "CONFLUENCE_URL") (getenv "ATLASSIAN_URL"))].

(** [_get_base_config(jql, issuetype)]: [None] when [int] raises
    [ValueError] on the value of [MAX_RESULTS]. *)
Definition _get_base_config (jql issuetype : string) : option (gmap string pyval) :=
  max_results ← max_results_setting;
  Some (base_settings jql issuetype max_results).

(** [get_enricher_config(jql, issuetype)] *)
Definition get_enricher_config (jql issuetype : string)
  : option (gmap string pyval) :=
  _get_base_config jql issuetype.

(** [for key, value in options.items(): config[key] = value] *)
Fixpoint override (options : list (string * pyval)) (config : gmap string pyval)
  : gmap string pyval :=
  match options with
  | [] => config
  | (key, value) :: rest => override rest (<[key := value]> config)
  end.

(** [get_enricher_config_with_options(jql, issuetype, **options)]; the
    keyword arguments are given in their order. *)
Definition get_enricher_config_with_options (jql issuetype : string)
    (options : list (string * pyval)) : option (gmap string pyval) :=
  config ← _get_base_config jql issuetype;
  Some (override options config).

(** A validated environment gives each required variable a non-empty
    value. *)
Lemma validated_getenv :
  _validate_env_vars = None ->
  forall var, In var REQUIRED_ENV_VARS -> truthy (getenv var) = true.
Proof.
  unfold _validate_env_vars, missing_vars, REQUIRED_ENV_VARS. intros H var Hin.
  cbn [List.filter] in H.
  repeat match type of H with
         | context [negb (truthy (getenv ?v))] =>
             destruct (truthy (getenv v)) eqn:?; cbn [negb] in H
         end; try discriminate.
  cbn [In] in Hin.
  repeat match goal with H : _ \/ _ |- _ => destruct H end;
    subst; try assumption; contradiction.
Qed.

Lemma base_config_is_settings jql issuetype config :
  _get_base_config jql issuetype = Some config ->
  exists max_results, config = base_settings jql issuetype max_results.
Proof.
  unfold _get_base_config. destruct max_results_setting as [m|]; [|discriminate].
  intros [= <-]. eauto.
Qed.

(** X19.  The configuration of a request never says which files to save, where
    to save them or, under the key the enricher reads, which issue type is
    asked for: the type of the request is stored under [issue_type].  So
    the local-file block of the enricher saves one JSON file and nothing
    else, and it works with its default issue type [Issue]. *)
Theorem request_config_saves_json_only jql issuetype config :
  _get_base_config jql issuetype = Some config ->
  (forall parsed, BatchFacts.expected_saves config parsed = [("json", parsed)]) /\
  dict_get config "jira_issue_type" (VStr "Issue") = VStr "Issue" /\
  dict_get config "file_path" VNone = VNone /\
  config !! "issue_type" = Some (VStr issuetype).
Proof.
  intros H. destruct (base_config_is_settings _ _ _ H) as [m ->].
  split; [intros parsed; reflexivity|]. split; [reflexivity|].
  split; reflexivity.
Qed.

(** X20.  What the fetch reads by subscript is always there, as given by the
    request and the environment. *)
Theorem request_config_has_the_fetch_settings jql issuetype config :
  _validate_env_vars = None ->
  _get_base_config jql issuetype = Some config ->
  config !! "jql" = Some (VStr jql) /\
  (exists n, config !! "max_results" = Some (VInt n)) /\
  (forall k, In k ["jira_username"; "jira_api_key"; "jira_url"] ->
             exists s, config !! k = Some (VStr s) /\ s <> "").
Proof.
  intros Hv H. destruct (base_config_is_settings _ _ _ H) as [m ->].
  split; [reflexivity|]. split; [exists m; reflexivity|].
  assert (forall var, In var REQUIRED_ENV_VARS ->
                      exists s, getenv var = VStr s /\ s <> "") as Henv.
  { intros var Hin. pose proof (validated_getenv Hv var Hin) as Ht.
    unfold getenv in *. destruct (environ !! var) as [s|]; [|discriminate].
    exists s. split; [reflexivity|]. intros ->. discriminate. }
  intros k Hk. cbn [In] in Hk.
  destruct Hk as [<- | [<- | [<- | []]]].
  - destruct (Henv "ATLASSIAN_USERNAME") as (s & Hs & Hne);
      [unfold REQUIRED_ENV_VARS; cbn [In]; tauto|].
    exists s. split; [|exact Hne]. rewrite <- Hs. reflexivity.
  - destruct (Henv "ATLASSIAN_API_KEY") as (s & Hs & Hne);
      [unfold REQUIRED_ENV_VARS; cbn [In]; tauto|].
    exists s. split; [|exact Hne]. rewrite <- Hs. reflexivity.
  - destruct (Henv "ATLASSIAN_URL") as (s & Hs & Hne);
      [unfold REQUIRED_ENV_VARS; cbn [In]; tauto|].
    exists s. split; [|exact Hne]. rewrite <- Hs. reflexivity.
Qed.

(** X21.  A configuration built from a validated environment passes the check
    of the required Azure settings in the constructor of [JiraEnricher],
    also after the adjustment for the model. *)
Theorem validated_environment_passes_the_constructor_check
    {F : Type} `{EqDecision F} (one : F) (float_truthy : F -> bool)
    jql issuetype config :
  _validate_env_vars = None ->
  _get_base_config jql issuetype = Some config ->
  Setup.first_missing float_truthy
    (Setup._adjust_config_for_model one (Setup.CVal <$> config))
    Setup.azure_config_keys = None.
Proof.
  intros Hv H. destruct (base_config_is_settings _ _ _ H) as [m ->].
  apply Setup.adjust_keeps_required_settings.
  unfold Setup.azure_config_keys, Setup.first_missing. rewrite !lookup_fmap.
  set (settings := base_settings jql issuetype m).
  assert (settings !! "azure_openai_key" = Some (getenv "AZURE_OPENAI_KEY")) as ->
    by reflexivity.
  assert (settings !! "azure_openai_gpt_deployment"
          = Some (getenv "AZURE_OPENAI_GPT_DEPLOYMENT")) as -> by reflexivity.
  assert (settings !! "azure_openai_endpoint"
          = Some (getenv "AZURE_OPENAI_ENDPOINT")) as -> by reflexivity.
  assert (settings !! "azure_openai_chat_completions_api_version"
          = Some (getenv "AZURE_OPENAI_CHAT_COMPLETIONS_API_VERSION")) as ->
    by reflexivity.
  cbn [fmap option_fmap option_map Setup.ctruthy].
  rewrite !(validated_getenv Hv) by (unfold REQUIRED_ENV_VARS; cbn [In]; tauto).
  reflexivity.
Qed.

End WithEnvironment.

End AppConfig.

(* ===================================================================== *)
(** ** [function_blueprints/release_notes_blueprint.py]: the HTTP routes *)
(* ===================================================================== *)

Module Blueprint.

Import Enricher.

(** The class [[A-Za-z0-9_]] *)
Definition is_key_char (c : ascii) : bool :=
  let n := nat_of_ascii c in
  ((65 <=? n) && (n <=? 90)) || ((97 <=? n) && (n <=? 122))
  || ((48 <=? n) && (n <=? 57)) || (n =? 95).

Definition line_feed : string := String "010"%char EmptyString.

(** [re.match(r'^[A-Za-z0-9_]+$', proj)] as a truth value: one or more
    characters of the class, then the end of the string; without the
    MULTILINE flag [$] also matches just before a newline that ends the
    string. *)
Definition match_project_key (proj : string) : bool :=
  let k := Py.span is_key_char proj in
  let rest := Py.drop k proj in
  (0 <? k) && (String.eqb rest "" || String.eqb rest line_feed).

Definition valid_issue_types : list string := ["Bug"; "Issue"; "Epic"; "Comp"].

(** [validate_input(proj, fixver, issuetype)] *)
Definition validate_input (proj fixver issuetype : string) : bool * list string :=
  let errors := [] in
  let errors :=
    if negb (match_project_key proj)
    then errors ++ ["Invalid project key format"] else errors in
  let errors :=
    if String.eqb fixver ""
    then errors ++ ["Fix version cannot be empty"] else errors in
  let errors :=
    if negb (existsb (String.eqb issuetype) valid_issue_types)
    then errors ++ ["Issue type must be one of: Bug, Issue, Epic, Comp"]
    else errors in
  match errors with
  | [] => (true, [])
  | _ :: _ => (false, errors)
  end.

(** The JSON body of a response: the error bodies with a list of messages
    or one message, the success body of [release_notes_handler] (its
    [processingTime] is a clock reading and is left out), and the bare
    success body of the route with a limit. *)
Inductive body :=
| ErrorList (message : list string)
| Error (message : string)
| Success (project fixVersion issueType : string) (details : list detail + string)
| SuccessOnly.

Record HttpResponse := mk_response {
  status_code : nat;
  response_body : body
}.

Definition build_jql (proj fixver issuetype : string) : string :=
  "project = " +:+ proj +:+ " AND fixversion = " +:+ fixver
  +:+ " AND issuetype = " +:+ issuetype.

Section WithServices.

Variable environ : gmap string string.
Variable py_int : string -> option Z.

(** [JiraEnricher(config)]: the message of the [RuntimeError] the
    constructor raises, if it raises. *)
Variable new_enricher : gmap string pyval -> option string.

(** [enricher.fetch_and_analyze_issues()] for the enricher built on a
    configuration, run to its end. *)
Variable run_fetch : gmap string pyval -> result (option status_result).

(** Whether the 300 seconds of [asyncio.wait_for] pass before the run on a
    configuration ends. *)
Variable deadline_passed : gmap string pyval -> bool.

Definition timeout_message : string :=
  "Processing timed out after 300 seconds. Please try with fewer issues.".

(** [process_with_timeout(config)].  The first [except] clause replaces an
    [asyncio.TimeoutError] by a built-in [TimeoutError] with the message
    above; the other clauses raise the exception they caught.  The class
    [TimeoutError] stands for [asyncio.TimeoutError] in what the run raises
    and for the built-in class in what this function raises. *)
Definition process_with_timeout (config : gmap string pyval)
  : result (option status_result) :=
  (* Ensure correct API version for o4-mini model *)
  let config :=
    if is_str "o4-mini" (dict_get config "azure_openai_gpt_deployment" VNone)
       && negb (is_str "2024-12-01-preview"
                  (dict_get config "azure_openai_chat_completions_api_version" VNone))
    then <["azure_openai_chat_completions_api_version" := VStr "2024-12-01-preview"]>
           config
    else config in
  match new_enricher config with
  | Some msg => Raise (exn_of OtherException msg)
  | None =>
      if deadline_passed config then Raise (exn_of TimeoutError timeout_message)
      else
        match run_fetch config with
        | Raise e =>
            match e_class e with
            | TimeoutError => Raise (exn_of TimeoutError timeout_message)
            | _ => Raise e
            end
        | r => r
        end
  end.

(** The four [except] clauses of the two handlers, in their order. *)
Definition error_response (e : py_exn) : HttpResponse :=
  match e_class e with
  | HttpUnauthorizedError =>
      {| status_code := 401; response_body := Error "Unauthorized" |}
  | TimeoutError =>
      {| status_code := 504; response_body := Error (message e) |}
  | JiraFetchError =>
      {| status_code := 502; response_body := Error ("Jira API error: " +:+ message e) |}
  | _ =>
      {| status_code := 500; response_body := Error "Internal Server Error" |}
  end.

(** [Config()] and [get_enricher_config...]: both are called outside the
    [try] statement, so a [ConfigurationError] of the first and a
    [ValueError] of the second leave the handler. *)
Definition configure (get : option (gmap string pyval))
  : M unit (gmap string pyval) :=
  match AppConfig._validate_env_vars environ with
  | Some missing =>
      raise (exn_of OtherException
               ("Missing required environment variables: "
                +:+ String.concat ", " missing))
  | None =>
      match get with
      | None => raise (exn_of ValueError "invalid literal for int() with base 10")
      | Some config => ret config
      end
  end.

(** [release_notes_handler(req)] on the route parameters of the request. *)
Definition release_notes_handler (proj fixver issuetype : string)
  : M unit HttpResponse :=
  (* Validate input parameters *)
  let (valid, errors) := validate_input proj fixver issuetype in
  if negb valid then
    ret {| status_code := 400; response_body := ErrorList errors |}
  else
    let jql := build_jql proj fixver issuetype in
    config <- configure (AppConfig.get_enricher_config environ py_int jql issuetype) ;;
    match process_with_timeout config with
    | Ok result =>
        let details :=
          match result with
          | Some result =>
              match details result with
              | [] => inr ("Successfully processed request for " +:+ proj +:+ "/"
                           +:+ fixver +:+ "/" +:+ issuetype)
              | ds => inl ds
              end
          | None => inr ("Successfully processed request for " +:+ proj +:+ "/"
                         +:+ fixver +:+ "/" +:+ issuetype)
          end in
        ret {| status_code := 200;
               response_body := Success proj fixver issuetype details |}
    | Raise e => ret (error_response e)
    | OutOfFuel => out_of_fuel
    end.

(** [release_notes_with_limit_handler(req)] *)
Definition release_notes_with_limit_handler
    (proj fixver issuetype max_results_str : string) : M unit HttpResponse :=
  match py_int max_results_str with
  | None =>
      ret {| status_code := 400;
             response_body :=
               Error ("Invalid max_results value: " +:+ max_results_str
                      +:+ ". Must be an integer.") |}
  | Some max_results =>
      (* Validate input parameters *)
      let (valid, errors) := validate_input proj fixver issuetype in
      if negb valid then
        ret {| status_code := 400; response_body := ErrorList errors |}
      (* Validate max_results *)
      else if (max_results <=? 0)%Z || (1000 <? max_results)%Z then
        ret {| status_code := 400;
               response_body := Error "max_results must be between 1 and 1000" |}
      else
        let jql := build_jql proj fixver issuetype in
        config <- configure
                    (AppConfig.get_enricher_config_with_options environ py_int jql
                       issuetype [("max_results", VInt max_results)]) ;;
        match process_with_timeout config with
        | Ok result => ret {| status_code := 200; response_body := SuccessOnly |}
        | Raise e => ret (error_response e)
        | OutOfFuel => out_of_fuel
        end
  end.

End WithServices.

(** *** The input checks *)

Lemma span_all (p : ascii -> bool) (w : string) :
  ExtractorProps.all_chars p w = true -> Py.span p w = String.length w.
Proof.
  induction w as [|c w IH]; simpl; [reflexivity|].
  intros H. apply andb_prop in H as [-> Hw]. now rewrite IH.
Qed.

Lemma span_app_stop (p : ascii -> bool) (w r : string) :
  ExtractorProps.all_chars p w = true ->
  (r = "" \/ exists c r', r = String c r' /\ p c = false) ->
  Py.span p (w +:+ r) = String.length w.
Proof.
  intros Hw Hr. induction w as [|c w IH]; simpl in *.
  - destruct Hr as [-> | (c & r' & -> & Hc)]; simpl; [reflexivity | now rewrite Hc].
  - apply andb_prop in Hw as [-> Hw]. now rewrite IH.
Qed.

(** X22.  The project keys that pass: one or more characters among the ASCII
    letters, the digits and the underscore, possibly followed by one
    newline, which the check lets through. *)
Theorem accepted_project_keys (proj : string) :
  match_project_key proj = true <->
  exists w, w <> "" /\ ExtractorProps.all_chars is_key_char w = true /\
            (proj = w \/ proj = w +:+ line_feed).
Proof.
  unfold match_project_key. split.
  - intros H. apply andb_prop in H as [Hk Hrest].
    destruct (ExtractorProps.drop_span_split is_key_char proj) as (w & Hw & Hl & Ha).
    exists w. split; [|split; [exact Ha|]].
    + intros ->. simpl in Hl. rewrite <- Hl in Hk. discriminate.
    + apply orb_prop in Hrest as [Hr | Hr]; apply String.eqb_eq in Hr;
        rewrite Hr in Hw; [left | right]; [|exact Hw].
      now rewrite StringFacts.append_empty_r in Hw.
  - intros (w & Hne & Ha & [-> | ->]).
    + rewrite (span_all _ _ Ha).
      replace (Py.drop (String.length w) w) with "".
      * destruct w; [contradiction | reflexivity].
      * rewrite <- (StringFacts.append_empty_r w) at 2.
        symmetry. apply ExtractorProps.drop_app.
    + rewrite span_app_stop; [| exact Ha | right; exists "010"%char, ""; auto].
      rewrite ExtractorProps.drop_app.
      destruct w; [contradiction | reflexivity].
Qed.

(** X23.  [validate_input] accepts exactly when it has no message, and each of
    its three messages tells one failed check: the project key, the empty
    fix version, the issue type outside Bug, Issue, Epic and Comp.  The fix
    version is not looked at beyond being non-empty. *)
Theorem validate_input_messages (proj fixver issuetype : string) :
  let valid := fst (validate_input proj fixver issuetype) in
  let errors := snd (validate_input proj fixver issuetype) in
  (valid = true <-> errors = []) /\
  (In "Invalid project key format" errors <-> match_project_key proj = false) /\
  (In "Fix version cannot be empty" errors <-> fixver = "") /\
  (In "Issue type must be one of: Bug, Issue, Epic, Comp" errors
   <-> ~ In issuetype valid_issue_types) /\
  (valid = true <->
   match_project_key proj = true /\ fixver <> "" /\ In issuetype valid_issue_types).
Proof.
  cbv zeta. unfold validate_input.
  assert (existsb (String.eqb issuetype) valid_issue_types = true
          <-> In issuetype valid_issue_types) as Ht.
  { rewrite existsb_exists. split.
    - intros (x & Hin & Hx). apply String.eqb_eq in Hx. now subst.
    - intros Hin. exists issuetype. split; [exact Hin | apply String.eqb_refl]. }
  destruct (match_project_key proj); destruct (String.eqb_spec fixver "") as [Hf|Hf];
    destruct (existsb (String.eqb issuetype) valid_issue_types);
    cbn [negb app fst snd In];
    repeat split; try tauto; try congruence; try discriminate;
    try (intros [? | ?]; try discriminate; try tauto);
    try (intros ?; exfalso; intuition congruence);
    intuition (try discriminate; try congruence; auto).
Qed.

(** *** The routes on top of the batch coordinator *)

Section Pipeline.

Variable environ : gmap string string.
Variable py_int : string -> option Z.
Variable new_enricher : gmap string pyval -> option string.
Variable deadline_passed : gmap string pyval -> bool.
Variable json_loads : string -> bool.
Variable schema_init : schema -> gmap string pyval -> option analysis.
Variable model_validate_json : schema -> string -> option analysis.
Variable kernel_invoke :
  string -> gmap string pyval -> nat -> gmap string pyval -> invoke_outcome.
Variable py_repr : pyval -> string.
Variable jira_wrapper_new : option py_exn.
Variable jira_search_parse : pyval -> pyval -> py_exn + list (gmap string pyval).
Variable debug_enabled : bool.
Variable format_issue : gmap string pyval -> gmap string pyval -> string.
Variable page_create : pyval -> string -> string -> pyval -> page_response.

(** The run of the enricher built on [config], from an empty trace; the
    enricher reads [CONFLUENCE_PARENT_ID] from the same environment. *)
Definition run_batch (config : gmap string pyval) : result (option status_result) :=
  fst (fetch_and_analyze_issues json_loads config schema_init model_validate_json
         kernel_invoke py_repr jira_wrapper_new jira_search_parse debug_enabled
         format_issue (environ !! "CONFLUENCE_PARENT_ID") page_create []).

#[local] Abbreviation process :=
  (process_with_timeout new_enricher run_batch deadline_passed).
#[local] Abbreviation handler :=
  (release_notes_handler environ py_int new_enricher run_batch deadline_passed).
#[local] Abbreviation limit_handler :=
  (release_notes_with_limit_handler environ py_int new_enricher run_batch
     deadline_passed).

(** The configuration after the correction of the API version. *)
Definition corrected (config : gmap string pyval) : gmap string pyval :=
  if is_str "o4-mini" (dict_get config "azure_openai_gpt_deployment" VNone)
     && negb (is_str "2024-12-01-preview"
                (dict_get config "azure_openai_chat_completions_api_version" VNone))
  then <["azure_openai_chat_completions_api_version" := VStr "2024-12-01-preview"]>
         config
  else config.

Lemma corrected_lookup config k :
  k <> "azure_openai_chat_completions_api_version" ->
  corrected config !! k = config !! k.
Proof.
  intros Hk. unfold corrected. destruct (_ && _); [|reflexivity].
  now apply lookup_insert_ne.
Qed.

(** A run that is not cut short: the enricher is built and the deadline
    does not pass. *)
Lemma process_runs config :
  (forall c, new_enricher c = None) -> (forall c, deadline_passed c = false) ->
  process config =
  match run_batch (corrected config) with
  | Raise e =>
      match e_class e with
      | TimeoutError => Raise (exn_of TimeoutError timeout_message)
      | _ => Raise e
      end
  | r => r
  end.
Proof.
  intros Hn Hd. unfold process_with_timeout. fold (corrected config).
  now rewrite Hn, Hd.
Qed.

Lemma handler_runs proj fixver issuetype config :
  fst (validate_input proj fixver issuetype) = true ->
  AppConfig._validate_env_vars environ = None ->
  AppConfig._get_base_config environ py_int (build_jql proj fixver issuetype) issuetype
  = Some config ->
  handler proj fixver issuetype tt =
  match process config with
  | Ok result =>
      (Ok {| status_code := 200;
             response_body :=
               Success proj fixver issuetype
                 match result with
                 | Some result =>
                     match details result with
                     | [] => inr ("Successfully processed request for " +:+ proj +:+ "/"
                                  +:+ fixver +:+ "/" +:+ issuetype)
                     | ds => inl ds
                     end
                 | None => inr ("Successfully processed request for " +:+ proj +:+ "/"
                                +:+ fixver +:+ "/" +:+ issuetype)
                 end |}, tt)
  | Raise e => (Ok (error_response e), tt)
  | OutOfFuel => (OutOfFuel, tt)
  end.
Proof.
  intros Hv He Hc. unfold release_notes_handler.
  destruct (validate_input proj fixver issuetype) as [valid errors].
  simpl in Hv. subst valid. cbn [negb].
  unfold configure, AppConfig.get_enricher_config. rewrite He, Hc.
  unfold bind, ret, out_of_fuel.
  destruct (process config) as [[r|]|e|]; reflexivity.
Qed.

(** X24.  A failure of the Jira search is answered with 502, whatever the
    exception was: an unauthorized answer of the Jira server included, for
    which the route does not give 401. *)
Theorem jira_failure_answers_502 proj fixver issuetype config :
  fst (validate_input proj fixver issuetype) = true ->
  AppConfig._validate_env_vars environ = None ->
  AppConfig._get_base_config environ py_int (build_jql proj fixver issuetype) issuetype
  = Some config ->
  (forall c, new_enricher c = None) -> (forall c, deadline_passed c = false) ->
  (forall jql max_results, exists e, jira_search_parse jql max_results = inl e) ->
  exists msg,
    handler proj fixver issuetype tt
    = (Ok {| status_code := 502;
             response_body := Error ("Jira API error: " +:+ msg) |}, tt).
Proof.
  intros Hv He Hc Hn Hd Hfail.
  rewrite (handler_runs _ _ _ _ Hv He Hc), (process_runs _ Hn Hd). unfold run_batch.
  destruct (BatchProps.fetch_before_enrichment json_loads (corrected config) schema_init
              model_validate_json kernel_invoke py_repr jira_wrapper_new
              jira_search_parse debug_enabled format_issue
              (environ !! "CONFLUENCE_PARENT_ID") page_create [])
    as (pre & _ & [(e & -> & Hclass & _)
                  | [(_ & jql & max_results & Hs)
                    | (parsed & jql & max_results & _ & Hs & _)]]).
  - cbn [fst]. rewrite Hclass. exists (message e).
    unfold error_response. rewrite Hclass. reflexivity.
  - destruct (Hfail jql max_results) as [e He']. congruence.
  - destruct (Hfail jql max_results) as [e He']. congruence.
Qed.

(** The settings the fetch reads by subscript, in the configuration of a
    request. *)
Lemma request_settings jql issuetype config :
  AppConfig._get_base_config environ py_int jql issuetype = Some config ->
  corrected config !! "jql" = Some (VStr jql) /\
  (exists n, corrected config !! "max_results" = Some (VInt n)) /\
  corrected config !! "jira_username" <> None /\
  corrected config !! "jira_api_key" <> None /\
  corrected config !! "jira_url" <> None.
Proof.
  intros H. destruct (AppConfig.base_config_is_settings _ _ _ _ _ H) as [m ->].
  rewrite !corrected_lookup by discriminate.
  split; [reflexivity|]. split; [exists m; reflexivity|].
  set (settings := AppConfig.base_settings environ _ issuetype m).
  assert (settings !! "jira_username"
          = Some (AppConfig.getenv environ "ATLASSIAN_USERNAME")) as -> by reflexivity.
  assert (settings !! "jira_api_key"
          = Some (AppConfig.getenv environ "ATLASSIAN_API_KEY")) as -> by reflexivity.
  assert (settings !! "jira_url"
          = Some (AppConfig.getenv environ "ATLASSIAN_URL")) as -> by reflexivity.
  repeat split; discriminate.
Qed.

(** X25.  A search that finds nothing is answered with 200 and the status
    [success]: the bare return of the enricher is no dictionary, so the
    details of the body are the default sentence. *)
Theorem empty_search_answers_200 proj fixver issuetype config :
  fst (validate_input proj fixver issuetype) = true ->
  AppConfig._validate_env_vars environ = None ->
  AppConfig._get_base_config environ py_int (build_jql proj fixver issuetype) issuetype
  = Some config ->
  (forall c, new_enricher c = None) -> (forall c, deadline_passed c = false) ->
  jira_wrapper_new = None ->
  (forall jql max_results, jira_search_parse jql max_results = inr []) ->
  handler proj fixver issuetype tt
  = (Ok {| status_code := 200;
           response_body :=
             Success proj fixver issuetype
               (inr ("Successfully processed request for " +:+ proj +:+ "/"
                     +:+ fixver +:+ "/" +:+ issuetype)) |}, tt).
Proof.
  intros Hv He Hc Hn Hd Hw Hempty.
  rewrite (handler_runs _ _ _ _ Hv He Hc), (process_runs _ Hn Hd). unfold run_batch.
  destruct (request_settings _ _ _ Hc) as (Hjql & [m Hmax] & K1 & K2 & K3).
  destruct (BatchProps.fetch_before_enrichment json_loads (corrected config) schema_init
              model_validate_json kernel_invoke py_repr jira_wrapper_new
              jira_search_parse debug_enabled format_issue
              (environ !! "CONFLUENCE_PARENT_ID") page_create [])
    as (pre & _ & [(e & _ & _ & Hwhy)
                  | [(-> & _)
                    | (parsed & jql & max_results & Hne & Hs & _)]]).
  - exfalso.
    destruct (Hwhy _ _ [] (Hempty _ _) eq_refl Hjql Hmax) as [H | [H | [H | H]]];
      contradiction.
  - reflexivity.
  - rewrite Hempty in Hs. now injection Hs as <-.
Qed.

(** X26.  The route with a limit starts a run only for a limit from 1 to 1000,
    and the run then has this limit as its [max_results]: every other
    answer to the limit is 400. *)
Theorem limit_is_checked_before_the_run proj fixver issuetype max_results_str resp :
  limit_handler proj fixver issuetype max_results_str tt = (Ok resp, tt) ->
  status_code resp <> 400 ->
  exists n config,
    py_int max_results_str = Some n /\ (1 <= n <= 1000)%Z /\
    fst (validate_input proj fixver issuetype) = true /\
    AppConfig.get_enricher_config_with_options environ py_int
      (build_jql proj fixver issuetype) issuetype [("max_results", VInt n)]
    = Some config /\
    config !! "max_results" = Some (VInt n) /\
    match process config with
    | Ok _ => resp = {| status_code := 200; response_body := SuccessOnly |}
    | Raise e => resp = error_response e
    | OutOfFuel => False
    end.
Proof.
  unfold release_notes_with_limit_handler. intros H Hcode.
  destruct (py_int max_results_str) as [n|];
    [| injection H as <-; now destruct Hcode].
  destruct (validate_input proj fixver issuetype) as [[|] errors]; cbn [negb] in H;
    [| injection H as <-; now destruct Hcode].
  destruct ((n <=? 0)%Z || (1000 <? n)%Z) eqn:Hrange;
    [injection H as <-; now destruct Hcode|].
  apply orb_false_elim in Hrange as [H1 H2].
  apply Z.leb_gt in H1. apply Z.ltb_ge in H2.
  unfold configure, bind, ret, raise, out_of_fuel in H.
  destruct (AppConfig._validate_env_vars environ); [discriminate|].
  destruct (AppConfig.get_enricher_config_with_options environ py_int _ issuetype _)
    as [config|] eqn:Hc; [|discriminate].
  exists n, config. split; [reflexivity|]. split; [lia|]. split; [reflexivity|].
  split; [exact Hc|]. split.
  - unfold AppConfig.get_enricher_config_with_options in Hc.
    destruct (AppConfig._get_base_config environ py_int _ issuetype); [|discriminate].
    cbn in Hc. injection Hc as <-. apply lookup_insert_eq.
  - destruct (process config) as [r|e|]; [| |discriminate]; now injection H as <-.
Qed.

End Pipeline.

End Blueprint.

(* ===================================================================== *)
(** ** Further concrete runs *)
(* ===================================================================== *)

Module MoreExamples.

Import Enricher Trace RetryFacts StringFacts Examples.

(** *** The response extractor *)

Definition answer_in_prose : string :=
  "Here is {the} analysis: " +:+ "```" +:+ "json"
  +:+ (FileUtils.newline +:+ bug_json +:+ FileUtils.newline)
  +:+ "```" +:+ " Bye {now}.".

Lemma extract_result_is_json_in_text_witness :
  Json.loads (Extractor._extract_json_from_text Json.loads (fenced bug_json)) = true /\
  substring_of (Extractor._extract_json_from_text Json.loads (fenced bug_json))
    (fenced bug_json).
Proof.
  apply (ExtractorProps.extract_result_is_json_in_text Json.loads).
  vm_compute. discriminate.
Defined.

Lemma single_fenced_block_extracted_witness :
  Extractor._extract_json_from_text Json.loads answer_in_prose
  = Py.strip (FileUtils.newline +:+ bug_json +:+ FileUtils.newline).
Proof.
  apply (ExtractorProps.single_fenced_block_extracted Json.loads
           "Here is {the} analysis: " "json"
           (FileUtils.newline +:+ bug_json +:+ FileUtils.newline) " Bye {now}.").
  - reflexivity.
  - vm_compute. reflexivity.
  - left. reflexivity.
  - vm_compute. reflexivity.
Defined.

Definition small_object : string := "{" +:+ Py.quoted "a" +:+ ": 1}".

Lemma brace_candidate_starts_at_first_brace_witness :
  exists start_idx,
    Py.find_from 0 "{" ("note " +:+ small_object +:+ " tail") = Some start_idx /\
    Py.startswith small_object (Py.drop start_idx ("note " +:+ small_object +:+ " tail"))
    = true /\
    Py.startswith "{" small_object = true.
Proof.
  apply (ExtractorProps.brace_candidate_starts_at_first_brace Json.loads).
  vm_compute. reflexivity.
Defined.

(** *** The retry controller *)

Definition invoke_prose (issue_type : string) (issue_data : gmap string pyval)
    (attempt : nat) (additions : gmap string pyval) : invoke_outcome :=
  Returned (Some "Sorry, I cannot help.").

Definition invoke_timeout (issue_type : string) (issue_data : gmap string pyval)
    (attempt : nat) (additions : gmap string pyval) : invoke_outcome :=
  Raised timeout_exn.

Lemma unusable_answers_exhaust_the_attempts_witness :
  fst (analyze invoke_prose) = Ok None /\
  exists evs,
    st_trace (snd (analyze invoke_prose)) = [] ++ evs /\
    timeline evs = [TAttempt 1; TSleep 2; TAttempt 2; TSleep 4; TAttempt 3].
Proof.
  apply (RetryProps.unusable_answers_exhaust_the_attempts Json.loads config schema_init
           model_validate_json invoke_prose (issue_of "ABC-1") "Bug" (start "ABC-1") []).
  - reflexivity.
  - intros attempt _. exists "Sorry, I cannot help.".
    split; [reflexivity | left; vm_compute; reflexivity].
Defined.

Lemma three_timeouts_sleep_three_times_witness :
  fst (analyze invoke_timeout) = Ok None /\
  exists evs,
    st_trace (snd (analyze invoke_timeout)) = [] ++ evs /\
    timeline evs
    = [TAttempt 1; TSleep 2; TAttempt 2; TSleep 4; TAttempt 3; TSleep 8].
Proof.
  apply (RetryProps.three_timeouts_sleep_three_times Json.loads config schema_init
           model_validate_json invoke_timeout (issue_of "ABC-1") "Bug" (start "ABC-1") []).
  - reflexivity.
  - intros attempt _. exists timeout_exn. split; reflexivity.
Defined.

(** *** The batch coordinator *)

(** A batch with a given model service, search and logging level. *)
Definition batch (invoke : string -> gmap string pyval -> nat -> gmap string pyval
                           -> invoke_outcome)
    (search : pyval -> pyval -> py_exn + list (gmap string pyval)) (debug : bool) :=
  fetch_and_analyze_issues Json.loads config schema_init model_validate_json invoke
    py_repr None search debug format_issue None page_create [].

Definition found_five (jql max_results : pyval)
  : py_exn + list (gmap string pyval) := inr five_issues.

Definition search_refused (jql max_results : pyval)
  : py_exn + list (gmap string pyval) := inl unauthorized_exn.

Lemma unauthorized_leaves_no_partial_output_witness :
  persistence (snd (batch invoke_unauthorized found_five false)) = persistence [].
Proof.
  apply (BatchProps.unauthorized_leaves_no_partial_output Json.loads config schema_init
           model_validate_json invoke_unauthorized py_repr None found_five false
           format_issue None page_create [] (exn_of HttpUnauthorizedError "")).
  - vm_compute. reflexivity.
  - reflexivity.
Defined.

Lemma search_failure_is_a_fetch_error_witness :
  exists e' evs,
    batch invoke_some search_refused false = (Raise e', [] ++ evs) /\
    e_class e' = JiraFetchError /\ forallb BatchProps.is_log evs = true.
Proof.
  apply (BatchProps.search_failure_is_a_fetch_error Json.loads config schema_init
           model_validate_json invoke_some py_repr None search_refused false
           format_issue None page_create []).
  intros jql max_results. exists unauthorized_exn. reflexivity.
Defined.

Lemma debug_level_stops_the_batch_witness :
  exists evs,
    snd (batch invoke_some found_five true) = [] ++ evs /\
    forallb BatchProps.is_log evs = true /\
    ((fst (batch invoke_some found_five true) = Ok None /\
      exists jql max_results, found_five jql max_results = inr []) \/
     (exists e, fst (batch invoke_some found_five true) = Raise e /\
                (e_class e = JiraFetchError \/
                 e_class e = TypeError /\
                 exists jql max_results parsed,
                   found_five jql max_results = inr parsed /\ parsed <> []))).
Proof.
  apply (BatchProps.debug_level_stops_the_batch Json.loads config schema_init
           model_validate_json invoke_some py_repr None found_five true
           format_issue None page_create []).
  reflexivity.
Defined.

Lemma returned_status_is_success_witness :
  exists result tr,
    batch invoke_some found_five false = (Ok (Some result), tr) /\
    status result = "success" /\
    exists ds, details result = ds ++ [DCompleted].
Proof.
  destruct (batch invoke_some found_five false) as [[[result|]|e|] tr] eqn:E;
    try (vm_compute in E; discriminate).
  exists result, tr. split; [reflexivity|].
  apply (BatchProps.returned_status_is_success Json.loads config schema_init
           model_validate_json invoke_some py_repr None found_five false
           format_issue None page_create [] result tr).
  exact E.
Defined.

(** *** The constructor *)

(** Floats are written in tenths: [10] is [1.0]. *)
Definition o4_config : gmap string (Setup.cval (F := Z)) :=
  list_to_map
    [("azure_openai_gpt_deployment", Setup.CVal (VStr "o4-mini"));
     ("azure_openai_key", Setup.CVal (VStr "secret"));
     ("azure_openai_endpoint", Setup.CVal (VStr "https://example.openai.azure.com"));
     ("max_tokens", Setup.CVal (VInt 4000));
     ("temperature", Setup.CFloat 7%Z)].

Definition nonzero (x : Z) : bool := negb (x =? 0)%Z.

Definition service_ok (service_params : gmap string (Setup.cval (F := Z)))
  : option string := None.

Definition plugin_functions : string + list string := inr ["Bug"; "Issue"; "Epic"].

Lemma adjust_for_o4_mini_witness :
  let config' := Setup._adjust_config_for_model 10%Z o4_config in
  config' !! "azure_openai_chat_completions_api_version"
  = Some (Setup.CVal (VStr Setup.preview_version)) /\
  config' !! "max_tokens" = None /\
  config' !! "max_completion_tokens" = Some (Setup.CVal (VInt 4000)) /\
  (forall v, config' !! "temperature" = Some v -> Setup.equals_one 10%Z v = true).
Proof.
  apply (Setup.adjust_for_o4_mini 10%Z o4_config (Setup.CVal (VInt 4000)));
    reflexivity.
Defined.

Lemma o4_mini_needs_no_api_version_witness :
  Setup.first_missing nonzero (Setup._adjust_config_for_model 10%Z o4_config)
    Setup.azure_config_keys = None /\
  Setup.init 10%Z nonzero service_ok plugin_functions o4_config
  = Setup.Initialised (Setup._adjust_config_for_model 10%Z o4_config).
Proof.
  destruct (Setup.o4_mini_needs_no_api_version 10%Z nonzero service_ok plugin_functions
              o4_config (Setup.CVal (VStr "secret"))
              (Setup.CVal (VStr "https://example.openai.azure.com")))
    as [Hcheck Hinit]; try reflexivity.
  split; [exact Hcheck|].
  apply (Hinit eq_refl ["Bug"; "Issue"; "Epic"]); reflexivity.
Defined.

(** *** The configuration of a request and the routes *)

Definition environ : gmap string string :=
  list_to_map
    [("AZURE_OPENAI_KEY", "secret");
     ("AZURE_OPENAI_CHAT_COMPLETIONS_API_VERSION", "2024-02-01");
     ("AZURE_OPENAI_GPT_DEPLOYMENT", "gpt-4o");
     ("AZURE_OPENAI_ENDPOINT", "https://example.openai.azure.com");
     ("ATLASSIAN_URL", "https://jira.example.com");
     ("ATLASSIAN_USERNAME", "bot");
     ("ATLASSIAN_API_KEY", "token")].

(** [int] on the one string the runs give it. *)
Definition py_int (s : string) : option Z :=
  if String.eqb s "25" then Some 25%Z else None.

Definition request_jql : string := Blueprint.build_jql "ABC" "1.2.0" "Bug".

Definition request_config : gmap string pyval :=
  AppConfig.base_settings environ request_jql "Bug" 2.

Lemma request_config_saves_json_only_witness :
  (forall parsed, BatchFacts.expected_saves request_config parsed = [("json", parsed)]) /\
  dict_get request_config "jira_issue_type" (VStr "Issue") = VStr "Issue" /\
  dict_get request_config "file_path" VNone = VNone /\
  request_config !! "issue_type" = Some (VStr "Bug").
Proof.
  apply (AppConfig.request_config_saves_json_only environ py_int request_jql "Bug").
  reflexivity.
Defined.

Lemma request_config_has_the_fetch_settings_witness :
  request_config !! "jql" = Some (VStr request_jql) /\
  (exists n, request_config !! "max_results" = Some (VInt n)) /\
  (forall k, In k ["jira_username"; "jira_api_key"; "jira_url"] ->
             exists s, request_config !! k = Some (VStr s) /\ s <> "").
Proof.
  apply (AppConfig.request_config_has_the_fetch_settings environ py_int request_jql "Bug");
    reflexivity.
Defined.

Lemma validated_environment_passes_the_constructor_check_witness :
  Setup.first_missing nonzero
    (Setup._adjust_config_for_model 10%Z (Setup.CVal <$> request_config))
    Setup.azure_config_keys = None.
Proof.
  apply (AppConfig.validated_environment_passes_the_constructor_check environ py_int
           10%Z nonzero request_jql "Bug"); reflexivity.
Defined.

Definition no_error (config : gmap string pyval) : option string := None.

Definition in_time (config : gmap string pyval) : bool := false.

Definition found_nothing (jql max_results : pyval)
  : py_exn + list (gmap string pyval) := inr [].

(** The route on a search, with the services of the batch above. *)
Definition handle (search : pyval -> pyval -> py_exn + list (gmap string pyval)) :=
  Blueprint.release_notes_handler environ py_int no_error
    (Blueprint.run_batch environ Json.loads schema_init model_validate_json invoke_some
       py_repr None search false format_issue page_create)
    in_time.

Definition handle_with_limit
    (search : pyval -> pyval -> py_exn + list (gmap string pyval)) :=
  Blueprint.release_notes_with_limit_handler environ py_int no_error
    (Blueprint.run_batch environ Json.loads schema_init model_validate_json invoke_some
       py_repr None search false format_issue page_create)
    in_time.

Lemma jira_failure_answers_502_witness :
  exists msg,
    handle search_refused "ABC" "1.2.0" "Bug" tt
    = (Ok {| Blueprint.status_code := 502;
             Blueprint.response_body := Blueprint.Error ("Jira API error: " +:+ msg) |},
       tt).
Proof.
  apply (Blueprint.jira_failure_answers_502 environ py_int no_error in_time Json.loads
           schema_init model_validate_json invoke_some py_repr None search_refused false
           format_issue page_create "ABC" "1.2.0" "Bug" request_config);
    try reflexivity.
  intros jql max_results. exists unauthorized_exn. reflexivity.
Defined.

Lemma empty_search_answers_200_witness :
  handle found_nothing "ABC" "1.2.0" "Bug" tt
  = (Ok {| Blueprint.status_code := 200;
           Blueprint.response_body :=
             Blueprint.Success "ABC" "1.2.0" "Bug"
               (inr ("Successfully processed request for " +:+ "ABC" +:+ "/"
                     +:+ "1.2.0" +:+ "/" +:+ "Bug")) |}, tt).
Proof.
  apply (Blueprint.empty_search_answers_200 environ py_int no_error in_time Json.loads
           schema_init model_validate_json invoke_some py_repr None found_nothing false
           format_issue page_create "ABC" "1.2.0" "Bug" request_config);
    reflexivity.
Defined.

Lemma limit_is_checked_before_the_run_witness :
  exists n config,
    py_int "25" = Some n /\ (1 <= n <= 1000)%Z /\
    fst (Blueprint.validate_input "ABC" "1.2.0" "Bug") = true /\
    AppConfig.get_enricher_config_with_options environ py_int request_jql "Bug"
      [("max_results", VInt n)] = Some config /\
    config !! "max_results" = Some (VInt n) /\
    match Blueprint.process_with_timeout no_error
            (Blueprint.run_batch environ Json.loads schema_init model_validate_json
               invoke_some py_repr None found_nothing false format_issue page_create)
            in_time config with
    | Ok _ => {| Blueprint.status_code := 200;
                 Blueprint.response_body := Blueprint.SuccessOnly |}
              = {| Blueprint.status_code := 200;
                   Blueprint.response_body := Blueprint.SuccessOnly |}
    | Raise e => {| Blueprint.status_code := 200;
                    Blueprint.response_body := Blueprint.SuccessOnly |}
                 = Blueprint.error_response e
    | OutOfFuel => False
    end.
Proof.
  apply (Blueprint.limit_is_checked_before_the_run environ py_int no_error in_time
           Json.loads schema_init model_validate_json invoke_some py_repr None
           found_nothing false format_issue page_create "ABC" "1.2.0" "Bug" "25"
           {| Blueprint.status_code := 200;
              Blueprint.response_body := Blueprint.SuccessOnly |}).
  - vm_compute. reflexivity.
  - simpl. lia.
Defined.

(** *** The page body and the parsed issues *)

Definition bug_fields : gmap string pyval := list_to_map bug_analysis.

Lemma format_issue_body_is_long_enough_witness :
  exists body,
    FileUtils.format_issue py_repr "https://jira.example.com" (issue_of "ABC-1")
      bug_fields tt = (Ok body, tt) /\
    73 <= String.length (Py.strip body) /\
    String.eqb body "" || (String.length (Py.strip body) <? 50) = false.
Proof.
  destruct (FileUtils.format_issue py_repr "https://jira.example.com" (issue_of "ABC-1")
              bug_fields tt) as [[body| |] []] eqn:E;
    try (vm_compute in E; discriminate).
  exists body. split; [reflexivity|].
  apply (FileUtils.format_issue_body_is_long_enough py_repr "https://jira.example.com"
           (issue_of "ABC-1") bug_fields body).
  exact E.
Defined.

Lemma page_of_an_issue_without_type_key_witness :
  (forall lines,
     FileUtils.html_content py_repr "https://jira.example.com" (issue_of "ABC-1")
       bug_fields tt = (Ok lines, tt) ->
     In "<p><strong>Type:</strong> </p>" lines) /\
  FileUtils.format_issue py_repr "https://jira.example.com" (issue_of "ABC-1")
    bug_fields tt
  = FileUtils.format_issue py_repr "https://jira.example.com" (issue_of "ABC-1")
      (delete "cause" (delete "fix" (delete "impact" bug_fields))) tt.
Proof.
  apply (FileUtils.page_of_an_issue_without_type_key py_repr "https://jira.example.com"
           (issue_of "ABC-1") bug_fields); reflexivity.
Defined.

(** A search result with a bug that parses and an item that does not. *)
Definition named (key value : string) : pyval := VDict [(key, VStr value)].

Definition raw_bug : pyval :=
  VDict
    [("key", VStr "ABC-1"); ("id", VStr "10001");
     ("fields",
      VDict
        [("summary", VStr "Crash on save");
         ("created", VStr "2024-05-06T07:08:09.000+0000");
         ("priority", named "name" "High");
         ("status", named "name" "Done");
         ("description", VStr "The application crashes.");
         ("issuetype", named "name" "Bug");
         ("reporter", named "displayName" "Ann");
         ("fixVersions", VList [named "name" "1.2.0"]);
         ("comment",
          VDict
            [("comments",
              VList
                [VDict
                   [("body", VStr "Thanks [~accountid:5b10] for the report");
                    ("author", named "displayName" "Bob");
                    ("created", VStr "2024-05-07")]])])])].

Definition raw_response : pyval :=
  VDict [("total", VInt 2); ("issues", VList [VStr "broken"; raw_bug])].

(** What [parse_issues] makes of it: the first item is left out, the date
    is cut to ten characters, the reference to the account is removed from
    the comment, and the missing assignee and parent are the string
    [None]. *)
Definition parsed_bug : gmap string pyval :=
  list_to_map
    [("key", VStr "ABC-1"); ("summary", VStr "Crash on save");
     ("created", VStr "2024-05-06"); ("assignee", VStr "None");
     ("priority", VStr "High"); ("status", VStr "Done");
     ("description", VStr "The application crashes."); ("id", VStr "10001");
     ("issuetype", VStr "Bug"); ("components", VList []);
     ("comments",
      VList [VDict [("body", VStr "Thanks  for the report");
                    ("author", VStr "Bob"); ("created", VStr "2024-05-07")]]);
     ("related_issues", VDict []); ("fixVersions", VList [VStr "1.2.0"]);
     ("reporter", VStr "Ann"); ("labels", VList []); ("wsjf", VNone);
     ("imgURLs", VList []); ("parent", VStr "None")].

Lemma parsed_issues_have_the_eighteen_fields_witness :
  (forall k, is_Some (parsed_bug !! k) <-> In k JiraClient.parsed_keys) /\
  (exists t, dict_get parsed_bug "issuetype" (VStr "") = VStr t) /\
  is_Some (parsed_bug !! "key") /\
  parsed_bug !! "fields" = None /\ parsed_bug !! "issue_type" = None.
Proof.
  apply (JiraClient.parsed_issues_have_the_eighteen_fields raw_response [parsed_bug]
           parsed_bug).
  - vm_compute. reflexivity.
  - left. reflexivity.
Defined.

End MoreExamples.
